(** * Qubic Risk Radar frontend: a shallow embedding of the React client

    The development embeds the parts of the TypeScript frontend that the
    specification talks about: the exported domain types, the status badge,
    the route table and the route guard, the API client, the pagination
    controls of the list pages, and the onboarding wizard with its polling
    effect.  JavaScript numbers that only ever hold small integers (page
    numbers, wizard steps, timer delays) are modelled as [Z]; plain objects
    used as dictionaries and the browser's timer table are [gmap]s. *)

From Stdlib Require Import ZArith String Ascii List Bool Lia DecimalString.
From stdpp Require Import gmap strings list.
Import ListNotations.

Local Open Scope string_scope.
Local Open Scope Z_scope.

(* ===================================================================== *)
(** * Definitions *)
(* ===================================================================== *)

(** ** JavaScript helpers *)

Module Js.

(** Truthiness of a possibly missing string: [undefined] and the empty
    string are falsy. *)
Definition truthy (v : option string) : bool :=
  match v with
  | Some s => negb (String.eqb s "")
  | None => false
  end.

(** [a || dflt] where [a] is a possibly missing string. *)
Definition or_else (v : option string) (dflt : string) : string :=
  match v with
  | Some s => if String.eqb s "" then dflt else s
  | None => dflt
  end.

Definition ascii_toUpperCase (a : ascii) : ascii :=
  let n := nat_of_ascii a in
  if (Nat.leb 97 n && Nat.leb n 122)%bool then ascii_of_nat (n - 32) else a.

(** [String.prototype.toUpperCase] on ASCII text. *)
Fixpoint toUpperCase (s : string) : string :=
  match s with
  | EmptyString => EmptyString
  | String a r => String (ascii_toUpperCase a) (toUpperCase r)
  end.

(** [clsx(a, b, ...)] on string arguments: falsy arguments are dropped,
    the others are joined with single spaces. *)
Fixpoint clsx (args : list (option string)) : string :=
  match args with
  | [] => ""
  | a :: rest =>
      if truthy a then
        let tl := clsx rest in
        if String.eqb tl "" then or_else a "" else or_else a "" +:+ " " +:+ tl
      else clsx rest
  end.

(** [s.startsWith(p)]. *)
Fixpoint startsWith (p s : string) : bool :=
  match p, s with
  | EmptyString, _ => true
  | String _ _, EmptyString => false
  | String a p', String b s' => Ascii.eqb a b && startsWith p' s'
  end.

End Js.

(** ** The exported domain types (types module) *)

Module Types.

(** A TypeScript interface as data: the declared members in order. *)
Inductive TsType :=
| TString
| TNumber
| TBoolean
| TArray (elt : TsType)
| TLiteralUnion (alternatives : list string)
| TRecord (key value : TsType).

Record Member := {
  member_name : string;
  member_optional : bool;
  member_type : TsType
}.

Definition Interface := list Member.

Definition req (n : string) (t : TsType) : Member :=
  {| member_name := n; member_optional := false; member_type := t |}.
Definition opt (n : string) (t : TsType) : Member :=
  {| member_name := n; member_optional := true; member_type := t |}.

Definition Detection : Interface :=
  [ req "id" TString;
    req "severity" (TLiteralUnion ["CRITICAL"; "HIGH"; "MEDIUM"; "LOW"; "INFO"]);
    req "summary" TString;
    req "anomaly_score" TNumber;
    req "confidence" TNumber;
    req "primary_category" TString;
    opt "sub_categories" (TArray TString);
    req "scope" TString;
    opt "detailed_analysis" TString;
    opt "detected_patterns" (TArray TString);
    opt "risk_factors" (TArray TString);
    opt "recommendations" (TArray TString);
    req "created_at" TString ].

Definition Incident : Interface :=
  [ req "id" TString;
    req "title" TString;
    req "severity" TString;
    req "category" TString;
    req "status" (TLiteralUnion ["open"; "investigating"; "resolved"; "closed"]);
    req "created_at" TString;
    opt "resolved_at" TString ].

Definition member_names (i : Interface) : list string :=
  map member_name i.

Definition has_member (i : Interface) (n : string) : bool :=
  existsb (String.eqb n) (member_names i).

Definition member_lookup (i : Interface) (n : string) : option Member :=
  find (fun m => String.eqb n (member_name m)) i.

(** The values of [Incident['status']]. *)
Inductive IncidentStatus := open | investigating | resolved | closed.

Definition status_string (s : IncidentStatus) : string :=
  match s with
  | open => "open"
  | investigating => "investigating"
  | resolved => "resolved"
  | closed => "closed"
  end.

Definition all_statuses : list IncidentStatus :=
  [open; investigating; resolved; closed].

(** An [Incident] value, as the interface declares it. *)
Record IncidentValue := {
  id : string;
  title : string;
  severity : string;
  category : string;
  status : IncidentStatus;
  created_at : string;
  resolved_at : option string
}.

(** Reading a property of an [Incident] value by name, as
    [incident.name] does at run time: a property the record does not
    carry reads as [undefined]. *)
Definition get_string (v : IncidentValue) (n : string) : option string :=
  if String.eqb n "id" then Some (id v)
  else if String.eqb n "title" then Some (title v)
  else if String.eqb n "severity" then Some (severity v)
  else if String.eqb n "category" then Some (category v)
  else if String.eqb n "status" then Some (status_string (status v))
  else if String.eqb n "created_at" then Some (created_at v)
  else if String.eqb n "resolved_at" then resolved_at v
  else None.

End Types.

(** ** IncidentCard: the members of [incident] the card reads *)

Module IncidentCard.

(** Every [incident.x] in the component body, in order of appearance. *)
Definition reads : list string :=
  [ "metadata_json"; "id"; "severity"; "status"; "first_seen_at"; "title";
    "description"; "type"; "protocol" ].

(** The "Protocol:" row is rendered only when [incident.protocol] is
    truthy. *)
Definition protocol_row (incident : Types.IncidentValue) : option string :=
  if Js.truthy (Types.get_string incident "protocol")
  then Types.get_string incident "protocol"
  else None.

End IncidentCard.

(** ** StatusBadge *)

Module StatusBadge.

Definition baseClasses : string :=
  "inline-flex items-center px-2.5 py-0.5 rounded-full text-xs font-medium".

(** The object literal [statusClasses], a dictionary keyed by status. *)
Definition statusClasses : gmap string string :=
  <["open" := "bg-red-100 text-red-700"]>
    (<["acknowledged" := "bg-yellow-100 text-yellow-700"]>
       (<["resolved" := "bg-green-100 text-green-700"]> ∅)).

Record Span := { span_className : string; span_text : string }.

Definition StatusBadge (status : Types.IncidentStatus)
    (className : option string) : Span :=
  {| span_className :=
       Js.clsx [ Some baseClasses;
                 statusClasses !! Types.status_string status;
                 className ];
     span_text := Js.toUpperCase (Types.status_string status) |}.

End StatusBadge.

(** ** Routing: the route table of [App] and the [ProtectedRoute] guard *)

Module Routing.

Inductive Page :=
| LoginPage | SignupPage | Dashboard | Detections | WebhooksManagement
| Analytics.

(** What a route renders to. *)
Inductive Element :=
| Component (p : Page)
| Navigate (to : string) (from : option string) (replace : bool)
| LoadingScreen.

Record User := {
  user_id : string;
  email : string;
  full_name : string;
  is_verified : bool;
  onboarding_completed : bool
}.

(** The part of the auth context the guard reads. *)
Record Auth := { user : option User; loading : bool }.

Definition ProtectedRoute (auth : Auth) (pathname : string)
    (children : Element) : Element :=
  if loading auth then LoadingScreen
  else match user auth with
       | None => Navigate "/login" (Some pathname) true
       | Some u =>
           if (negb (onboarding_completed u)
               && negb (String.eqb pathname "/onboarding"))%bool
           then Navigate "/onboarding" None true
           else children
       end.

(** The [<Route path element>] entries of [App], in source order.  The
    elements are fixed: none of them reads the auth context. *)
Definition App_routes (auth : Auth) : list (string * Element) :=
  [ ("/login", Component LoginPage);
    ("/signup", Component SignupPage);
    ("/", Navigate "/dashboard" None true);
    ("/dashboard", Component Dashboard);
    ("/detections", Component Detections);
    ("/webhooks", Component WebhooksManagement);
    ("/analytics", Component Analytics) ].

(** The routes listed under the "Protected routes" comment that render a
    page. *)
Definition protected_paths : list string :=
  ["/dashboard"; "/detections"; "/webhooks"; "/analytics"].

(** [<Routes>] over static paths: the element of the route whose path is
    the location, if any. *)
Definition App (auth : Auth) (pathname : string) : option Element :=
  snd <$> find (fun r => String.eqb (fst r) pathname) (App_routes auth).

Definition is_login_redirect (e : Element) : bool :=
  match e with
  | Navigate to _ _ => String.eqb to "/login"
  | _ => false
  end.

End Routing.

(** ** The API client *)

Module ApiClient.

Inductive HttpMethod := GET | POST | PUT | DELETE.

(** One constructor per public method of the class; only the arguments
    that reach the request path are kept (query parameters and bodies do
    not change the path). *)
Inductive Call :=
| getDetections
| getDetection (id : string)
| getDetectionStats
| submitDetectionFeedback (id : string)
| getIncidents
| updateIncident (id : string)
| resolveIncident (id : string)
| getRoutingRules
| createRoutingRule
| updateRoutingRule (id : string)
| deleteRoutingRule (id : string)
| initDefaultRoutingRules
| getNotificationLogs
| getNotificationStats
| getWebhooks
| getWebhook (id : string)
| createWebhook
| updateWebhook (id : string)
| deleteWebhook (id : string)
| regenerateWebhookSecret (id : string)
| getWebhookTags
| getWebhookStats
| generateReport
| getReports
| getReport (id : string)
| getAnalyticsOverview
| getSeverityStats
| getCategoryStats
| getTimelineTrend.

Definition request (c : Call) : HttpMethod * string :=
  match c with
  | getDetections => (GET, "/api/detections")
  | getDetection id => (GET, "/api/detections/" +:+ id)
  | getDetectionStats => (GET, "/api/detections/stats")
  | submitDetectionFeedback id => (POST, "/api/detections/" +:+ id +:+ "/feedback")
  | getIncidents => (GET, "/api/detections/incidents")
  | updateIncident id => (PUT, "/api/detections/incidents/" +:+ id)
  | resolveIncident id => (POST, "/api/detections/incidents/" +:+ id +:+ "/resolve")
  | getRoutingRules => (GET, "/api/routing-rules")
  | createRoutingRule => (POST, "/api/routing-rules")
  | updateRoutingRule id => (PUT, "/api/routing-rules/" +:+ id)
  | deleteRoutingRule id => (DELETE, "/api/routing-rules/" +:+ id)
  | initDefaultRoutingRules => (POST, "/api/routing-rules/init-defaults")
  | getNotificationLogs => (GET, "/api/notifications/logs")
  | getNotificationStats => (GET, "/api/notifications/stats")
  | getWebhooks => (GET, "/api/webhooks")
  | getWebhook id => (GET, "/api/webhooks/" +:+ id)
  | createWebhook => (POST, "/api/webhooks")
  | updateWebhook id => (PUT, "/api/webhooks/" +:+ id)
  | deleteWebhook id => (DELETE, "/api/webhooks/" +:+ id)
  | regenerateWebhookSecret id => (POST, "/api/webhooks/" +:+ id +:+ "/regenerate-secret")
  | getWebhookTags => (GET, "/api/webhooks/tags/list")
  | getWebhookStats => (GET, "/api/webhooks/stats/overview")
  | generateReport => (POST, "/api/analytics/reports/generate")
  | getReports => (GET, "/api/analytics/reports")
  | getReport id => (GET, "/api/analytics/reports/" +:+ id)
  | getAnalyticsOverview => (GET, "/api/analytics/overview")
  | getSeverityStats => (GET, "/api/analytics/stats/severity")
  | getCategoryStats => (GET, "/api/analytics/stats/categories")
  | getTimelineTrend => (GET, "/api/analytics/trends/timeline")
  end.

Definition path (c : Call) : string := snd (request c).

(** The prefixes the specification lists as the system boundary. *)
Definition boundary_prefixes : list string :=
  [ "/auth"; "/incidents"; "/metrics"; "/api/detections"; "/api/webhooks";
    "/api/routing-rules"; "/api/analytics"; "/onboarding" ].

Definition under (prefixes : list string) (p : string) : bool :=
  existsb (fun pre => Js.startsWith pre p) prefixes.

(** The request interceptor installed by the constructor.  [storage] is
    [localStorage]; the headers are a dictionary.  The token is read with
    [getItem] when the request is sent and the header is set only for a
    truthy token. *)
Definition interceptor (storage : gmap string string)
    (headers : gmap string string) : gmap string string :=
  match storage !! "access_token" with
  | Some token =>
      if Js.truthy (Some token)
      then <["Authorization" := "Bearer " +:+ token]> headers
      else headers
  | None => headers
  end.

(** Headers every request starts from ([axios.create]). *)
Definition default_headers : gmap string string :=
  {["Content-Type" := "application/json"]}.

Definition send_headers (storage : gmap string string) : gmap string string :=
  interceptor storage default_headers.

(** The property name of each method on the client object. *)
Definition method_name (c : Call) : string :=
  match c with
  | getDetections => "getDetections"
  | getDetection _ => "getDetection"
  | getDetectionStats => "getDetectionStats"
  | submitDetectionFeedback _ => "submitDetectionFeedback"
  | getIncidents => "getIncidents"
  | updateIncident _ => "updateIncident"
  | resolveIncident _ => "resolveIncident"
  | getRoutingRules => "getRoutingRules"
  | createRoutingRule => "createRoutingRule"
  | updateRoutingRule _ => "updateRoutingRule"
  | deleteRoutingRule _ => "deleteRoutingRule"
  | initDefaultRoutingRules => "initDefaultRoutingRules"
  | getNotificationLogs => "getNotificationLogs"
  | getNotificationStats => "getNotificationStats"
  | getWebhooks => "getWebhooks"
  | getWebhook _ => "getWebhook"
  | createWebhook => "createWebhook"
  | updateWebhook _ => "updateWebhook"
  | deleteWebhook _ => "deleteWebhook"
  | regenerateWebhookSecret _ => "regenerateWebhookSecret"
  | getWebhookTags => "getWebhookTags"
  | getWebhookStats => "getWebhookStats"
  | generateReport => "generateReport"
  | getReports => "getReports"
  | getReport _ => "getReport"
  | getAnalyticsOverview => "getAnalyticsOverview"
  | getSeverityStats => "getSeverityStats"
  | getCategoryStats => "getCategoryStats"
  | getTimelineTrend => "getTimelineTrend"
  end.

(** The methods the class declares, in source order. *)
Definition method_names : list string :=
  [ "getDetections"; "getDetection"; "getDetectionStats";
    "submitDetectionFeedback"; "getIncidents"; "updateIncident";
    "resolveIncident"; "getRoutingRules"; "createRoutingRule";
    "updateRoutingRule"; "deleteRoutingRule"; "initDefaultRoutingRules";
    "getNotificationLogs"; "getNotificationStats"; "getWebhooks";
    "getWebhook"; "createWebhook"; "updateWebhook"; "deleteWebhook";
    "regenerateWebhookSecret"; "getWebhookTags"; "getWebhookStats";
    "generateReport"; "getReports"; "getReport"; "getAnalyticsOverview";
    "getSeverityStats"; "getCategoryStats"; "getTimelineTrend" ].

(** A client object as a call site sees it: the names under which it holds
    a function.  Calling [client.name(..)] for any other name throws a
    TypeError at the call, before a request exists. *)
Definition Client := list string.

Definition provides (client : Client) (name : string) : bool :=
  existsb (String.eqb name) client.

(** [export const apiClient = new ApiClient()]: the functions of the
    object are the methods of the class.  The axios instance sits in the
    field [client]; its verbs are not properties of the object itself. *)
Definition exported : Client := method_names.

(** The verbs of the axios instance that the methods of the class call
    ([this.client.get], [.post], [.put], [.delete]). *)
Definition axios_verbs : Client := ["get"; "post"; "put"; "delete"].

End ApiClient.

(** ** Pagination controls of the list pages *)

Module Pagination.

(** The two pages that render the Previous/Next controls. *)
Inductive ListPage := IncidentsPage | DetectionsPage.

Inductive Click := Previous | Next.


(** The updater passed to [setPage] by each button. *)
Definition updater (_ : ListPage) (totalPages : Z) (c : Click) (p : Z) : Z :=
  match c with
  | Previous => Z.max 1 (p - 1)
  | Next => Z.min totalPages (p + 1)
  end.

(** The controls are rendered only when [totalPages > 1]. *)
Definition controls_rendered (_ : ListPage) (totalPages : Z) : bool :=
  1 <? totalPages.

Definition disabled (_ : ListPage) (totalPages : Z) (c : Click) (page : Z) : bool :=
  match c with
  | Previous => page =? 1
  | Next => page =? totalPages
  end.

End Pagination.

(** ** The onboarding wizard *)

Module Onboarding.

(** The [useState] cells of [OnboardingWizard]. *)
Record State := {
  currentStep : Z;
  loading : bool;
  error : string;
  alertId : string;
  webhookUrl : string;
  webhookSecret : string;
  webhookConfigured : bool;
  testReceived : bool;
  polling : bool;
  discordId : string;
  telegramId : string;
  emailEnabled : bool;
  discordVerified : bool;
  telegramVerified : bool;
  discordLoading : bool;
  telegramLoading : bool
}.

(** The initial values passed to [useState]. *)
Definition initial_state : State :=
  {| currentStep := 1; loading := false; error := "";
     alertId := ""; webhookUrl := ""; webhookSecret := "";
     webhookConfigured := false;
     testReceived := false; polling := false;
     discordId := ""; telegramId := ""; emailEnabled := true;
     discordVerified := false; telegramVerified := false;
     discordLoading := false; telegramLoading := false |}.

(** The state setters returned by [useState]. *)
Definition setCurrentStep (v : Z) (s : State) : State :=
  {| currentStep := v; loading := loading s; error := error s;
     alertId := alertId s; webhookUrl := webhookUrl s;
     webhookSecret := webhookSecret s;
     webhookConfigured := webhookConfigured s;
     testReceived := testReceived s; polling := polling s;
     discordId := discordId s; telegramId := telegramId s;
     emailEnabled := emailEnabled s; discordVerified := discordVerified s;
     telegramVerified := telegramVerified s;
     discordLoading := discordLoading s;
     telegramLoading := telegramLoading s |}.
Definition setLoading (v : bool) (s : State) : State :=
  {| currentStep := currentStep s; loading := v; error := error s;
     alertId := alertId s; webhookUrl := webhookUrl s;
     webhookSecret := webhookSecret s;
     webhookConfigured := webhookConfigured s;
     testReceived := testReceived s; polling := polling s;
     discordId := discordId s; telegramId := telegramId s;
     emailEnabled := emailEnabled s; discordVerified := discordVerified s;
     telegramVerified := telegramVerified s;
     discordLoading := discordLoading s;
     telegramLoading := telegramLoading s |}.
Definition setError (v : string) (s : State) : State :=
  {| currentStep := currentStep s; loading := loading s; error := v;
     alertId := alertId s; webhookUrl := webhookUrl s;
     webhookSecret := webhookSecret s;
     webhookConfigured := webhookConfigured s;
     testReceived := testReceived s; polling := polling s;
     discordId := discordId s; telegramId := telegramId s;
     emailEnabled := emailEnabled s; discordVerified := discordVerified s;
     telegramVerified := telegramVerified s;
     discordLoading := discordLoading s;
     telegramLoading := telegramLoading s |}.
Definition setAlertId (v : string) (s : State) : State :=
  {| currentStep := currentStep s; loading := loading s; error := error s;
     alertId := v; webhookUrl := webhookUrl s;
     webhookSecret := webhookSecret s;
     webhookConfigured := webhookConfigured s;
     testReceived := testReceived s; polling := polling s;
     discordId := discordId s; telegramId := telegramId s;
     emailEnabled := emailEnabled s; discordVerified := discordVerified s;
     telegramVerified := telegramVerified s;
     discordLoading := discordLoading s;
     telegramLoading := telegramLoading s |}.
Definition setWebhookUrl (v : string) (s : State) : State :=
  {| currentStep := currentStep s; loading := loading s; error := error s;
     alertId := alertId s; webhookUrl := v;
     webhookSecret := webhookSecret s;
     webhookConfigured := webhookConfigured s;
     testReceived := testReceived s; polling := polling s;
     discordId := discordId s; telegramId := telegramId s;
     emailEnabled := emailEnabled s; discordVerified := discordVerified s;
     telegramVerified := telegramVerified s;
     discordLoading := discordLoading s;
     telegramLoading := telegramLoading s |}.
Definition setWebhookSecret (v : string) (s : State) : State :=
  {| currentStep := currentStep s; loading := loading s; error := error s;
     alertId := alertId s; webhookUrl := webhookUrl s; webhookSecret := v;
     webhookConfigured := webhookConfigured s;
     testReceived := testReceived s; polling := polling s;
     discordId := discordId s; telegramId := telegramId s;
     emailEnabled := emailEnabled s; discordVerified := discordVerified s;
     telegramVerified := telegramVerified s;
     discordLoading := discordLoading s;
     telegramLoading := telegramLoading s |}.
Definition setWebhookConfigured (v : bool) (s : State) : State :=
  {| currentStep := currentStep s; loading := loading s; error := error s;
     alertId := alertId s; webhookUrl := webhookUrl s;
     webhookSecret := webhookSecret s; webhookConfigured := v;
     testReceived := testReceived s; polling := polling s;
     discordId := discordId s; telegramId := telegramId s;
     emailEnabled := emailEnabled s; discordVerified := discordVerified s;
     telegramVerified := telegramVerified s;
     discordLoading := discordLoading s;
     telegramLoading := telegramLoading s |}.
Definition setTestReceived (v : bool) (s : State) : State :=
  {| currentStep := currentStep s; loading := loading s; error := error s;
     alertId := alertId s; webhookUrl := webhookUrl s;
     webhookSecret := webhookSecret s;
     webhookConfigured := webhookConfigured s; testReceived := v;
     polling := polling s; discordId := discordId s;
     telegramId := telegramId s; emailEnabled := emailEnabled s;
     discordVerified := discordVerified s;
     telegramVerified := telegramVerified s;
     discordLoading := discordLoading s;
     telegramLoading := telegramLoading s |}.
Definition setPolling (v : bool) (s : State) : State :=
  {| currentStep := currentStep s; loading := loading s; error := error s;
     alertId := alertId s; webhookUrl := webhookUrl s;
     webhookSecret := webhookSecret s;
     webhookConfigured := webhookConfigured s;
     testReceived := testReceived s; polling := v;
     discordId := discordId s; telegramId := telegramId s;
     emailEnabled := emailEnabled s; discordVerified := discordVerified s;
     telegramVerified := telegramVerified s;
     discordLoading := discordLoading s;
     telegramLoading := telegramLoading s |}.
Definition setDiscordId (v : string) (s : State) : State :=
  {| currentStep := currentStep s; loading := loading s; error := error s;
     alertId := alertId s; webhookUrl := webhookUrl s;
     webhookSecret := webhookSecret s;
     webhookConfigured := webhookConfigured s;
     testReceived := testReceived s; polling := polling s; discordId := v;
     telegramId := telegramId s; emailEnabled := emailEnabled s;
     discordVerified := discordVerified s;
     telegramVerified := telegramVerified s;
     discordLoading := discordLoading s;
     telegramLoading := telegramLoading s |}.
Definition setTelegramId (v : string) (s : State) : State :=
  {| currentStep := currentStep s; loading := loading s; error := error s;
     alertId := alertId s; webhookUrl := webhookUrl s;
     webhookSecret := webhookSecret s;
     webhookConfigured := webhookConfigured s;
     testReceived := testReceived s; polling := polling s;
     discordId := discordId s; telegramId := v;
     emailEnabled := emailEnabled s; discordVerified := discordVerified s;
     telegramVerified := telegramVerified s;
     discordLoading := discordLoading s;
     telegramLoading := telegramLoading s |}.
Definition setEmailEnabled (v : bool) (s : State) : State :=
  {| currentStep := currentStep s; loading := loading s; error := error s;
     alertId := alertId s; webhookUrl := webhookUrl s;
     webhookSecret := webhookSecret s;
     webhookConfigured := webhookConfigured s;
     testReceived := testReceived s; polling := polling s;
     discordId := discordId s; telegramId := telegramId s;
     emailEnabled := v; discordVerified := discordVerified s;
     telegramVerified := telegramVerified s;
     discordLoading := discordLoading s;
     telegramLoading := telegramLoading s |}.
Definition setDiscordVerified (v : bool) (s : State) : State :=
  {| currentStep := currentStep s; loading := loading s; error := error s;
     alertId := alertId s; webhookUrl := webhookUrl s;
     webhookSecret := webhookSecret s;
     webhookConfigured := webhookConfigured s;
     testReceived := testReceived s; polling := polling s;
     discordId := discordId s; telegramId := telegramId s;
     emailEnabled := emailEnabled s; discordVerified := v;
     telegramVerified := telegramVerified s;
     discordLoading := discordLoading s;
     telegramLoading := telegramLoading s |}.
Definition setTelegramVerified (v : bool) (s : State) : State :=
  {| currentStep := currentStep s; loading := loading s; error := error s;
     alertId := alertId s; webhookUrl := webhookUrl s;
     webhookSecret := webhookSecret s;
     webhookConfigured := webhookConfigured s;
     testReceived := testReceived s; polling := polling s;
     discordId := discordId s; telegramId := telegramId s;
     emailEnabled := emailEnabled s; discordVerified := discordVerified s;
     telegramVerified := v; discordLoading := discordLoading s;
     telegramLoading := telegramLoading s |}.
Definition setDiscordLoading (v : bool) (s : State) : State :=
  {| currentStep := currentStep s; loading := loading s; error := error s;
     alertId := alertId s; webhookUrl := webhookUrl s;
     webhookSecret := webhookSecret s;
     webhookConfigured := webhookConfigured s;
     testReceived := testReceived s; polling := polling s;
     discordId := discordId s; telegramId := telegramId s;
     emailEnabled := emailEnabled s; discordVerified := discordVerified s;
     telegramVerified := telegramVerified s; discordLoading := v;
     telegramLoading := telegramLoading s |}.
Definition setTelegramLoading (v : bool) (s : State) : State :=
  {| currentStep := currentStep s; loading := loading s; error := error s;
     alertId := alertId s; webhookUrl := webhookUrl s;
     webhookSecret := webhookSecret s;
     webhookConfigured := webhookConfigured s;
     testReceived := testReceived s; polling := polling s;
     discordId := discordId s; telegramId := telegramId s;
     emailEnabled := emailEnabled s; discordVerified := discordVerified s;
     telegramVerified := telegramVerified s;
     discordLoading := discordLoading s; telegramLoading := v |}.

(** [OnboardingStatus], the payload of GET /onboarding/status. *)
Record OnboardingStatus := {
  completed : bool;
  current_step : Z;
  webhook_configured : bool;
  webhook_test_received : bool;
  notifications_configured : bool;
  discord_verified : bool;
  telegram_verified : bool
}.

(** Payload of POST /onboarding/webhook. *)
Record WebhookCreated := { webhook_url : string; webhook_secret : string }.

(** Payload of the verify-discord / verify-telegram calls. *)
Record Verification := { success : bool; verification_error : option string }.

(** How an awaited API call settles: it resolves with the response data,
    or rejects with an error whose [response?.data?.detail] may be
    missing. *)
Inductive Settled (A : Type) :=
| Resolved (data : A)
| Rejected (detail : option string).
Arguments Resolved {A} data.
Arguments Rejected {A} detail.

Inductive JsValue := JString (s : string) | JBool (b : bool).

Record Request := {
  req_method : ApiClient.HttpMethod;
  req_path : string;
  req_body : list (string * JsValue)
}.

(** The browser's timers. *)
Inductive TimerKind := Interval | Timeout.

(** The two callbacks the wizard hands to the browser: the async arrow of
    the step-2 effect and the redirect of [handleComplete]. *)
Inductive Callback := PollTestStatus | NavigateDashboard.

Record Timer := { kind : TimerKind; delay : Z; callback : Callback }.

(** A mounted (or unmounted) wizard together with the part of the browser
    it touches.  [cleanup] is the function the last run of the step-2
    effect returned: [Some id] stands for [() => clearInterval(id)]. *)
Record Component := {
  st : State;
  mounted : bool;
  cleanup : option nat;
  timers : gmap nat Timer;
  next_timer : nat;
  inflight : list nat;
  requests : list Request;
  location : string
}.

Definition with_st (s : State) (c : Component) : Component :=
  {| st := s; mounted := mounted c; cleanup := cleanup c; timers := timers c;
     next_timer := next_timer c; inflight := inflight c;
     requests := requests c; location := location c |}.
Definition with_mounted (b : bool) (c : Component) : Component :=
  {| st := st c; mounted := b; cleanup := cleanup c; timers := timers c;
     next_timer := next_timer c; inflight := inflight c;
     requests := requests c; location := location c |}.
Definition with_cleanup (o : option nat) (c : Component) : Component :=
  {| st := st c; mounted := mounted c; cleanup := o; timers := timers c;
     next_timer := next_timer c; inflight := inflight c;
     requests := requests c; location := location c |}.
Definition with_timers (t : gmap nat Timer) (n : nat) (c : Component) : Component :=
  {| st := st c; mounted := mounted c; cleanup := cleanup c; timers := t;
     next_timer := n; inflight := inflight c;
     requests := requests c; location := location c |}.
Definition with_inflight (l : list nat) (c : Component) : Component :=
  {| st := st c; mounted := mounted c; cleanup := cleanup c; timers := timers c;
     next_timer := next_timer c; inflight := l;
     requests := requests c; location := location c |}.
Definition with_requests (l : list Request) (c : Component) : Component :=
  {| st := st c; mounted := mounted c; cleanup := cleanup c; timers := timers c;
     next_timer := next_timer c; inflight := inflight c;
     requests := l; location := location c |}.
Definition with_location (l : string) (c : Component) : Component :=
  {| st := st c; mounted := mounted c; cleanup := cleanup c; timers := timers c;
     next_timer := next_timer c; inflight := inflight c;
     requests := requests c; location := l |}.

(** *** Browser and React primitives *)

(** A state setter called on an unmounted component does nothing. *)
Definition setState (f : State -> State) (c : Component) : Component :=
  if mounted c then with_st (f (st c)) c else c.

(** [setInterval(cb, ms)]: registers a repeating timer under a fresh id. *)
Definition setInterval (cb : Callback) (ms : Z) (c : Component) : nat * Component :=
  (next_timer c,
   with_timers (<[next_timer c := {| kind := Interval; delay := ms; callback := cb |}]> (timers c))
               (S (next_timer c)) c).

(** [setTimeout(cb, ms)]: registers a one-shot timer under a fresh id. *)
Definition setTimeout (cb : Callback) (ms : Z) (c : Component) : nat * Component :=
  (next_timer c,
   with_timers (<[next_timer c := {| kind := Timeout; delay := ms; callback := cb |}]> (timers c))
               (S (next_timer c)) c).

(** [clearInterval(id)]: cancels the timer; unknown ids are ignored. *)
Definition clearInterval (id : nat) (c : Component) : Component :=
  with_timers (delete id (timers c)) (next_timer c) c.

(** A request handed to axios, as a verb of the client hands it over once
    the client has that verb.  The [_begin] functions below are the
    handlers up to their [await] on such a client, and [handle], [step]
    and [run] are the event loop on it; [OnboardingWizard] puts the method
    lookup of [apiClient.get(..)] and [apiClient.post(..)] in front of
    them. *)
Definition send (m : ApiClient.HttpMethod) (p : string)
    (body : list (string * JsValue)) (c : Component) : Component :=
  with_requests (requests c ++ [{| req_method := m; req_path := p; req_body := body |}]) c.

Definition navigate (to : string) (c : Component) : Component :=
  with_location to c.

(** *** The step-2 polling effect *)

(** The dependency array [[currentStep, webhookConfigured, testReceived]]. *)
Definition deps (s : State) : Z * bool * bool :=
  (currentStep s, webhookConfigured s, testReceived s).

Definition step2_condition (s : State) : bool :=
  ((currentStep s =? 2) && webhookConfigured s && negb (testReceived s))%bool.

(** The effect body: when the condition holds it sets [polling], starts
    the interval and returns the cleanup that clears it; otherwise it
    returns nothing. *)
Definition step2_effect (c : Component) : Component :=
  if step2_condition (st c) then
    let c1 := setState (setPolling true) c in
    let '(interval, c2) := setInterval PollTestStatus 3000 c1 in
    with_cleanup (Some interval) c2
  else with_cleanup None c.

Definition run_cleanup (c : Component) : Component :=
  match cleanup c with
  | Some interval => clearInterval interval c
  | None => c
  end.

(** React's commit after a render: when a dependency differs from the
    previous render, the previous cleanup runs and the effect runs again.
    State updates made by one handler turn are applied together. *)
Definition commit (prev : State) (c : Component) : Component :=
  if (mounted c && negb (bool_decide (deps prev = deps (st c))))%bool
  then step2_effect (run_cleanup c)
  else c.

(** Unmounting runs the pending cleanup. *)
Definition unmount (c : Component) : Component :=
  if mounted c
  then with_cleanup None (with_mounted false (run_cleanup c))
  else c.

(** *** [loadStatus] *)

(** Up to the [await]. *)
Definition loadStatus_begin (c : Component) : Component :=
  send ApiClient.GET "/onboarding/status" [] c.

Definition loadStatus_resume (r : Settled OnboardingStatus) (c : Component) : Component :=
  match r with
  | Resolved data =>
      if completed data then navigate "/dashboard" c
      else
        setState (fun s =>
          let s1 := setCurrentStep (current_step data) s in
          let s2 := setWebhookConfigured (webhook_configured data) s1 in
          let s3 := setTestReceived (webhook_test_received data) s2 in
          let s4 := setDiscordVerified (discord_verified data) s3 in
          let s5 := setTelegramVerified (telegram_verified data) s4 in
          if (webhook_configured data && (current_step data =? 1))%bool
          then setCurrentStep 2 s5 else s5) c
  | Rejected _ => c
  end.

(** *** [handleCreateWebhook] *)

(** Up to the [await]. *)
Definition handleCreateWebhook_begin (c : Component) : Component :=
  let c1 := setState (setError "") c in
  let c2 := setState (setLoading true) c1 in
  send ApiClient.POST "/onboarding/webhook"
    [("alert_id", JString (alertId (st c))); ("description", JString "Onboarding webhook")] c2.

(** After the [await]: the [try] continuation or the [catch], then the
    [finally]. *)
Definition handleCreateWebhook_resume (r : Settled WebhookCreated) (c : Component) : Component :=
  let c1 :=
    match r with
    | Resolved data =>
        setState (fun s =>
          setCurrentStep 2 (setWebhookConfigured true
            (setWebhookSecret (webhook_secret data) (setWebhookUrl (webhook_url data) s)))) c
    | Rejected detail =>
        setState (setError (Js.or_else detail "Failed to create webhook")) c
    end in
  setState (setLoading false) c1.

(** *** The interval callback of the step-2 effect *)

(** Up to the [await]: the callback of interval [interval] fires. *)
Definition poll_begin (interval : nat) (c : Component) : Component :=
  with_inflight (interval :: inflight c)
    (send ApiClient.GET "/onboarding/test-status" [] c).

(** After the [await]; [Resolved b] carries [data.received].  The [catch]
    only logs. *)
Definition poll_resume (interval : nat) (r : Settled bool) (c : Component) : Component :=
  match r with
  | Resolved true =>
      let c1 := setState (setTestReceived true) c in
      let c2 := setState (setPolling false) c1 in
      let c3 := setState (setCurrentStep 3) c2 in
      clearInterval interval c3
  | Resolved false => c
  | Rejected _ => c
  end.

(** *** Channel verification *)

Definition handleVerifyDiscord_begin (c : Component) : Component :=
  let c1 := setState (setError "") c in
  let c2 := setState (setDiscordLoading true) c1 in
  send ApiClient.POST "/onboarding/verify-discord"
    [("discord_user_id", JString (discordId (st c)))] c2.

Definition handleVerifyDiscord_resume (r : Settled Verification) (c : Component) : Component :=
  let c1 :=
    match r with
    | Resolved data =>
        if success data then setState (setDiscordVerified true) c
        else setState (setError (Js.or_else (verification_error data)
                                   "Discord verification failed")) c
    | Rejected detail =>
        setState (setError (Js.or_else detail "Failed to verify Discord")) c
    end in
  setState (setDiscordLoading false) c1.

Definition handleVerifyTelegram_begin (c : Component) : Component :=
  let c1 := setState (setError "") c in
  let c2 := setState (setTelegramLoading true) c1 in
  send ApiClient.POST "/onboarding/verify-telegram"
    [("telegram_chat_id", JString (telegramId (st c)))] c2.

Definition handleVerifyTelegram_resume (r : Settled Verification) (c : Component) : Component :=
  let c1 :=
    match r with
    | Resolved data =>
        if success data then setState (setTelegramVerified true) c
        else setState (setError (Js.or_else (verification_error data)
                                   "Telegram verification failed")) c
    | Rejected detail =>
        setState (setError (Js.or_else detail "Failed to verify Telegram")) c
    end in
  setState (setTelegramLoading false) c1.

(** *** [handleComplete] *)

(** Up to the [await], or up to the early [return] of the guard. *)
Definition handleComplete_begin (c : Component) : Component :=
  if (negb (discordVerified (st c)) && negb (telegramVerified (st c)))%bool then
    setState (setError
      "Please verify at least one notification channel (Discord or Telegram)") c
  else
    let c1 := setState (setError "") c in
    let c2 := setState (setLoading true) c1 in
    send ApiClient.POST "/onboarding/complete"
      [("email_notifications_enabled", JBool (emailEnabled (st c)))] c2.

Definition handleComplete_resume (r : Settled unit) (c : Component) : Component :=
  match r with
  | Resolved _ => snd (setTimeout NavigateDashboard 2000 c)
  | Rejected detail =>
      let c1 := setState (setError (Js.or_else detail "Failed to complete onboarding")) c in
      setState (setLoading false) c1
  end.

(** The [disabled] attribute of the Complete button. *)
Definition complete_disabled (s : State) : bool :=
  (loading s || (negb (discordVerified s) && negb (telegramVerified s)))%bool.

(** *** Mounting and the event loop *)

(** First render on a client that has [get]: the two effects run in
    source order, [loadStatus()] and then the step-2 effect. *)
Definition mount : Component :=
  step2_effect
    (loadStatus_begin
       {| st := initial_state; mounted := true; cleanup := None;
          timers := ∅; next_timer := 0; inflight := [];
          requests := []; location := "/onboarding" |}).

(** What can happen to a wizard: user input, button clicks, a timer
    firing, an awaited call settling, the component unmounting. *)
Inductive Event :=
| StatusSettled (r : Settled OnboardingStatus)
| InputAlertId (v : string)
| InputDiscordId (v : string)
| InputTelegramId (v : string)
| ToggleEmail (v : bool)
| SubmitWebhook
| WebhookSettled (r : Settled WebhookCreated)
| ClickNextTestWebhook
| ClickContinueToNotifications
| TimerFires (id : nat)
| PollSettled (interval : nat) (r : Settled bool)
| ClickVerifyDiscord
| DiscordSettled (r : Settled Verification)
| ClickVerifyTelegram
| TelegramSettled (r : Settled Verification)
| ClickComplete
| CompleteSettled (r : Settled unit)
| Unmount.

(** Removes the first occurrence of [x]. *)
Fixpoint remove_first (x : nat) (l : list nat) : list nat :=
  match l with
  | [] => []
  | y :: r => if (x =? y)%nat then r else y :: remove_first x r
  end.

(** One turn of the event loop on a client that has [get] and [post],
    before React commits. *)
Definition handle (e : Event) (c : Component) : Component :=
  match e with
  | StatusSettled r => loadStatus_resume r c
  | InputAlertId v => setState (setAlertId v) c
  | InputDiscordId v => setState (setDiscordId v) c
  | InputTelegramId v => setState (setTelegramId v) c
  | ToggleEmail v => setState (setEmailEnabled v) c
  | SubmitWebhook =>
      (* the form exists only at step 1 without a configured webhook *)
      if ((currentStep (st c) =? 1) && negb (webhookConfigured (st c)))%bool
      then handleCreateWebhook_begin c else c
  | WebhookSettled r => handleCreateWebhook_resume r c
  | ClickNextTestWebhook =>
      if ((currentStep (st c) =? 1) && webhookConfigured (st c))%bool
      then setState (setCurrentStep 2) c else c
  | ClickContinueToNotifications =>
      if ((currentStep (st c) =? 2) && testReceived (st c))%bool
      then setState (setCurrentStep 3) c else c
  | TimerFires id =>
      match timers c !! id with
      | Some t =>
          let c1 := match kind t with
                    | Interval => c
                    | Timeout => clearInterval id c
                    end in
          match callback t with
          | PollTestStatus => poll_begin id c1
          | NavigateDashboard => navigate "/dashboard" c1
          end
      | None => c
      end
  | PollSettled interval r =>
      if bool_decide (interval ∈ inflight c)
      then poll_resume interval r
             (with_inflight (remove_first interval (inflight c)) c)
      else c
  | ClickVerifyDiscord => handleVerifyDiscord_begin c
  | DiscordSettled r => handleVerifyDiscord_resume r c
  | ClickVerifyTelegram => handleVerifyTelegram_begin c
  | TelegramSettled r => handleVerifyTelegram_resume r c
  | ClickComplete => handleComplete_begin c
  | CompleteSettled r => handleComplete_resume r c
  | Unmount => unmount c
  end.

(** A turn followed by React's commit. *)
Definition step (c : Component) (e : Event) : Component :=
  commit (st c) (handle e c).

Definition run (es : list Event) : Component := fold_left step es mount.



(** The timer the step-2 effect registers. *)
Definition poll_timer : Timer :=
  {| kind := Interval; delay := 3000; callback := PollTestStatus |}.

(** The timer [handleComplete] registers for its redirect. *)
Definition redirect_timer : Timer :=
  {| kind := Timeout; delay := 2000; callback := NavigateDashboard |}.

(** No repeating timer is registered. *)
Definition no_active_interval (c : Component) : Prop :=
  forall id t, timers c !! id = Some t -> kind t = Timeout.

(** *** Invariant of the event loop

    Timer ids are handed out in increasing order; every registered timer
    is one of the two the wizard creates; a registered polling interval is the one the pending cleanup clears, and
    it exists exactly while the component is mounted in a state that
    satisfies the condition of the step-2 effect. *)
Record Inv (c : Component) : Prop := {
  inv_fresh : forall id t, timers c !! id = Some t -> (id < next_timer c)%nat;
  inv_cleanup_fresh : forall id, cleanup c = Some id -> (id < next_timer c)%nat;
  inv_shape : forall id t, timers c !! id = Some t ->
                t = poll_timer \/ t = redirect_timer;
  inv_interval : forall id, timers c !! id = Some poll_timer ->
                   cleanup c = Some id /\ mounted c = true /\
                   step2_condition (st c) = true;
  inv_polling : mounted c = true -> step2_condition (st c) = true ->
                  exists id, cleanup c = Some id /\
                             timers c !! id = Some poll_timer
}.

(** Only a firing one-shot timer, a settled poll, a settled completion and
    unmounting touch the timer table. *)
Definition touches_timers (e : Event) : bool :=
  match e with
  | TimerFires _ | PollSettled _ _ | CompleteSettled _ | Unmount => true
  | _ => false
  end.


(** What a handler turn leaves for the commit that follows it: timers and
    cleanup still agree with the state [prev] of the previous render. *)
Record PreCommit (prev : State) (c : Component) : Prop := {
  pre_fresh : forall id t, timers c !! id = Some t -> (id < next_timer c)%nat;
  pre_cleanup_fresh : forall id, cleanup c = Some id -> (id < next_timer c)%nat;
  pre_shape : forall id t, timers c !! id = Some t ->
                t = poll_timer \/ t = redirect_timer;
  pre_interval : forall id, timers c !! id = Some poll_timer ->
                   cleanup c = Some id /\ mounted c = true /\
                   step2_condition prev = true;
  pre_polling : mounted c = true -> step2_condition prev = true ->
                deps prev = deps (st c) ->
                  exists id, cleanup c = Some id /\
                             timers c !! id = Some poll_timer
}.

End Onboarding.

(** ** The onboarding wizard over its client object

    Every call of the wizard is a property lookup on the imported
    [apiClient] followed by a call.  When the object has no function under
    that name the call throws inside the [try], and the [catch] (and the
    [finally]) run in the same turn, with no request made. *)

Module OnboardingWizard.
Import Onboarding.

(** What a [catch] receives when the call itself throws: a TypeError has
    no [response], so [err.response?.data?.detail] is undefined. *)
Definition thrown {A : Type} : Settled A := Rejected None.

Definition loadStatus (client : ApiClient.Client) (c : Component) : Component :=
  if ApiClient.provides client "get"
  then send ApiClient.GET "/onboarding/status" [] c
  else loadStatus_resume thrown c.

Definition handleCreateWebhook (client : ApiClient.Client) (c : Component) : Component :=
  let c1 := setState (setError "") c in
  let c2 := setState (setLoading true) c1 in
  if ApiClient.provides client "post"
  then send ApiClient.POST "/onboarding/webhook"
         [("alert_id", JString (alertId (st c))); ("description", JString "Onboarding webhook")] c2
  else handleCreateWebhook_resume thrown c2.

(** The callback of interval [interval]. *)
Definition poll (client : ApiClient.Client) (interval : nat) (c : Component) : Component :=
  if ApiClient.provides client "get"
  then with_inflight (interval :: inflight c)
         (send ApiClient.GET "/onboarding/test-status" [] c)
  else poll_resume interval thrown c.

Definition handleVerifyDiscord (client : ApiClient.Client) (c : Component) : Component :=
  let c1 := setState (setError "") c in
  let c2 := setState (setDiscordLoading true) c1 in
  if ApiClient.provides client "post"
  then send ApiClient.POST "/onboarding/verify-discord"
         [("discord_user_id", JString (discordId (st c)))] c2
  else handleVerifyDiscord_resume thrown c2.

Definition handleVerifyTelegram (client : ApiClient.Client) (c : Component) : Component :=
  let c1 := setState (setError "") c in
  let c2 := setState (setTelegramLoading true) c1 in
  if ApiClient.provides client "post"
  then send ApiClient.POST "/onboarding/verify-telegram"
         [("telegram_chat_id", JString (telegramId (st c)))] c2
  else handleVerifyTelegram_resume thrown c2.

Definition handleComplete (client : ApiClient.Client) (c : Component) : Component :=
  if (negb (discordVerified (st c)) && negb (telegramVerified (st c)))%bool then
    setState (setError
      "Please verify at least one notification channel (Discord or Telegram)") c
  else
    let c1 := setState (setError "") c in
    let c2 := setState (setLoading true) c1 in
    if ApiClient.provides client "post"
    then send ApiClient.POST "/onboarding/complete"
           [("email_notifications_enabled", JBool (emailEnabled (st c)))] c2
    else handleComplete_resume thrown c2.

(** The component before its first effects run. *)
Definition first_render : Component :=
  {| st := initial_state; mounted := true; cleanup := None;
     timers := ∅; next_timer := 0; inflight := [];
     requests := []; location := "/onboarding" |}.

(** First render: [loadStatus()], then the step-2 effect. *)
Definition mount (client : ApiClient.Client) : Component :=
  step2_effect (loadStatus client first_render).

(** One turn of the event loop, before React commits.  A call settles
    only if it was made, so on a client without the verb the settling
    events of that verb do not occur; a poll settles only while it is in
    flight.  User input, the two step buttons, a settling poll and
    unmounting do not involve the client. *)
Definition handle (client : ApiClient.Client) (e : Event) (c : Component) : Component :=
  match e with
  | StatusSettled r =>
      if ApiClient.provides client "get" then loadStatus_resume r c else c
  | SubmitWebhook =>
      if ((currentStep (st c) =? 1) && negb (webhookConfigured (st c)))%bool
      then handleCreateWebhook client c else c
  | WebhookSettled r =>
      if ApiClient.provides client "post" then handleCreateWebhook_resume r c else c
  | TimerFires id =>
      match timers c !! id with
      | Some t =>
          let c1 := match kind t with
                    | Interval => c
                    | Timeout => clearInterval id c
                    end in
          match callback t with
          | PollTestStatus => poll client id c1
          | NavigateDashboard => navigate "/dashboard" c1
          end
      | None => c
      end
  | ClickVerifyDiscord => handleVerifyDiscord client c
  | DiscordSettled r =>
      if ApiClient.provides client "post" then handleVerifyDiscord_resume r c else c
  | ClickVerifyTelegram => handleVerifyTelegram client c
  | TelegramSettled r =>
      if ApiClient.provides client "post" then handleVerifyTelegram_resume r c else c
  | ClickComplete => handleComplete client c
  | CompleteSettled r =>
      if ApiClient.provides client "post" then handleComplete_resume r c else c
  | InputAlertId _ | InputDiscordId _ | InputTelegramId _ | ToggleEmail _
  | ClickNextTestWebhook | ClickContinueToNotifications
  | PollSettled _ _ | Unmount => Onboarding.handle e c
  end.

(** A turn followed by React's commit. *)
Definition step (client : ApiClient.Client) (c : Component) (e : Event) : Component :=
  commit (st c) (handle client e c).

Definition run (client : ApiClient.Client) (es : list Event) : Component :=
  fold_left (step client) es (mount client).


(** The request of [handleComplete]. *)
Definition complete_request (s : State) : Request :=
  {| req_method := ApiClient.POST; req_path := "/onboarding/complete";
     req_body := [("email_notifications_enabled", JBool (emailEnabled s))] |}.

(** A wizard that has sent nothing, holds no timer and shows the webhook
    form of step 1 with nothing verified. *)
Record AtStart (c : Component) : Prop := {
  start_step : currentStep (st c) = 1;
  start_webhook : webhookConfigured (st c) = false;
  start_test : testReceived (st c) = false;
  start_polling : polling (st c) = false;
  start_discord : discordVerified (st c) = false;
  start_telegram : telegramVerified (st c) = false;
  start_url : webhookUrl (st c) = "";
  start_secret : webhookSecret (st c) = "";
  start_timers : timers c = ∅;
  start_cleanup : cleanup c = None;
  start_inflight : inflight c = [];
  start_requests : requests c = [];
  start_location : location c = "/onboarding"
}.

End OnboardingWizard.

(** ** More JavaScript helpers *)

Module JsText.

(** [String(n)] and [`${n}`] for an integer number (below 10^21 in
    magnitude, where JavaScript still prints plain decimal digits). *)
Definition ofNumber (n : Z) : string := NilZero.string_of_int (Z.to_int n).

(** [parts.join(sep)]. *)
Fixpoint join (sep : string) (parts : list string) : string :=
  match parts with
  | [] => ""
  | [p] => p
  | p :: rest => p +:+ sep +:+ join sep rest
  end.

Definition hex_digit (n : nat) : ascii :=
  nth n (list_ascii_of_string "0123456789ABCDEF") "0"%char.

(** Bytes the application/x-www-form-urlencoded serializer leaves alone:
    ASCII letters and digits, and [*], [-], [.] and [_]. *)
Definition form_safe (n : nat) : bool :=
  ((Nat.leb 48 n && Nat.leb n 57) || (Nat.leb 65 n && Nat.leb n 90)
   || (Nat.leb 97 n && Nat.leb n 122)
   || Nat.eqb n 42 || Nat.eqb n 45 || Nat.eqb n 46 || Nat.eqb n 95)%bool.

Definition form_urlencode_byte (a : ascii) : string :=
  let n := nat_of_ascii a in
  if form_safe n then String a ""
  else if Nat.eqb n 32 then "+"
  else String "%" (String (hex_digit (n / 16)) (String (hex_digit (n mod 16)) "")).

(** The serializer on a string given as its UTF-8 bytes. *)
Fixpoint form_urlencode (s : string) : string :=
  match s with
  | EmptyString => ""
  | String a r => form_urlencode_byte a +:+ form_urlencode r
  end.

(** [URLSearchParams.prototype.toString] on the list of name/value pairs. *)
Definition searchParams_toString (params : list (string * string)) : string :=
  join "&" (map (fun kv => form_urlencode (fst kv) +:+ "=" +:+ form_urlencode (snd kv)) params).

End JsText.

(** ** Navigation bar of [Layout] *)

Module Layout.

Record NavItem := { nav_path : string; nav_label : string }.

Definition navItems : list NavItem :=
  [ {| nav_path := "/dashboard"; nav_label := "Dashboard" |};
    {| nav_path := "/detections"; nav_label := "Detections" |};
    {| nav_path := "/webhooks"; nav_label := "Webhooks" |};
    {| nav_path := "/analytics"; nav_label := "Analytics" |} ].

Definition isActive (pathname : string) (item : NavItem) : bool :=
  String.eqb pathname (nav_path item).

Definition linkClassName (pathname : string) (item : NavItem) : string :=
  "flex items-center px-3 py-2 rounded-md text-sm font-medium transition-colors " +:+
  (if isActive pathname item
   then "bg-primary-100 text-primary-700"
   else "text-gray-600 hover:bg-gray-100 hover:text-gray-900").

(** The links the bar renders: target and class, in order. *)
Definition nav (pathname : string) : list (string * string) :=
  map (fun item => (nav_path item, linkClassName pathname item)) navItems.

End Layout.

(** ** The auth context provider *)

Module AuthProvider.

(** The provider's two state cells are [Routing.Auth]; with them go the
    part of the browser the provider touches. *)
Record Session := {
  ctx : Routing.Auth;
  storage : gmap string string;
  requests : list (ApiClient.HttpMethod * string);
  href : option string
}.

Definition setUser (u : option Routing.User) (s : Session) : Session :=
  {| ctx := {| Routing.user := u; Routing.loading := Routing.loading (ctx s) |};
     storage := storage s; requests := requests s; href := href s |}.

Definition setLoading (b : bool) (s : Session) : Session :=
  {| ctx := {| Routing.user := Routing.user (ctx s); Routing.loading := b |};
     storage := storage s; requests := requests s; href := href s |}.

Definition setItem (k v : string) (s : Session) : Session :=
  {| ctx := ctx s; storage := <[k := v]> (storage s);
     requests := requests s; href := href s |}.

Definition removeItem (k : string) (s : Session) : Session :=
  {| ctx := ctx s; storage := delete k (storage s);
     requests := requests s; href := href s |}.

(** A request handed to axios by a verb the client has. *)
Definition send (m : ApiClient.HttpMethod) (p : string) (s : Session) : Session :=
  {| ctx := ctx s; storage := storage s;
     requests := requests s ++ [(m, p)]; href := href s |}.

Definition assign_href (to : string) (s : Session) : Session :=
  {| ctx := ctx s; storage := storage s; requests := requests s; href := Some to |}.

(** [useState(null)], [useState(true)]. *)
Definition initial (stored : gmap string string) : Session :=
  {| ctx := {| Routing.user := None; Routing.loading := true |};
     storage := stored; requests := []; href := None |}.

(** [refreshUser] after its [await]: the rest of the [try] or the
    [catch], then the [finally]. *)
Definition refreshUser_resume (r : Onboarding.Settled Routing.User) (s : Session) : Session :=
  let s1 :=
    match r with
    | Onboarding.Resolved data => setUser (Some data) s
    | Onboarding.Rejected _ => setUser None (removeItem "access_token" s)
    end in
  setLoading false s1.

(** [refreshUser] up to its [await]; on a client without [get] the call
    throws inside the [try], and the [catch] and the [finally] run at
    once. *)
Definition refreshUser (client : ApiClient.Client) (s : Session) : Session :=
  if ApiClient.provides client "get" then send ApiClient.GET "/auth/me" s
  else refreshUser_resume OnboardingWizard.thrown s.

(** The mount effect: restore the user when a token is stored. *)
Definition mount (client : ApiClient.Client) (stored : gmap string string) : Session :=
  let s := initial stored in
  if Js.truthy (stored !! "access_token") then refreshUser client s
  else setLoading false s.

(** Payload of POST /auth/login. *)
Record LoginData := { access_token : string; login_user : Routing.User }.

(** Where an async function without a [try] stands when its first turn
    ends: waiting for its call, or rejected by an exception. *)
Inductive Turn :=
| Awaiting (s : Session)
| Threw (s : Session).

Definition session_of (t : Turn) : Session :=
  match t with Awaiting s | Threw s => s end.

(** [login] up to its [await]; building the form data touches nothing. *)
Definition login (client : ApiClient.Client) (s : Session) : Turn :=
  if ApiClient.provides client "post"
  then Awaiting (send ApiClient.POST "/auth/login" s)
  else Threw s.

(** After the [await]; a rejection propagates to the caller and the
    statements after the [await] do not run. *)
Definition login_resume (r : Onboarding.Settled LoginData) (s : Session) : Session :=
  match r with
  | Onboarding.Resolved data =>
      setUser (Some (login_user data)) (setItem "access_token" (access_token data) s)
  | Onboarding.Rejected _ => s
  end.

Definition signup (client : ApiClient.Client) (s : Session) : Turn :=
  if ApiClient.provides client "post"
  then Awaiting (send ApiClient.POST "/auth/signup" s)
  else Threw s.

Definition logout (s : Session) : Session :=
  assign_href "/login" (setUser None (removeItem "access_token" s)).

(** [isAuthenticated: !!user]. *)
Definition isAuthenticated (s : Session) : bool :=
  match Routing.user (ctx s) with Some _ => true | None => false end.

End AuthProvider.

(** ** The data hooks *)

Module Hooks.

Inductive FilterValue := FString (s : string) | FNumber (n : Z).

(** [String(value)]. *)
Definition String_ (v : FilterValue) : string :=
  match v with
  | FString s => s
  | FNumber n => JsText.ofNumber n
  end.

(** An [IncidentsFilters] object as its entries in property order;
    [None] is a property whose value is [undefined]. *)
Definition IncidentsFilters := list (string * option FilterValue).

(** The [URLSearchParams] the query function builds: entries whose value
    is [undefined] are skipped. *)
Fixpoint incidents_params (filters : IncidentsFilters) : list (string * string) :=
  match filters with
  | [] => []
  | (key, Some value) :: rest => (key, String_ value) :: incidents_params rest
  | (_, None) :: rest => incidents_params rest
  end.

Definition useIncidents_path (filters : IncidentsFilters) : string :=
  "/incidents?" +:+ JsText.searchParams_toString (incidents_params filters).

(** [useIncidentDetail]: [enabled: !!incidentId], and the query function,
    which throws without an id. *)
Definition useIncidentDetail_enabled (incidentId : option string) : bool :=
  Js.truthy incidentId.

Definition useIncidentDetail_queryFn (incidentId : option string) : string + string :=
  if negb (Js.truthy incidentId) then inr "Incident ID is required"
  else inl ("/incidents/" +:+ Js.or_else incidentId "").

Definition useUpdateIncident_path (id : string) : string := "/incidents/" +:+ id.

Definition useIncidentStats_path (hours : Z) : string :=
  "/incidents/stats/summary?hours=" +:+ JsText.ofNumber hours.

Definition useNetworkHealth_path (hours : Z) : string :=
  "/metrics/network?hours=" +:+ JsText.ofNumber hours.

Definition useIncidentTimeSeries_path (hours : Z) (severity : option string) : string :=
  "/metrics/incidents/timeseries?" +:+
  JsText.searchParams_toString
    (("hours", JsText.ofNumber hours) ::
     (if Js.truthy severity then [("severity", Js.or_else severity "")] else [])).

Definition useWhaleActivity_path (hours minAmount : Z) : string :=
  "/metrics/whale-activity?hours=" +:+ JsText.ofNumber hours +:+
  "&min_amount=" +:+ JsText.ofNumber minAmount.

Definition useProtocolActivity_path (hours : Z) : string :=
  "/metrics/protocols/activity?hours=" +:+ JsText.ofNumber hours.

(** Every request a hook can issue, with its arguments. *)
Inductive Query :=
| QIncidents (filters : IncidentsFilters)
| QIncidentDetail (id : string)
| QUpdateIncident (id : string)
| QIncidentStats (hours : Z)
| QNetworkHealth (hours : Z)
| QIncidentTimeSeries (hours : Z) (severity : option string)
| QWhaleActivity (hours minAmount : Z)
| QProtocolActivity (hours : Z).

Definition query_path (q : Query) : string :=
  match q with
  | QIncidents filters => useIncidents_path filters
  | QIncidentDetail id => "/incidents/" +:+ id
  | QUpdateIncident id => useUpdateIncident_path id
  | QIncidentStats hours => useIncidentStats_path hours
  | QNetworkHealth hours => useNetworkHealth_path hours
  | QIncidentTimeSeries hours severity => useIncidentTimeSeries_path hours severity
  | QWhaleActivity hours minAmount => useWhaleActivity_path hours minAmount
  | QProtocolActivity hours => useProtocolActivity_path hours
  end.

End Hooks.

(** ** The incidents page *)

Module IncidentsPage.

Record State := { severity : string; status : string; page : Z }.

Definition initial : State := {| severity := ""; status := ""; page := 1 |}.

(** The filters object passed to [useIncidents]: [severity || undefined],
    [status || undefined], [page], [page_size: 20]. *)
Definition filters (s : State) : Hooks.IncidentsFilters :=
  [ ("severity", if String.eqb (severity s) "" then None
                 else Some (Hooks.FString (severity s)));
    ("status", if String.eqb (status s) "" then None
               else Some (Hooks.FString (status s)));
    ("page", Some (Hooks.FNumber (page s)));
    ("page_size", Some (Hooks.FNumber 20)) ].

(** The part of the list response the page computes with. *)
Record Data := { total : Z; page_size : Z; incidents_length : Z }.

(** [Math.ceil(a / b)] on integers, for a divisor other than zero. *)
Definition ceil_div (a b : Z) : Z := - ((- a) / b).

Definition totalPages (data : option Data) : Z :=
  match data with
  | Some d => ceil_div (total d) (page_size d)
  | None => 0
  end.

(** The pagination block sits inside the branch that renders the list. *)
Definition pagination_rendered (isLoading error : bool) (data : option Data) : bool :=
  (negb isLoading && negb error
   && match data with Some d => 0 <? incidents_length d | None => false end
   && (1 <? totalPages data))%bool.

(** The "Clear filters" button is rendered when a filter is set. *)
Definition clear_rendered (s : State) : bool :=
  (negb (String.eqb (severity s) "") || negb (String.eqb (status s) ""))%bool.

Inductive Event :=
| SelectSeverity (v : string)
| SelectStatus (v : string)
| ClearFilters
| Click (c : Pagination.Click).

(** One user event; [data] is what the query currently holds. *)
Definition handle (isLoading error : bool) (data : option Data)
    (s : State) (e : Event) : State :=
  match e with
  | SelectSeverity v => {| severity := v; status := status s; page := page s |}
  | SelectStatus v => {| severity := severity s; status := v; page := page s |}
  | ClearFilters =>
      if clear_rendered s then {| severity := ""; status := ""; page := 1 |} else s
  | Click c =>
      if (pagination_rendered isLoading error data
          && negb (Pagination.disabled Pagination.IncidentsPage (totalPages data) c (page s)))%bool
      then {| severity := severity s; status := status s;
              page := Pagination.updater Pagination.IncidentsPage (totalPages data) c (page s) |}
      else s
  end.

(** A session: each event arrives with the query state of that moment. *)
Fixpoint run (s : State) (es : list (bool * bool * option Data * Event)) : State :=
  match es with
  | [] => s
  | (isLoading, error, data, e) :: rest => run (handle isLoading error data s e) rest
  end.

End IncidentsPage.

(** ** The detections page *)

Module DetectionsPage.

Record Filters := { f_severity : string; f_category : string; f_days : Z }.

Record State (D : Type) := {
  detections : list D;
  loading : bool;
  page : Z;
  totalPages : Z;
  filters : Filters
}.
Arguments detections {D} _.
Arguments loading {D} _.
Arguments page {D} _.
Arguments totalPages {D} _.
Arguments filters {D} _.

Definition initial (D : Type) : State D :=
  {| detections := []; loading := true; page := 1; totalPages := 1;
     filters := {| f_severity := ""; f_category := ""; f_days := 7 |} |}.

(** The response of GET /api/detections as the page reads it: both
    members may be missing. *)
Record Response (D : Type) := {
  r_detections : option (list D);
  r_total_pages : option Z
}.
Arguments r_detections {D} _.
Arguments r_total_pages {D} _.

(** [n || dflt] on a possibly missing number: [undefined] and [0] are
    falsy. *)
Definition number_or (n : option Z) (dflt : Z) : Z :=
  match n with
  | Some v => if v =? 0 then dflt else v
  | None => dflt
  end.

(** The parameters of the request: [{ page, page_size: 20, ...filters }]. *)
Definition request_params {D} (s : State D) : list (string * Hooks.FilterValue) :=
  [ ("page", Hooks.FNumber (page s));
    ("page_size", Hooks.FNumber 20);
    ("severity", Hooks.FString (f_severity (filters s)));
    ("category", Hooks.FString (f_category (filters s)));
    ("days", Hooks.FNumber (f_days (filters s))) ].

(** [loadDetections] up to the [await]. *)
Definition loadDetections_begin {D} (s : State D) : State D :=
  {| detections := detections s; loading := true; page := page s;
     totalPages := totalPages s; filters := filters s |}.

(** [loadDetections] after the [await], with its [finally]. *)
Definition loadDetections_resume {D} (r : Onboarding.Settled (Response D))
    (s : State D) : State D :=
  match r with
  | Onboarding.Resolved data =>
      {| detections := default [] (r_detections data);
         loading := false; page := page s;
         totalPages := number_or (r_total_pages data) 1;
         filters := filters s |}
  | Onboarding.Rejected _ =>
      {| detections := detections s; loading := false; page := page s;
         totalPages := totalPages s; filters := filters s |}
  end.

(** The pagination block is rendered in the list branch only. *)
Definition pagination_rendered {D} (s : State D) : bool :=
  (negb (loading s) && negb (Nat.eqb (length (detections s)) 0)
   && (1 <? totalPages s))%bool.

Inductive Event (D : Type) :=
| SelectSeverity (v : string)
| SelectDays (v : Z)
| Refresh
| Click (c : Pagination.Click)
| LoadSettled (r : Onboarding.Settled (Response D)).
Arguments SelectSeverity {D} v.
Arguments SelectDays {D} v.
Arguments Refresh {D}.
Arguments Click {D} c.
Arguments LoadSettled {D} r.

Definition setFilters {D} (f : Filters) (s : State D) : State D :=
  {| detections := detections s; loading := loading s; page := page s;
     totalPages := totalPages s; filters := f |}.

Definition setPage {D} (p : Z) (s : State D) : State D :=
  {| detections := detections s; loading := loading s; page := p;
     totalPages := totalPages s; filters := filters s |}.

(** One turn: the handler, then the effect on [[page, filters]], which
    calls [loadDetections] when either changed.  The second component is
    the list of requests the turn issues. *)
Definition step {D} (s : State D) (e : Event D)
    : State D * list (list (string * Hooks.FilterValue)) :=
  let reload (s' : State D) :=
    (loadDetections_begin s', [request_params s']) in
  match e with
  | SelectSeverity v =>
      reload (setFilters {| f_severity := v; f_category := f_category (filters s);
                            f_days := f_days (filters s) |} s)
  | SelectDays v =>
      reload (setFilters {| f_severity := f_severity (filters s);
                            f_category := f_category (filters s); f_days := v |} s)
  | Refresh => reload s
  | Click c =>
      if (pagination_rendered s
          && negb (Pagination.disabled Pagination.DetectionsPage (totalPages s) c (page s)))%bool
      then
        let p := Pagination.updater Pagination.DetectionsPage (totalPages s) c (page s) in
        if p =? page s then (s, []) else reload (setPage p s)
      else (s, [])
  | LoadSettled r => (loadDetections_resume r s, [])
  end.

(** First render: the effect runs once. *)
Definition mount (D : Type) : State D * list (list (string * Hooks.FilterValue)) :=
  (loadDetections_begin (initial D), [request_params (initial D)]).

Fixpoint run {D} (s : State D) (es : list (Event D)) : State D :=
  match es with
  | [] => s
  | e :: rest => run (fst (step s e)) rest
  end.

(** Both counters are at least 1. *)
Definition detections_ok {D} (s : State D) : Prop :=
  1 <= totalPages s /\ 1 <= page s.

(** The server never reports a negative page count. *)
Definition sane {D} (e : Event D) : bool :=
  match e with
  | LoadSettled (Onboarding.Resolved data) =>
      match r_total_pages data with Some n => 0 <=? n | None => true end
  | _ => true
  end.

End DetectionsPage.

(** ** Pages that call the API client in sequence *)

(** What a handler does to the outside world, in order. *)
Module Effects.

Inductive Effect :=
| Confirm (message : string)
| Call (c : ApiClient.Call)
| Alert (message : string)
| ConsoleError (message : string).

Definition calls (l : list Effect) : list ApiClient.Call :=
  omap (fun e => match e with Call c => Some c | _ => None end) l.

Definition alerts (l : list Effect) : list string :=
  omap (fun e => match e with Alert m => Some m | _ => None end) l.

End Effects.

Module WebhooksManagement.
Import Effects.

Record State (W : Type) := {
  webhooks : list W;
  loading : bool;
  showEditor : bool;
  editingWebhook : option W
}.
Arguments webhooks {W} _.
Arguments loading {W} _.
Arguments showEditor {W} _.
Arguments editingWebhook {W} _.

Definition initial (W : Type) : State W :=
  {| webhooks := []; loading := true; showEditor := false; editingWebhook := None |}.

(** [loadWebhooks]; [r] is how [apiClient.getWebhooks()] settles.  The
    function catches its own errors and never rejects. *)
Definition loadWebhooks {W} (r : Onboarding.Settled (list W)) (s : State W)
    : State W * list Effect :=
  match r with
  | Onboarding.Resolved data =>
      ({| webhooks := data; loading := false; showEditor := showEditor s;
          editingWebhook := editingWebhook s |},
       [Call ApiClient.getWebhooks])
  | Onboarding.Rejected _ =>
      ({| webhooks := webhooks s; loading := false; showEditor := showEditor s;
          editingWebhook := editingWebhook s |},
       [Call ApiClient.getWebhooks; ConsoleError "Failed to load webhooks:"])
  end.

(** [handleDelete]; [confirmed] is the answer to the dialog, [deleted]
    and [reloaded] are how the two awaited calls settle (the second is
    consulted only when it is made). *)
Definition handleDelete {W} (id : string) (confirmed : bool)
    (deleted : Onboarding.Settled unit) (reloaded : Onboarding.Settled (list W))
    (s : State W) : State W * list Effect :=
  let asked := Confirm "Are you sure you want to delete this webhook?" in
  if negb confirmed then (s, [asked])
  else
    match deleted with
    | Onboarding.Resolved _ =>
        let '(s', effects) := loadWebhooks reloaded s in
        (s', ([asked; Call (ApiClient.deleteWebhook id)] ++ effects)%list)
    | Onboarding.Rejected _ =>
        (s, [asked; Call (ApiClient.deleteWebhook id);
             ConsoleError "Failed to delete webhook:"])
    end.

(** [handleRegenerateSecret]; [regenerated] carries [result.new_secret]. *)
Definition handleRegenerateSecret {W} (id : string) (confirmed : bool)
    (regenerated : Onboarding.Settled string) (reloaded : Onboarding.Settled (list W))
    (s : State W) : State W * list Effect :=
  let asked := Confirm "This will invalidate the current webhook secret. Continue?" in
  if negb confirmed then (s, [asked])
  else
    match regenerated with
    | Onboarding.Resolved new_secret =>
        let '(s', effects) := loadWebhooks reloaded s in
        (s', ([asked; Call (ApiClient.regenerateWebhookSecret id);
               Alert ("New secret: " +:+ new_secret)] ++ effects)%list)
    | Onboarding.Rejected _ =>
        (s, [asked; Call (ApiClient.regenerateWebhookSecret id);
             ConsoleError "Failed to regenerate secret:"])
    end.

End WebhooksManagement.

Module AnalyticsPage.
Import Effects.

Record State (O R : Type) := {
  overview : option O;
  reports : list R;
  loading : bool
}.
Arguments overview {O R} _.
Arguments reports {O R} _.
Arguments loading {O R} _.

Definition initial (O R : Type) : State O R :=
  {| overview := None; reports := []; loading := true |}.

(** [loadData]: both calls are started, and [Promise.all] resolves only
    when both do.  The function catches its own errors and never rejects. *)
Definition loadData {O R} (overviewData : Onboarding.Settled O)
    (reportsData : Onboarding.Settled (list R)) (s : State O R)
    : State O R * list Effect :=
  let started := [Call ApiClient.getAnalyticsOverview; Call ApiClient.getReports] in
  match overviewData, reportsData with
  | Onboarding.Resolved o, Onboarding.Resolved r =>
      ({| overview := Some o; reports := r; loading := false |}, started)
  | _, _ =>
      ({| overview := overview s; reports := reports s; loading := false |},
       (started ++ [ConsoleError "Failed to load analytics:"])%list)
  end.

(** [handleGenerateReport]. *)
Definition handleGenerateReport {O R} (generated : Onboarding.Settled unit)
    (overviewData : Onboarding.Settled O) (reportsData : Onboarding.Settled (list R))
    (s : State O R) : State O R * list Effect :=
  match generated with
  | Onboarding.Resolved _ =>
      let '(s', effects) := loadData overviewData reportsData s in
      (s', ([Call ApiClient.generateReport] ++ effects
            ++ [Alert "Report generated successfully!"])%list)
  | Onboarding.Rejected _ =>
      (s, [Call ApiClient.generateReport;
           ConsoleError "Failed to generate report:";
           Alert "Failed to generate report"])
  end.

End AnalyticsPage.

(** ** The email verification page *)

Module VerifyEmailPage.

Inductive Status := loading | success | error.

Record State := {
  status : Status;
  message : string;
  requests : list string;
  (** delay and target of the pending [setTimeout(() => navigate(..))] *)
  redirect : option (Z * string)
}.

Definition initial : State :=
  {| status := loading; message := ""; requests := []; redirect := None |}.

Definition request_path (token : string) : string :=
  "/auth/verify-email?token=" +:+ token.

(** [verifyEmail] after its [await]: the rest of the [try], or the
    [catch]; [Resolved msg] carries [data.message]. *)
Definition verifyEmail_resume (r : Onboarding.Settled string) (s : State) : State :=
  match r with
  | Onboarding.Resolved msg =>
      {| status := success; message := msg; requests := requests s;
         redirect := Some (3000, "/login") |}
  | Onboarding.Rejected detail =>
      {| status := error; message := Js.or_else detail "Failed to verify email";
         requests := requests s; redirect := redirect s |}
  end.

(** [verifyEmail] up to its [await] or its [return]; [token] is
    [searchParams.get('token')].  On a client without [get] the call throws
    inside the [try] and the [catch] runs at once. *)
Definition verifyEmail (client : ApiClient.Client) (token : option string)
    (s : State) : State :=
  if negb (Js.truthy token) then
    {| status := error; message := "Invalid verification link";
       requests := requests s; redirect := redirect s |}
  else if ApiClient.provides client "get" then
    {| status := status s; message := message s;
       requests := (requests s ++ [request_path (Js.or_else token "")])%list;
       redirect := redirect s |}
  else verifyEmail_resume OnboardingWizard.thrown s.

(** The effect of the page: [verifyEmail()] on the first render. *)
Definition mount (client : ApiClient.Client) (token : option string) : State :=
  verifyEmail client token initial.

End VerifyEmailPage.

(** ** The incident detail page: status actions *)

Module IncidentDetailPage.

(** The statuses the action buttons rendered for [incident.status] pass to
    [handleStatusUpdate], in order. *)
Definition offered (status : string) : list string :=
  (if String.eqb status "open" then ["acknowledged"; "resolved"] else []) ++
  (if String.eqb status "acknowledged" then ["resolved"] else []).

End IncidentDetailPage.

(** ** Severity colours of the detections list *)

Module SeverityColors.

(** The object literal [severityColors]. *)
Definition severityColors : gmap string string :=
  <["CRITICAL" := "#dc2626"]>
    (<["HIGH" := "#f59e0b"]>
       (<["MEDIUM" := "#3b82f6"]>
          (<["LOW" := "#10b981"]>
             (<["INFO" := "#6b7280"]> ∅)))).

(** [style={{ backgroundColor: severityColors[detection.severity] }}]. *)
Definition backgroundColor (severity : string) : option string :=
  severityColors !! severity.

End SeverityColors.

(* ===================================================================== *)
(** * Theorems *)
(* ===================================================================== *)

Example statusClasses_open :
  StatusBadge.statusClasses !! "open" = Some "bg-red-100 text-red-700".
Proof. reflexivity. Qed.

Example StatusBadge_open_text :
  StatusBadge.span_text (StatusBadge.StatusBadge Types.open None) = "OPEN".
Proof. reflexivity. Qed.

Example StatusBadge_resolved_class :
  StatusBadge.span_className (StatusBadge.StatusBadge Types.resolved (Some "ml-2")) =
  "inline-flex items-center px-2.5 py-0.5 rounded-full text-xs font-medium bg-green-100 text-green-700 ml-2".
Proof. vm_compute. reflexivity. Qed.

(** ** Types and StatusBadge *)

Lemma status_strings_are_the_declared_union :
  Types.member_type <$> Types.member_lookup Types.Incident "status" =
  Some (Types.TLiteralUnion (map Types.status_string Types.all_statuses)).
Proof. reflexivity. Qed.

Lemma statusClasses_dom :
  dom StatusBadge.statusClasses = ({["open"; "acknowledged"; "resolved"]} : gset string).
Proof.
  unfold StatusBadge.statusClasses.
  rewrite !dom_insert_L, dom_empty_L. set_solver.
Qed.

(** C8: the class dictionary of StatusBadge has exactly the keys open,
    acknowledged and resolved; for the statuses investigating and closed of
    the exported Incident type the lookup yields nothing, and the badge's
    class is the base classes (and the caller's className) alone. *)
Theorem StatusBadge_no_colour_for_other_statuses
    (st : Types.IncidentStatus) (className : option string) :
  st = Types.investigating \/ st = Types.closed ->
  dom StatusBadge.statusClasses = ({["open"; "acknowledged"; "resolved"]} : gset string) /\
  StatusBadge.statusClasses !! Types.status_string st = None /\
  StatusBadge.span_className (StatusBadge.StatusBadge st className) =
    Js.clsx [Some StatusBadge.baseClasses; className].
Proof.
  intros Hst. split; [exact statusClasses_dom|].
  assert (Hnone : StatusBadge.statusClasses !! Types.status_string st = None)
    by (destruct Hst; subst st; reflexivity).
  split; [exact Hnone|].
  unfold StatusBadge.StatusBadge; simpl StatusBadge.span_className.
  rewrite Hnone. reflexivity.
Qed.

Lemma StatusBadge_no_colour_witness :
  dom StatusBadge.statusClasses = ({["open"; "acknowledged"; "resolved"]} : gset string) /\
  StatusBadge.statusClasses !! Types.status_string Types.investigating = None /\
  StatusBadge.span_className (StatusBadge.StatusBadge Types.investigating None) =
    Js.clsx [Some StatusBadge.baseClasses; None].
Proof.
  apply (StatusBadge_no_colour_for_other_statuses Types.investigating None).
  left; reflexivity.
Defined.

Example StatusBadge_investigating_class :
  StatusBadge.span_className (StatusBadge.StatusBadge Types.investigating None) =
  "inline-flex items-center px-2.5 py-0.5 rounded-full text-xs font-medium".
Proof. vm_compute. reflexivity. Qed.

(** C3: the exported Incident interface declares id, title, severity,
    category, status, created_at and resolved_at, and no protocol member,
    although IncidentCard reads [incident.protocol]; on every value of the
    exported type that read is undefined and the Protocol row is absent. *)
Theorem Incident_declares_no_protocol :
  Types.member_names Types.Incident =
    ["id"; "title"; "severity"; "category"; "status"; "created_at"; "resolved_at"] /\
  Types.has_member Types.Incident "protocol" = false /\
  In "protocol" IncidentCard.reads /\
  forall incident : Types.IncidentValue,
    Types.get_string incident "protocol" = None /\
    IncidentCard.protocol_row incident = None.
Proof.
  split; [reflexivity|]. split; [reflexivity|].
  split; [simpl; tauto|].
  intros incident; split; reflexivity.
Qed.

(** Members the card reads that the exported interface does not declare. *)
Lemma IncidentCard_undeclared_reads :
  filter (fun n => negb (Types.has_member Types.Incident n)) IncidentCard.reads =
  ["metadata_json"; "first_seen_at"; "description"; "type"; "protocol"].
Proof. reflexivity. Qed.

(** ** Routing *)

(** Where the guard is applied, a finished auth load without a user yields
    the redirect to /login. *)
Lemma ProtectedRoute_redirects_to_login (pathname : string)
    (children : Routing.Element) :
  Routing.ProtectedRoute {| Routing.user := None; Routing.loading := false |}
    pathname children
  = Routing.Navigate "/login" (Some pathname) true.
Proof. reflexivity. Qed.

(** C1: in the route table of App the four routes under the "Protected
    routes" comment render their page component directly, whatever the auth
    state; with auth loading finished and no user, none of them renders a
    redirect to /login. *)
Theorem App_protected_routes_render_page_without_user :
  let anonymous := {| Routing.user := None; Routing.loading := false |} in
  map (Routing.App anonymous) Routing.protected_paths =
    [ Some (Routing.Component Routing.Dashboard);
      Some (Routing.Component Routing.Detections);
      Some (Routing.Component Routing.WebhooksManagement);
      Some (Routing.Component Routing.Analytics) ] /\
  forallb (fun p => match Routing.App anonymous p with
                    | Some e => negb (Routing.is_login_redirect e)
                    | None => true
                    end) Routing.protected_paths = true.
Proof. split; reflexivity. Qed.

(** ** API client paths *)

Lemma startsWith_append (p s : string) : Js.startsWith p (p +:+ s) = true.
Proof.
  induction p as [|a p IH]; simpl; [reflexivity|].
  rewrite Ascii.eqb_refl. exact IH.
Qed.

(** The claim of C2 as stated fails: the notification-log request lies
    outside every listed prefix. *)
Lemma ApiClient_paths_not_all_under_boundary :
  ~ (forall c : ApiClient.Call,
       ApiClient.under ApiClient.boundary_prefixes (ApiClient.path c) = true).
Proof.
  intros H. specialize (H ApiClient.getNotificationLogs).
  vm_compute in H. discriminate H.
Qed.

(** C2 (amended): every request path of an ApiClient method falls under one
    of the listed boundary prefixes, except those of getNotificationLogs and
    getNotificationStats, which fall under /api/notifications. *)
Theorem ApiClient_paths_under_boundary_or_notifications (c : ApiClient.Call) :
  ((c = ApiClient.getNotificationLogs \/ c = ApiClient.getNotificationStats) /\
   Js.startsWith "/api/notifications" (ApiClient.path c) = true /\
   ApiClient.under ApiClient.boundary_prefixes (ApiClient.path c) = false)
  \/ ApiClient.under ApiClient.boundary_prefixes (ApiClient.path c) = true.
Proof.
  destruct c; try (right; reflexivity);
    left; (split; [auto|split; reflexivity]).
Qed.

(** ** The bearer-token interceptor *)

Lemma truthy_nonempty (t : string) : Js.truthy (Some t) = true <-> t <> "".
Proof.
  unfold Js.truthy. destruct (String.eqb_spec t ""); simpl; split; intros; congruence.
Qed.

(** The claim of C5 as stated fails for an empty stored token: the token is
    stored, yet no Authorization header is attached. *)
Lemma interceptor_skips_empty_token :
  ~ (forall (storage : gmap string string) (t : string),
       storage !! "access_token" = Some t ->
       ApiClient.send_headers storage !! "Authorization" = Some ("Bearer " +:+ t)).
Proof.
  intros H.
  specialize (H {["access_token" := ""]} "" eq_refl).
  vm_compute in H. discriminate H.
Qed.

(** C5 (amended): a request sent through the client carries
    Authorization = "Bearer " + t exactly when localStorage holds a
    non-empty t under access_token at send time; when no token (or an empty
    one) is stored, no Authorization header is attached.  The other headers
    are left as they were. *)
Theorem interceptor_bearer_iff_nonempty_token (storage : gmap string string) :
  (forall t : string,
     ApiClient.send_headers storage !! "Authorization" = Some ("Bearer " +:+ t)
     <-> (storage !! "access_token" = Some t /\ t <> "")) /\
  ((storage !! "access_token" = None \/ storage !! "access_token" = Some "")
   -> ApiClient.send_headers storage !! "Authorization" = None) /\
  (forall h : string, h <> "Authorization" ->
     ApiClient.send_headers storage !! h = ApiClient.default_headers !! h).
Proof.
  unfold ApiClient.send_headers, ApiClient.interceptor.
  assert (Hdef : ApiClient.default_headers !! "Authorization" = None) by reflexivity.
  destruct (storage !! "access_token") as [tok|] eqn:Htok.
  - destruct (Js.truthy (Some tok)) eqn:Htr.
    + apply truthy_nonempty in Htr.
      split; [|split].
      * intros t. rewrite lookup_insert_eq. split.
        -- intros Heq. injection Heq as Heq.
           apply (inj (String.app "")) in Heq. subst t. auto.
        -- intros [Heq _]. congruence.
      * intros [Hn|Hn]; congruence.
      * intros h Hh. rewrite lookup_insert_ne by congruence. reflexivity.
    + assert (tok = "") as ->.
      { destruct (String.eqb_spec tok ""); [assumption|].
        apply truthy_nonempty in n. congruence. }
      split; [|split].
      * intros t. rewrite Hdef. split; [discriminate|].
        intros [Heq Hne]. congruence.
      * intros _. exact Hdef.
      * reflexivity.
  - split; [|split].
    + intros t. rewrite Hdef. split; [discriminate|]. intros [Heq _]. discriminate.
    + intros _. exact Hdef.
    + reflexivity.
Qed.

Lemma interceptor_bearer_witness :
  ApiClient.send_headers {["access_token" := "abc"]} !! "Authorization" = Some "Bearer abc"
  /\ ApiClient.send_headers ∅ !! "Authorization" = None.
Proof.
  split.
  - apply (proj1 (interceptor_bearer_iff_nonempty_token {["access_token" := "abc"]}) "abc").
    split; [reflexivity|discriminate].
  - apply (proj1 (proj2 (interceptor_bearer_iff_nonempty_token ∅))).
    left; reflexivity.
Defined.

(** ** Pagination *)

Section PaginationInvariant.

Variable k : Pagination.ListPage.
Variable totalPages : Z.
Hypothesis totalPages_pos : 1 <= totalPages.


End PaginationInvariant.

(** A click on a disabled button would not move the page anyway: at the
    bounds the updater is the identity. *)
Lemma updater_fixed_when_disabled k totalPages c p :
  1 <= totalPages ->
  Pagination.disabled k totalPages c p = true ->
  Pagination.updater k totalPages c p = p.
Proof.
  intros Htp. destruct c; simpl; intros H; apply Z.eqb_eq in H; lia.
Qed.

(** ** The onboarding wizard: frame facts *)

Section OnboardingFrame.
Import Onboarding.

Lemma setState_mounted f c : mounted (setState f c) = mounted c.
Proof. unfold setState. destruct (mounted c) eqn:E; simpl; congruence. Qed.

Lemma setState_cleanup f c : cleanup (setState f c) = cleanup c.
Proof. unfold setState. destruct (mounted c); reflexivity. Qed.

Lemma setState_timers f c : timers (setState f c) = timers c.
Proof. unfold setState. destruct (mounted c); reflexivity. Qed.

Lemma setState_next_timer f c : next_timer (setState f c) = next_timer c.
Proof. unfold setState. destruct (mounted c); reflexivity. Qed.

Lemma setState_requests f c : requests (setState f c) = requests c.
Proof. unfold setState. destruct (mounted c); reflexivity. Qed.

Lemma setState_inflight f c : inflight (setState f c) = inflight c.
Proof. unfold setState. destruct (mounted c); reflexivity. Qed.

Lemma setState_location f c : location (setState f c) = location c.
Proof. unfold setState. destruct (mounted c); reflexivity. Qed.

Lemma setState_st f c :
  st (setState f c) = if mounted c then f (st c) else st c.
Proof. unfold setState. destruct (mounted c); reflexivity. Qed.

Lemma step2_condition_deps s s' :
  deps s = deps s' -> step2_condition s = step2_condition s'.
Proof.
  unfold deps, step2_condition. intros H. injection H as -> -> ->. reflexivity.
Qed.

End OnboardingFrame.

Create Rewrite HintDb wizard.
#[local] Hint Rewrite
  setState_mounted setState_cleanup setState_timers setState_next_timer
  setState_requests setState_inflight setState_location : wizard.

(** Unfolds the handlers and splits on every scrutinee they branch on. *)
Ltac unfold_handlers :=
  unfold Onboarding.loadStatus_resume, Onboarding.handleCreateWebhook_begin,
    Onboarding.handleCreateWebhook_resume, Onboarding.handleVerifyDiscord_begin,
    Onboarding.handleVerifyDiscord_resume, Onboarding.handleVerifyTelegram_begin,
    Onboarding.handleVerifyTelegram_resume, Onboarding.handleComplete_begin,
    Onboarding.handleComplete_resume, Onboarding.poll_resume, Onboarding.poll_begin,
    Onboarding.unmount, Onboarding.run_cleanup.

Ltac split_scrutinees :=
  repeat match goal with
         | |- context [match ?x with _ => _ end] =>
             lazymatch x with
             | context [match _ with _ => _ end] => fail
             | _ => destruct x eqn:?
             end
         end.

Ltac handler_frame :=
  simpl; unfold_handlers; split_scrutinees;
  simpl; autorewrite with wizard; simpl; auto.

(** What a handler turn leaves alone: the mount flag and the pending
    cleanup change only on unmount. *)
Lemma handle_keeps_cleanup (e : Onboarding.Event) (c : Onboarding.Component) :
  e <> Onboarding.Unmount ->
  Onboarding.mounted (Onboarding.handle e c) = Onboarding.mounted c /\
  Onboarding.cleanup (Onboarding.handle e c) = Onboarding.cleanup c.
Proof.
  intros Hne.
  destruct e as [r| | | | | |r| | |id|i r| |r| |r| |r| ]; try congruence;
    handler_frame.
Qed.

Lemma handle_keeps_timers (e : Onboarding.Event) (c : Onboarding.Component) :
  Onboarding.touches_timers e = false ->
  Onboarding.timers (Onboarding.handle e c) = Onboarding.timers c /\
  Onboarding.next_timer (Onboarding.handle e c) = Onboarding.next_timer c.
Proof.
  intros Hne.
  destruct e as [r| | | | | |r| | |id|i r| |r| |r| |r| ]; try discriminate Hne;
    handler_frame.
Qed.

(** ** The onboarding wizard: the invariant of the event loop *)

Section OnboardingInvariant.
Import Onboarding.

Lemma run_cleanup_no_interval prev c :
  PreCommit prev c ->
  forall id, timers (run_cleanup c) !! id <> Some poll_timer.
Proof.
  intros H id Hid. unfold run_cleanup in Hid.
  destruct (cleanup c) as [i|] eqn:Hc; simpl in Hid.
  - destruct (decide (i = id)) as [->|Hne].
    + rewrite lookup_delete_eq in Hid. discriminate.
    + rewrite lookup_delete_ne in Hid by assumption.
      apply (pre_interval _ _ H) in Hid. destruct Hid as [Hid _]. congruence.
  - apply (pre_interval _ _ H) in Hid. destruct Hid as [Hid _]. congruence.
Qed.

Lemma run_cleanup_sub c id t :
  timers (run_cleanup c) !! id = Some t -> timers c !! id = Some t.
Proof.
  unfold run_cleanup. destruct (cleanup c) as [i|]; simpl; [|tauto].
  intros H. apply lookup_delete_Some in H. tauto.
Qed.

Lemma run_cleanup_frame c :
  mounted (run_cleanup c) = mounted c /\
  next_timer (run_cleanup c) = next_timer c /\
  st (run_cleanup c) = st c /\
  cleanup (run_cleanup c) = cleanup c.
Proof. unfold run_cleanup. destruct (cleanup c) eqn:E; simpl; repeat split; auto. Qed.

Lemma Inv_commit prev c : PreCommit prev c -> Inv (commit prev c).
Proof.
  intros H. unfold commit.
  destruct (mounted c) eqn:Hm; simpl.
  - case_bool_decide as Hd; simpl.
    + (* same dependencies: no effect runs *)
      pose proof (step2_condition_deps _ _ Hd) as Hc.
      constructor.
      * apply (pre_fresh _ _ H).
      * apply (pre_cleanup_fresh _ _ H).
      * apply (pre_shape _ _ H).
      * intros id Hid. destruct (pre_interval _ _ H id Hid) as (?&?&?).
        rewrite <- Hc. auto.
      * intros _ Hcond. rewrite <- Hc in Hcond.
        apply (pre_polling _ _ H); auto.
    + (* a dependency changed: cleanup, then the effect again *)
      pose proof (run_cleanup_no_interval _ _ H) as Hno.
      pose proof (run_cleanup_frame c) as (Hm1 & Hn1 & Hs1 & Hc1).
      unfold step2_effect. rewrite Hs1.
      destruct (step2_condition (st c)) eqn:Hcond.
      * unfold setInterval. simpl.
        autorewrite with wizard. rewrite Hn1.
        constructor; simpl; autorewrite with wizard.
        -- intros id t Hid. apply lookup_insert_Some in Hid.
           destruct Hid as [[<- _]|[_ Hid]]; [lia|].
           apply run_cleanup_sub in Hid. apply (pre_fresh _ _ H) in Hid. lia.
        -- intros id Hid. injection Hid as <-. lia.
        -- intros id t Hid. apply lookup_insert_Some in Hid.
           destruct Hid as [[_ <-]|[_ Hid]]; [left; reflexivity|].
           apply run_cleanup_sub in Hid. apply (pre_shape _ _ H) in Hid. exact Hid.
        -- intros id Hid. apply lookup_insert_Some in Hid.
           destruct Hid as [[<- _]|[_ Hid]]; [|exfalso; exact (Hno _ Hid)].
           split; [reflexivity|]. split; [congruence|].
           rewrite setState_st, Hm1, Hm, Hs1. exact Hcond.
        -- intros _ _. exists (next_timer c). split; [reflexivity|].
           apply lookup_insert_eq.
      * constructor; simpl.
        -- intros id t Hid. rewrite Hn1. apply run_cleanup_sub in Hid.
           apply (pre_fresh _ _ H) in Hid. exact Hid.
        -- intros id Hid. discriminate.
        -- intros id t Hid. apply run_cleanup_sub in Hid.
           apply (pre_shape _ _ H) in Hid. exact Hid.
        -- intros id Hid. exfalso. exact (Hno _ Hid).
        -- intros _ Hc. rewrite Hs1 in Hc. congruence.
  - (* unmounted: no effect runs, and no interval is left *)
    constructor.
    + apply (pre_fresh _ _ H).
    + apply (pre_cleanup_fresh _ _ H).
    + apply (pre_shape _ _ H).
    + intros id Hid. destruct (pre_interval _ _ H id Hid) as (?&?&?). congruence.
    + intros Hm'. congruence.
Qed.

Lemma PreCommit_frame c c' :
  Inv c ->
  mounted c' = mounted c -> cleanup c' = cleanup c ->
  timers c' = timers c -> next_timer c' = next_timer c ->
  PreCommit (st c) c'.
Proof.
  intros H Hm Hc Ht Hn.
  constructor; rewrite ?Hm, ?Hc, ?Ht, ?Hn.
  - apply (inv_fresh _ H).
  - apply (inv_cleanup_fresh _ H).
  - apply (inv_shape _ H).
  - apply (inv_interval _ H).
  - intros Hm' Hcond _. apply (inv_polling _ H); assumption.
Qed.

(** Deleting a timer that is not the polling interval. *)
Lemma PreCommit_delete_other c c' id :
  Inv c ->
  timers c !! id <> Some poll_timer ->
  mounted c' = mounted c -> cleanup c' = cleanup c ->
  timers c' = delete id (timers c) -> next_timer c' = next_timer c ->
  PreCommit (st c) c'.
Proof.
  intros H Hid Hm Hc Ht Hn.
  constructor; rewrite ?Hm, ?Hc, ?Ht, ?Hn.
  - intros i t Hi. apply lookup_delete_Some in Hi.
    apply (inv_fresh _ H i t). tauto.
  - apply (inv_cleanup_fresh _ H).
  - intros i t Hi. apply lookup_delete_Some in Hi.
    apply (inv_shape _ H i t). tauto.
  - intros i Hi. apply lookup_delete_Some in Hi.
    apply (inv_interval _ H). tauto.
  - intros Hm' Hcond _.
    destruct (inv_polling _ H Hm' Hcond) as (i & Hi & Hti).
    exists i. split; [assumption|].
    rewrite lookup_delete_ne; [assumption|]. congruence.
Qed.

Lemma PreCommit_handle c e : Inv c -> PreCommit (st c) (handle e c).
Proof.
  intros H.
  destruct (touches_timers e) eqn:He.
  - destruct e as [r| | | | | |r| | |id|i r| |r| |r| |r| ]; try discriminate He; simpl.
    + (* a timer fires *)
      destruct (timers c !! id) as [t|] eqn:Ht;
        [|apply PreCommit_frame; auto].
      destruct (inv_shape _ H _ _ Ht) as [-> | ->]; simpl.
      * apply PreCommit_frame; auto.
      * apply (PreCommit_delete_other c _ id); auto.
        rewrite Ht. discriminate.
    + (* a poll settles *)
      case_bool_decide; [|apply PreCommit_frame; auto].
      destruct r as [[|]|d]; simpl; try solve [apply PreCommit_frame; auto].
      constructor; simpl; autorewrite with wizard; simpl.
      * intros j t Hj. apply lookup_delete_Some in Hj.
        apply (inv_fresh _ H j t). tauto.
      * apply (inv_cleanup_fresh _ H).
      * intros j t Hj. apply lookup_delete_Some in Hj.
        apply (inv_shape _ H j t). tauto.
      * intros j Hj. apply lookup_delete_Some in Hj.
        apply (inv_interval _ H). tauto.
      * intros Hm Hcond Hd. exfalso.
        rewrite !setState_st in Hd.
        autorewrite with wizard in Hd. simpl in Hd. rewrite Hm in Hd.
        unfold deps in Hd. simpl in Hd.
        unfold step2_condition in Hcond.
        destruct (testReceived (st c)); [|congruence].
        rewrite andb_false_r in Hcond. discriminate.
    + (* the completion call settles *)
      destruct r as [[]|d]; simpl; [|handler_frame; apply PreCommit_frame; handler_frame].
      constructor; simpl.
      * intros j t Hj. apply lookup_insert_Some in Hj.
        destruct Hj as [[<- _]|[_ Hj]]; [lia|].
        apply (inv_fresh _ H) in Hj. lia.
      * intros j Hj. apply (inv_cleanup_fresh _ H) in Hj. lia.
      * intros j t Hj. apply lookup_insert_Some in Hj.
        destruct Hj as [[_ <-]|[_ Hj]]; [right; reflexivity|].
        apply (inv_shape _ H j t Hj).
      * intros j Hj. apply lookup_insert_Some in Hj.
        destruct Hj as [[_ Hj]|[_ Hj]]; [discriminate|].
        apply (inv_interval _ H j Hj).
      * intros Hm Hcond _.
        destruct (inv_polling _ H Hm Hcond) as (j & Hj & Htj).
        exists j. split; [assumption|].
        rewrite lookup_insert_ne; [assumption|].
        apply (inv_fresh _ H) in Htj. lia.
    + (* unmount *)
      unfold unmount. destruct (mounted c) eqn:Hm; [|apply PreCommit_frame; auto].
      pose proof (run_cleanup_frame c) as (Hm1 & Hn1 & Hs1 & Hc1).
      constructor; simpl; rewrite ?Hn1.
      * intros j t Hj. apply run_cleanup_sub in Hj. apply (inv_fresh _ H j t Hj).
      * discriminate.
      * intros j t Hj. apply run_cleanup_sub in Hj. apply (inv_shape _ H j t Hj).
      * intros j Hj. exfalso.
        assert (Hpre : PreCommit (st c) c) by (apply PreCommit_frame; auto).
        exact (run_cleanup_no_interval _ _ Hpre _ Hj).
      * discriminate.
  - destruct (handle_keeps_timers e c He) as [Ht Hn].
    assert (Hne : e <> Unmount) by (intros ->; discriminate He).
    destruct (handle_keeps_cleanup e c Hne) as [Hm Hc].
    apply PreCommit_frame; assumption.
Qed.

Lemma Inv_step c e : Inv c -> Inv (step c e).
Proof. intros H. apply Inv_commit, PreCommit_handle, H. Qed.

Lemma Inv_mount : Inv mount.
Proof.
  constructor; simpl.
  - intros id t Hid. rewrite lookup_empty in Hid. discriminate.
  - discriminate.
  - intros id t Hid. rewrite lookup_empty in Hid. discriminate.
  - intros id Hid. rewrite lookup_empty in Hid. discriminate.
  - discriminate.
Qed.

Lemma Inv_fold es : forall c, Inv c -> Inv (fold_left step es c).
Proof.
  induction es as [|e es IH]; intros c H; simpl; [assumption|].
  apply IH, Inv_step, H.
Qed.

Lemma Inv_run es : Inv (run es).
Proof. apply Inv_fold, Inv_mount. Qed.

End OnboardingInvariant.

(** ** The onboarding wizard: what a commit and a step change *)

Section OnboardingSteps.
Import Onboarding.

Lemma step2_effect_frame c :
  mounted (step2_effect c) = mounted c /\
  requests (step2_effect c) = requests c /\
  inflight (step2_effect c) = inflight c /\
  location (step2_effect c) = location c /\
  (st (step2_effect c) = st c \/
   (step2_condition (st c) = true /\ st (step2_effect c) = setPolling true (st c))).
Proof.
  unfold step2_effect.
  destruct (step2_condition (st c)) eqn:Hc; simpl; autorewrite with wizard.
  - repeat split; try reflexivity.
    rewrite setState_st. destruct (mounted c); auto.
  - repeat split; auto.
Qed.

Lemma commit_frame prev c :
  mounted (commit prev c) = mounted c /\
  requests (commit prev c) = requests c /\
  inflight (commit prev c) = inflight c /\
  location (commit prev c) = location c /\
  (st (commit prev c) = st c \/
   (step2_condition (st c) = true /\ st (commit prev c) = setPolling true (st c))).
Proof.
  unfold commit. destruct (_ && _)%bool; [|repeat split; auto].
  destruct (step2_effect_frame (run_cleanup c)) as (Hm & Hr & Hi & Hl & Hs).
  destruct (run_cleanup_frame c) as (Hm1 & Hn1 & Hs1 & Hc1).
  rewrite Hm, Hr, Hi, Hl, Hm1. rewrite Hs1 in Hs.
  repeat split; auto.
  - unfold run_cleanup; destruct (cleanup c); reflexivity.
  - unfold run_cleanup; destruct (cleanup c); reflexivity.
  - unfold run_cleanup; destruct (cleanup c); reflexivity.
Qed.

Lemma commit_same_deps prev c :
  deps prev = deps (st c) -> commit prev c = c.
Proof.
  intros H. unfold commit. rewrite bool_decide_eq_true_2 by assumption.
  rewrite andb_false_r. reflexivity.
Qed.

Lemma commit_unmounted prev c : mounted c = false -> commit prev c = c.
Proof. intros H. unfold commit. rewrite H. reflexivity. Qed.

Lemma step_mounted_false c e : mounted c = false -> mounted (step c e) = false.
Proof.
  intros H. unfold step.
  destruct (commit_frame (st c) (handle e c)) as (Hm & _). rewrite Hm.
  assert (e = Unmount \/ e <> Unmount) as [->|Hne]
    by (destruct e; (left; reflexivity) || (right; discriminate)).
  - simpl. unfold unmount. rewrite H. exact H.
  - destruct (handle_keeps_cleanup e c Hne) as [-> _]. exact H.
Qed.

Lemma fold_mounted_false es :
  forall c, mounted c = false -> mounted (fold_left step es c) = false.
Proof.
  induction es as [|e es IH]; intros c H; simpl; [assumption|].
  apply IH, step_mounted_false, H.
Qed.

(** Without a mounted component in a polling state there is no interval. *)
Lemma Inv_no_interval c :
  Inv c -> mounted c = false \/ step2_condition (st c) = false ->
  no_active_interval c.
Proof.
  intros H Hor id t Hid.
  destruct (inv_shape _ H id t Hid) as [-> | ->]; [|reflexivity].
  destruct (inv_interval _ H id Hid) as (_ & Hm & Hc).
  destruct Hor; congruence.
Qed.


(** An unmounted wizard holds no cleanup. *)
Lemma step_unmounted_cleanup c e :
  (mounted c = false -> cleanup c = None) ->
  mounted (step c e) = false -> cleanup (step c e) = None.
Proof.
  intros H Hm. unfold step in *.
  destruct (commit_frame (st c) (handle e c)) as (Hm' & _).
  rewrite Hm' in Hm. rewrite (commit_unmounted _ _ Hm).
  assert (e = Unmount \/ e <> Unmount) as [->|Hne]
    by (destruct e; (left; reflexivity) || (right; discriminate)).
  - simpl. unfold unmount. destruct (mounted c) eqn:E; [reflexivity|auto].
  - destruct (handle_keeps_cleanup e c Hne) as [Hm1 Hc1].
    rewrite Hc1. apply H. congruence.
Qed.

Lemma run_unmounted_cleanup es :
  mounted (run es) = false -> cleanup (run es) = None.
Proof.
  unfold run.
  assert (Hgen : forall c, (mounted c = false -> cleanup c = None) ->
            mounted (fold_left step es c) = false ->
            cleanup (fold_left step es c) = None).
  { induction es as [|e es IH]; intros c H; simpl; [exact H|].
    apply IH. apply step_unmounted_cleanup, H. }
  apply Hgen. simpl. discriminate.
Qed.

(** When a step changes a dependency of the step-2 effect, the interval
    the pending cleanup held is gone afterwards. *)
Lemma step_deps_change_clears c e id :
  Inv c -> (mounted c = false -> cleanup c = None) ->
  cleanup c = Some id ->
  deps (st (step c e)) <> deps (st c) ->
  timers (step c e) !! id = None.
Proof.
  intros H Hu Hc Hd.
  destruct (mounted c) eqn:Hm; [|rewrite Hu in Hc; [discriminate|reflexivity]].
  assert (e = Unmount \/ e <> Unmount) as [->|Hne]
    by (destruct e; (left; reflexivity) || (right; discriminate)).
  - exfalso. apply Hd. unfold step. simpl. unfold unmount. rewrite Hm.
    rewrite commit_unmounted by reflexivity. simpl.
    destruct (run_cleanup_frame c) as (_ & _ & -> & _). reflexivity.
  - destruct (handle_keeps_cleanup e c Hne) as [Hm1 Hc1].
    pose proof (PreCommit_handle c e H) as Hpre.
    unfold step in *. unfold commit in *.
    rewrite Hm1, Hm in *. simpl in *.
    case_bool_decide as Hdeps; simpl in *.
    + exfalso. apply Hd. congruence.
    + assert (Hfresh : (id < next_timer (handle e c))%nat)
        by (apply (pre_cleanup_fresh _ _ Hpre); congruence).
      unfold step2_effect, run_cleanup. rewrite Hc1, Hc. simpl.
      destruct (step2_condition (st (handle e c))); simpl; autorewrite with wizard; simpl.
      * rewrite lookup_insert_ne by lia. apply lookup_delete_eq.
      * apply lookup_delete_eq.
Qed.

End OnboardingSteps.

(** ** The onboarding wizard: polling *)

Section OnboardingPolling.
Import Onboarding.



End OnboardingPolling.

(** C6: in every reachable state, a registered interval timer is the one
    the step-2 effect created and the pending cleanup clears; once the
    component has unmounted no interval timer is registered, whatever
    happens afterwards; and when a step changes a dependency of the effect,
    the interval held by the previous cleanup is no longer registered. *)
Theorem polling_interval_torn_down (es : list Onboarding.Event) :
  let c := Onboarding.run es in
  (forall id t, Onboarding.timers c !! id = Some t ->
                Onboarding.kind t = Onboarding.Interval ->
                t = Onboarding.poll_timer /\
                Onboarding.cleanup c = Some id /\
                Onboarding.mounted c = true) /\
  (forall es',
     Onboarding.no_active_interval
       (fold_left Onboarding.step es' (Onboarding.step c Onboarding.Unmount))) /\
  (forall e id,
     Onboarding.cleanup c = Some id ->
     Onboarding.deps (Onboarding.st (Onboarding.step c e)) <>
       Onboarding.deps (Onboarding.st c) ->
     Onboarding.timers (Onboarding.step c e) !! id = None).
Proof.
  intros c. pose proof (Inv_run es) as H. fold c in H.
  split; [|split].
  - intros id t Hid Hk.
    destruct (Onboarding.inv_shape _ H id t Hid) as [-> | ->]; [|discriminate Hk].
    destruct (Onboarding.inv_interval _ H id Hid) as (Hc & Hm & _). auto.
  - intros es'.
    apply Inv_no_interval.
    + apply Inv_fold, Inv_step, H.
    + left. apply fold_mounted_false.
      unfold Onboarding.step.
      destruct (commit_frame (Onboarding.st c)
                  (Onboarding.handle Onboarding.Unmount c)) as (-> & _).
      simpl. unfold Onboarding.unmount.
      destruct (Onboarding.mounted c) eqn:Hm; [reflexivity|exact Hm].
  - intros e id Hc Hd.
    apply step_deps_change_clears; try assumption.
    apply run_unmounted_cleanup.
Qed.

Lemma polling_interval_torn_down_witness :
  Onboarding.timers
    (Onboarding.step
       (Onboarding.run
          [ Onboarding.InputAlertId "alert-1"; Onboarding.SubmitWebhook;
            Onboarding.WebhookSettled
              (Onboarding.Resolved {| Onboarding.webhook_url := "https://hooks/1";
                                      Onboarding.webhook_secret := "s3cret" |}) ])
       (Onboarding.StatusSettled
          (Onboarding.Resolved
             {| Onboarding.completed := false; Onboarding.current_step := 3;
                Onboarding.webhook_configured := true;
                Onboarding.webhook_test_received := true;
                Onboarding.notifications_configured := false;
                Onboarding.discord_verified := false;
                Onboarding.telegram_verified := false |})))
    !! 0%nat = None.
Proof.
  apply (proj2 (proj2 (polling_interval_torn_down
           [ Onboarding.InputAlertId "alert-1"; Onboarding.SubmitWebhook;
             Onboarding.WebhookSettled
               (Onboarding.Resolved {| Onboarding.webhook_url := "https://hooks/1";
                                       Onboarding.webhook_secret := "s3cret" |}) ]))).
  - vm_compute. reflexivity.
  - vm_compute. discriminate.
Defined.

(** ** The onboarding wizard: status load, verification and completion *)

Section OnboardingStatusLoad.
Import Onboarding.

(** In a reachable state an interval is registered exactly when the mounted
    wizard satisfies the condition of the step-2 effect. *)
Lemma Inv_interval_iff c :
  Inv c -> mounted c = true ->
  ((exists id, timers c !! id = Some poll_timer) <-> step2_condition (st c) = true).
Proof.
  intros H Hm. split.
  - intros (id & Hid). apply (inv_interval _ H id Hid).
  - intros Hc. destruct (inv_polling _ H Hm Hc) as (id & _ & Hid). eauto.
Qed.

Lemma step_keeps_mounted c e :
  e <> Unmount -> mounted (step c e) = mounted c.
Proof.
  intros Hne. unfold step.
  destruct (commit_frame (st c) (handle e c)) as (-> & _).
  apply (handle_keeps_cleanup e c Hne).
Qed.

(** The cells a commit may touch: only [polling]. *)
Lemma commit_st_modulo_polling prev c :
  setPolling (polling (st c)) (st (commit prev c)) = st c.
Proof.
  destruct (commit_frame prev c) as (_ & _ & _ & _ & [-> | [_ ->]]);
    destruct (st c); reflexivity.
Qed.

End OnboardingStatusLoad.

(** X3: when the status load of a mounted wizard resolves, a completed
    onboarding only navigates to /dashboard and leaves the wizard as it was;
    otherwise the step, the webhook flag, the test flag and the two
    verification flags are taken from the server, a configured webhook at
    step 1 moves the wizard to step 2, and afterwards the polling interval is
    registered exactly when the new state is at step 2 with a configured
    webhook and no test received.  A rejected load changes nothing. *)
Theorem loadStatus_outcomes (es : list Onboarding.Event)
    (data : Onboarding.OnboardingStatus) (detail : option string) :
  let c := Onboarding.run es in
  let c' := Onboarding.step c (Onboarding.StatusSettled (Onboarding.Resolved data)) in
  Onboarding.mounted c = true ->
  (Onboarding.completed data = true ->
     c' = Onboarding.navigate "/dashboard" c) /\
  (Onboarding.completed data = false ->
     Onboarding.currentStep (Onboarding.st c') =
       (if (Onboarding.webhook_configured data && (Onboarding.current_step data =? 1))%bool
        then 2 else Onboarding.current_step data) /\
     Onboarding.webhookConfigured (Onboarding.st c') = Onboarding.webhook_configured data /\
     Onboarding.testReceived (Onboarding.st c') = Onboarding.webhook_test_received data /\
     Onboarding.discordVerified (Onboarding.st c') = Onboarding.discord_verified data /\
     Onboarding.telegramVerified (Onboarding.st c') = Onboarding.telegram_verified data /\
     Onboarding.error (Onboarding.st c') = Onboarding.error (Onboarding.st c) /\
     Onboarding.loading (Onboarding.st c') = Onboarding.loading (Onboarding.st c) /\
     Onboarding.webhookUrl (Onboarding.st c') = Onboarding.webhookUrl (Onboarding.st c) /\
     Onboarding.webhookSecret (Onboarding.st c') = Onboarding.webhookSecret (Onboarding.st c) /\
     Onboarding.location c' = Onboarding.location c /\
     Onboarding.requests c' = Onboarding.requests c /\
     ((exists id, Onboarding.timers c' !! id = Some Onboarding.poll_timer) <->
      Onboarding.step2_condition (Onboarding.st c') = true)) /\
  Onboarding.step c (Onboarding.StatusSettled (Onboarding.Rejected detail)) = c.
Proof.
  intros c c' Hm.
  pose proof (Inv_run es) as H. fold c in H.
  split; [|split].
  - intros Hc. subst c'. unfold Onboarding.step. simpl. rewrite Hc.
    apply commit_same_deps. reflexivity.
  - intros Hc.
    pose proof (commit_st_modulo_polling (Onboarding.st c)
                  (Onboarding.handle (Onboarding.StatusSettled (Onboarding.Resolved data)) c))
      as Hst.
    destruct (commit_frame (Onboarding.st c)
                (Onboarding.handle (Onboarding.StatusSettled (Onboarding.Resolved data)) c))
      as (_ & Hr & _ & Hl & _).
    fold (Onboarding.step c (Onboarding.StatusSettled (Onboarding.Resolved data))) in Hst, Hr, Hl.
    fold c' in Hst, Hr, Hl.
    simpl in Hst, Hr, Hl. rewrite Hc in Hst, Hr, Hl.
    rewrite setState_st in Hst. rewrite Hm in Hst.
    autorewrite with wizard in Hr, Hl.
    assert (Hm' : Onboarding.mounted c' = true).
    { subst c'. rewrite step_keeps_mounted by discriminate. exact Hm. }
    assert (Hiff := Inv_interval_iff c'
                      (Inv_step c (Onboarding.StatusSettled (Onboarding.Resolved data)) H) Hm').
    pose proof (f_equal Onboarding.currentStep Hst) as H1.
    pose proof (f_equal Onboarding.webhookConfigured Hst) as H2.
    pose proof (f_equal Onboarding.testReceived Hst) as H3.
    pose proof (f_equal Onboarding.discordVerified Hst) as H4.
    pose proof (f_equal Onboarding.telegramVerified Hst) as H5.
    pose proof (f_equal Onboarding.error Hst) as H6.
    pose proof (f_equal Onboarding.loading Hst) as H7.
    pose proof (f_equal Onboarding.webhookUrl Hst) as H8.
    pose proof (f_equal Onboarding.webhookSecret Hst) as H9.
    clear Hst.
    destruct (Onboarding.webhook_configured data && (Onboarding.current_step data =? 1))%bool;
      simpl in H1, H2, H3, H4, H5, H6, H7, H8, H9;
      repeat split; auto; apply Hiff.
  - unfold Onboarding.step. simpl. apply commit_same_deps. reflexivity.
Qed.

Lemma loadStatus_outcomes_witness :
  Onboarding.currentStep
    (Onboarding.st
       (Onboarding.step (Onboarding.run [])
          (Onboarding.StatusSettled
             (Onboarding.Resolved
                {| Onboarding.completed := false; Onboarding.current_step := 1;
                   Onboarding.webhook_configured := true;
                   Onboarding.webhook_test_received := false;
                   Onboarding.notifications_configured := false;
                   Onboarding.discord_verified := false;
                   Onboarding.telegram_verified := false |})))) = 2.
Proof.
  apply (proj1 (proj2 (loadStatus_outcomes []
           {| Onboarding.completed := false; Onboarding.current_step := 1;
              Onboarding.webhook_configured := true;
              Onboarding.webhook_test_received := false;
              Onboarding.notifications_configured := false;
              Onboarding.discord_verified := false;
              Onboarding.telegram_verified := false |} None eq_refl)) eq_refl).
Defined.

Section OnboardingVerify.
Import Onboarding.

Lemma verify_discord_step c r :
  mounted c = true ->
  st (step c (DiscordSettled r)) =
    setDiscordLoading false
      (match r with
       | Resolved data =>
           if success data then setDiscordVerified true (st c)
           else setError (Js.or_else (verification_error data)
                            "Discord verification failed") (st c)
       | Rejected detail =>
           setError (Js.or_else detail "Failed to verify Discord") (st c)
       end) /\
  timers (step c (DiscordSettled r)) = timers c /\
  requests (step c (DiscordSettled r)) = requests c.
Proof.
  intros Hm. unfold step.
  rewrite commit_same_deps.
  - simpl. unfold handleVerifyDiscord_resume.
    destruct r as [data|d]; [destruct (success data)|];
      autorewrite with wizard; rewrite !setState_st; autorewrite with wizard;
      rewrite Hm; auto.
  - simpl. unfold handleVerifyDiscord_resume.
    destruct r as [data|d]; [destruct (success data)|];
      rewrite !setState_st; autorewrite with wizard; rewrite Hm; reflexivity.
Qed.

Lemma verify_telegram_step c r :
  mounted c = true ->
  st (step c (TelegramSettled r)) =
    setTelegramLoading false
      (match r with
       | Resolved data =>
           if success data then setTelegramVerified true (st c)
           else setError (Js.or_else (verification_error data)
                            "Telegram verification failed") (st c)
       | Rejected detail =>
           setError (Js.or_else detail "Failed to verify Telegram") (st c)
       end) /\
  timers (step c (TelegramSettled r)) = timers c /\
  requests (step c (TelegramSettled r)) = requests c.
Proof.
  intros Hm. unfold step.
  rewrite commit_same_deps.
  - simpl. unfold handleVerifyTelegram_resume.
    destruct r as [data|d]; [destruct (success data)|];
      autorewrite with wizard; rewrite !setState_st; autorewrite with wizard;
      rewrite Hm; auto.
  - simpl. unfold handleVerifyTelegram_resume.
    destruct r as [data|d]; [destruct (success data)|];
      rewrite !setState_st; autorewrite with wizard; rewrite Hm; reflexivity.
Qed.

End OnboardingVerify.

(** X4: when a channel verification settles on a mounted wizard, the
    channel's verified flag becomes true exactly on a successful answer and
    otherwise keeps its value, the other channel's flag is untouched, the
    channel's loading flag is reset in every outcome, and a failed or
    rejected verification leaves an error message (the server's text or the
    channel's fallback) while a successful one leaves the error as it was. *)
Theorem verification_outcomes (c : Onboarding.Component)
    (r : Onboarding.Settled Onboarding.Verification) :
  Onboarding.mounted c = true ->
  let succeeded := match r with
                   | Onboarding.Resolved data => Onboarding.success data
                   | Onboarding.Rejected _ => false
                   end in
  let d := Onboarding.st (Onboarding.step c (Onboarding.DiscordSettled r)) in
  let t := Onboarding.st (Onboarding.step c (Onboarding.TelegramSettled r)) in
  (Onboarding.discordVerified d =
     (Onboarding.discordVerified (Onboarding.st c) || succeeded)%bool /\
   Onboarding.telegramVerified d = Onboarding.telegramVerified (Onboarding.st c) /\
   Onboarding.discordLoading d = false /\
   Onboarding.currentStep d = Onboarding.currentStep (Onboarding.st c) /\
   (succeeded = true -> Onboarding.error d = Onboarding.error (Onboarding.st c)) /\
   (succeeded = false -> Onboarding.error d <> "")) /\
  (Onboarding.telegramVerified t =
     (Onboarding.telegramVerified (Onboarding.st c) || succeeded)%bool /\
   Onboarding.discordVerified t = Onboarding.discordVerified (Onboarding.st c) /\
   Onboarding.telegramLoading t = false /\
   Onboarding.currentStep t = Onboarding.currentStep (Onboarding.st c) /\
   (succeeded = true -> Onboarding.error t = Onboarding.error (Onboarding.st c)) /\
   (succeeded = false -> Onboarding.error t <> "")).
Proof.
  intros Hm succeeded d t. subst d t.
  destruct (verify_discord_step c r Hm) as (-> & _).
  destruct (verify_telegram_step c r Hm) as (-> & _).
  assert (Hor : forall o dflt, dflt <> "" -> Js.or_else o dflt <> "").
  { intros [s|] dflt Hd; simpl; [|exact Hd].
    destruct (String.eqb_spec s ""); assumption. }
  subst succeeded.
  destruct r as [data|detail]; [destruct (Onboarding.success data) eqn:Hs|]; simpl;
    rewrite ?orb_true_r, ?orb_false_r;
    repeat split; auto; try discriminate; intros _; apply Hor; discriminate.
Qed.

Lemma verification_outcomes_witness :
  Onboarding.discordVerified
    (Onboarding.st
       (Onboarding.step Onboarding.mount
          (Onboarding.DiscordSettled
             (Onboarding.Resolved {| Onboarding.success := true;
                                     Onboarding.verification_error := None |})))) = true.
Proof.
  apply (proj1 (proj1 (verification_outcomes Onboarding.mount
           (Onboarding.Resolved {| Onboarding.success := true;
                                   Onboarding.verification_error := None |})
           eq_refl))).
Defined.

Section OnboardingComplete.
Import Onboarding.

Lemma complete_resolved_step c :
  step c (CompleteSettled (Resolved tt)) =
    with_timers (<[next_timer c := redirect_timer]> (timers c)) (S (next_timer c)) c.
Proof. unfold step. simpl. apply commit_same_deps. reflexivity. Qed.

Lemma redirect_fires c id :
  timers c !! id = Some redirect_timer ->
  location (step c (TimerFires id)) = "/dashboard" /\
  timers (step c (TimerFires id)) !! id = None /\
  st (step c (TimerFires id)) = st c.
Proof.
  intros Hid. unfold step. simpl. rewrite Hid. simpl.
  rewrite commit_same_deps by reflexivity. simpl.
  repeat split. apply lookup_delete_eq.
Qed.

Lemma unmount_keeps_timer c id t :
  cleanup c <> Some id -> timers c !! id = Some t ->
  timers (step c Unmount) !! id = Some t.
Proof.
  intros Hne Hid. unfold step. simpl.
  assert (Hm : mounted (unmount c) = false).
  { unfold unmount. destruct (mounted c) eqn:E; [reflexivity|exact E]. }
  rewrite commit_unmounted by exact Hm.
  unfold unmount. destruct (mounted c); [|exact Hid]. simpl.
  unfold run_cleanup. destruct (cleanup c) as [j|] eqn:Hc; simpl; [|exact Hid].
  rewrite lookup_delete_ne; [exact Hid|]. congruence.
Qed.

End OnboardingComplete.

(** X5: when the completion call resolves, the wizard registers a one-shot
    timer of 2000 ms under a fresh id and changes no state cell (loading
    stays as it is); when that timer fires the location becomes /dashboard
    and the timer is gone.  Unmounting in between does not cancel it: the
    redirect still fires.  When the call is rejected no timer is registered,
    the error is the server's detail or 'Failed to complete onboarding', and
    loading is reset. *)
Theorem complete_redirect (es : list Onboarding.Event) (detail : option string) :
  let c := Onboarding.run es in
  let done := Onboarding.step c (Onboarding.CompleteSettled (Onboarding.Resolved tt)) in
  let failed := Onboarding.step c (Onboarding.CompleteSettled (Onboarding.Rejected detail)) in
  let id := Onboarding.next_timer c in
  Onboarding.timers c !! id = None /\
  Onboarding.timers done !! id =
    Some {| Onboarding.kind := Onboarding.Timeout; Onboarding.delay := 2000;
            Onboarding.callback := Onboarding.NavigateDashboard |} /\
  Onboarding.st done = Onboarding.st c /\
  Onboarding.location (Onboarding.step done (Onboarding.TimerFires id)) = "/dashboard" /\
  Onboarding.timers (Onboarding.step done (Onboarding.TimerFires id)) !! id = None /\
  Onboarding.location
    (Onboarding.step (Onboarding.step done Onboarding.Unmount) (Onboarding.TimerFires id))
    = "/dashboard" /\
  Onboarding.timers failed = Onboarding.timers c /\
  (Onboarding.mounted c = true ->
   Onboarding.error (Onboarding.st failed) =
     Js.or_else detail "Failed to complete onboarding" /\
   Onboarding.loading (Onboarding.st failed) = false).
Proof.
  intros c done failed id.
  pose proof (Inv_run es) as H. fold c in H.
  assert (Hdone : Onboarding.timers done !! id = Some Onboarding.redirect_timer).
  { subst done. rewrite complete_resolved_step. simpl. apply lookup_insert_eq. }
  split.
  { destruct (Onboarding.timers c !! id) as [t|] eqn:Ht; [|reflexivity].
    apply (Onboarding.inv_fresh _ H) in Ht. subst id. lia. }
  split; [exact Hdone|].
  split; [subst done; rewrite complete_resolved_step; reflexivity|].
  destruct (redirect_fires done id Hdone) as (Hl & Ht & _).
  split; [exact Hl|]. split; [exact Ht|].
  split.
  { apply redirect_fires. apply unmount_keeps_timer; [|exact Hdone].
    subst done. rewrite complete_resolved_step. simpl. intros Hc.
    apply (Onboarding.inv_cleanup_fresh _ H) in Hc. subst id. lia. }
  assert (Hf : failed = Onboarding.handleComplete_resume (Onboarding.Rejected detail) c).
  { subst failed. unfold Onboarding.step. apply commit_same_deps.
    simpl. rewrite !setState_st. autorewrite with wizard.
    destruct (Onboarding.mounted c); reflexivity. }
  rewrite Hf. simpl. autorewrite with wizard.
  split; [reflexivity|].
  intros Hm. rewrite !setState_st. autorewrite with wizard. rewrite Hm.
  split; reflexivity.
Qed.

Lemma complete_redirect_witness :
  Onboarding.loading
    (Onboarding.st
       (Onboarding.step (Onboarding.run [])
          (Onboarding.CompleteSettled (Onboarding.Rejected None)))) = false.
Proof.
  apply (proj2 (proj2 (proj2 (proj2 (proj2 (proj2 (proj2
           (complete_redirect [] None)))))))).
  reflexivity.
Defined.

Section OnboardingPollingFlag.
Import Onboarding.

(** Handlers never register a polling interval themselves. *)
Lemma handle_interval_sub c e id :
  Inv c -> timers (handle e c) !! id = Some poll_timer ->
  timers c !! id = Some poll_timer.
Proof.
  intros H Hid.
  destruct (touches_timers e) eqn:He.
  - destruct e as [r| | | | | |r| | |j|i r| |r| |r| |r| ]; try discriminate He;
      simpl in Hid.
    + destruct (timers c !! j) as [t|] eqn:Ht; [|exact Hid].
      destruct (inv_shape _ H _ _ Ht) as [-> | ->]; simpl in Hid; [exact Hid|].
      apply lookup_delete_Some in Hid. tauto.
    + destruct (bool_decide _); [|exact Hid].
      destruct r as [[|]|d]; simpl in Hid; try exact Hid.
      autorewrite with wizard in Hid. simpl in Hid.
      apply lookup_delete_Some in Hid. tauto.
    + destruct r as [[]|d]; simpl in Hid.
      * apply lookup_insert_Some in Hid.
        destruct Hid as [[_ Hid]|[_ Hid]]; [discriminate|exact Hid].
      * autorewrite with wizard in Hid. exact Hid.
    + unfold unmount in Hid. destruct (mounted c); [|exact Hid].
      simpl in Hid. apply run_cleanup_sub in Hid. exact Hid.
  - destruct (handle_keeps_timers e c He) as [Ht _]. rewrite Ht in Hid. exact Hid.
Qed.

(** Only a poll that reports the test received resets the polling flag. *)
Lemma handle_keeps_polling c e :
  testReceived (st (handle e c)) = false ->
  polling (st (handle e c)) = polling (st c).
Proof.
  destruct e as [[r|d]| | | | | |r| | |id|i r| |r| |r| |r| ];
    simpl; unfold_handlers; split_scrutinees; simpl;
    repeat (rewrite setState_st; autorewrite with wizard);
    simpl; destruct (mounted c); simpl; auto; congruence.
Qed.

Lemma step_polling_flag c e :
  Inv c ->
  (forall id, timers c !! id = Some poll_timer -> polling (st c) = true) ->
  forall id, timers (step c e) !! id = Some poll_timer ->
             polling (st (step c e)) = true.
Proof.
  intros H IH id Hid.
  pose proof (PreCommit_handle c e H) as Hpre.
  unfold step in *. unfold commit in *.
  destruct (mounted (handle e c) &&
            negb (bool_decide (deps (st c) = deps (st (handle e c)))))%bool eqn:Hb.
  - unfold step2_effect in *.
    destruct (run_cleanup_frame (handle e c)) as (Hm1 & _ & Hs1 & _).
    apply andb_true_iff in Hb as [Hm _].
    destruct (step2_condition (st (run_cleanup (handle e c)))) eqn:Hcond.
    + simpl. autorewrite with wizard. rewrite setState_st, Hm1, Hm. reflexivity.
    + simpl in Hid. exfalso.
      exact (run_cleanup_no_interval _ _ Hpre _ Hid).
  - destruct (pre_interval _ _ Hpre id Hid) as (_ & Hm & Hcond).
    rewrite Hm in Hb. simpl in Hb. apply negb_false_iff in Hb.
    apply bool_decide_eq_true in Hb.
    assert (Htr : testReceived (st (handle e c)) = false).
    { pose proof (f_equal snd Hb) as Hsnd. simpl in Hsnd. rewrite <- Hsnd.
      unfold step2_condition in Hcond. destruct (testReceived (st c)); [|reflexivity].
      rewrite andb_false_r in Hcond. discriminate. }
    rewrite (handle_keeps_polling c e Htr).
    apply (IH id). apply (handle_interval_sub c e id H Hid).
Qed.

Lemma fold_polling_flag es :
  forall c, Inv c ->
    (forall id, timers c !! id = Some poll_timer -> polling (st c) = true) ->
    forall id, timers (fold_left step es c) !! id = Some poll_timer ->
               polling (st (fold_left step es c)) = true.
Proof.
  induction es as [|e es IH]; intros c H Hc; simpl; [exact Hc|].
  apply IH; [apply Inv_step, H|]. apply step_polling_flag; assumption.
Qed.

End OnboardingPollingFlag.

(** X6: in every reachable state of the wizard, whenever an interval timer
    is registered the polling flag is set: the wizard never polls without
    showing that it does. *)
Theorem polling_flag_set_while_polling (es : list Onboarding.Event) :
  forall id t,
    Onboarding.timers (Onboarding.run es) !! id = Some t ->
    Onboarding.kind t = Onboarding.Interval ->
    Onboarding.polling (Onboarding.st (Onboarding.run es)) = true.
Proof.
  intros id t Hid Hk.
  destruct (Onboarding.inv_shape _ (Inv_run es) id t Hid) as [-> | ->];
    [|discriminate Hk].
  apply (fold_polling_flag es Onboarding.mount Inv_mount) with (id := id);
    [|exact Hid].
  intros j Hj. simpl in Hj. rewrite lookup_empty in Hj. discriminate.
Qed.

Lemma polling_flag_set_while_polling_witness :
  Onboarding.polling
    (Onboarding.st
       (Onboarding.run
          [ Onboarding.StatusSettled
              (Onboarding.Resolved
                 {| Onboarding.completed := false; Onboarding.current_step := 2;
                    Onboarding.webhook_configured := true;
                    Onboarding.webhook_test_received := false;
                    Onboarding.notifications_configured := false;
                    Onboarding.discord_verified := false;
                    Onboarding.telegram_verified := false |}) ])) = true.
Proof.
  apply (polling_flag_set_while_polling _ 0%nat Onboarding.poll_timer).
  - vm_compute. reflexivity.
  - reflexivity.
Defined.

(** X7: submitting the webhook form of a mounted wizard at step 1 and
    receiving the created webhook takes the wizard to step 2 with the URL
    and secret stored; unless the test had already been received, the
    polling interval is then registered and the polling flag set, and if it
    had, no interval is registered. *)
Theorem webhook_creation_starts_polling (es : list Onboarding.Event)
    (data : Onboarding.WebhookCreated) :
  let c := Onboarding.run es in
  let c2 := Onboarding.run
              (es ++ [Onboarding.SubmitWebhook;
                      Onboarding.WebhookSettled (Onboarding.Resolved data)]) in
  Onboarding.mounted c = true ->
  Onboarding.currentStep (Onboarding.st c) = 1 ->
  Onboarding.webhookConfigured (Onboarding.st c) = false ->
  Onboarding.currentStep (Onboarding.st c2) = 2 /\
  Onboarding.webhookConfigured (Onboarding.st c2) = true /\
  Onboarding.webhookUrl (Onboarding.st c2) = Onboarding.webhook_url data /\
  Onboarding.webhookSecret (Onboarding.st c2) = Onboarding.webhook_secret data /\
  Onboarding.loading (Onboarding.st c2) = false /\
  (Onboarding.testReceived (Onboarding.st c) = false ->
     exists interval,
       Onboarding.timers c2 !! interval = Some Onboarding.poll_timer /\
       Onboarding.polling (Onboarding.st c2) = true) /\
  (Onboarding.testReceived (Onboarding.st c) = true ->
     Onboarding.no_active_interval c2).
Proof.
  intros c c2 Hm Hstep Hcfg.
  pose proof (Inv_run (es ++ [Onboarding.SubmitWebhook;
                Onboarding.WebhookSettled (Onboarding.Resolved data)])) as H2.
  fold c2 in H2.
  assert (Hc2 : c2 = Onboarding.step (Onboarding.step c Onboarding.SubmitWebhook)
                       (Onboarding.WebhookSettled (Onboarding.Resolved data))).
  { subst c2 c. unfold Onboarding.run. rewrite fold_left_app. reflexivity. }
  assert (Hc1 : Onboarding.step c Onboarding.SubmitWebhook =
                Onboarding.handleCreateWebhook_begin c).
  { unfold Onboarding.step. simpl. rewrite Hstep, Hcfg. simpl.
    apply commit_same_deps.
    unfold Onboarding.handleCreateWebhook_begin. simpl.
    rewrite !setState_st. autorewrite with wizard. rewrite Hm. reflexivity. }
  rewrite Hc1 in Hc2.
  pose proof (commit_st_modulo_polling
                (Onboarding.st (Onboarding.handleCreateWebhook_begin c))
                (Onboarding.handle (Onboarding.WebhookSettled (Onboarding.Resolved data))
                   (Onboarding.handleCreateWebhook_begin c))) as Hst.
  fold (Onboarding.step (Onboarding.handleCreateWebhook_begin c)
          (Onboarding.WebhookSettled (Onboarding.Resolved data))) in Hst.
  rewrite <- Hc2 in Hst.
  simpl in Hst.
  unfold Onboarding.handleCreateWebhook_resume, Onboarding.handleCreateWebhook_begin in Hst.
  simpl in Hst. rewrite !setState_st in Hst. autorewrite with wizard in Hst.
  simpl in Hst. rewrite !setState_st in Hst. autorewrite with wizard in Hst.
  rewrite Hm in Hst. simpl in Hst.
  pose proof (f_equal Onboarding.currentStep Hst) as H1.
  pose proof (f_equal Onboarding.webhookConfigured Hst) as H3.
  pose proof (f_equal Onboarding.webhookUrl Hst) as H4.
  pose proof (f_equal Onboarding.webhookSecret Hst) as H5.
  pose proof (f_equal Onboarding.loading Hst) as H6.
  pose proof (f_equal Onboarding.testReceived Hst) as H7.
  simpl in H1, H3, H4, H5, H6, H7. clear Hst.
  assert (Hm2 : Onboarding.mounted c2 = true).
  { rewrite Hc2. rewrite step_keeps_mounted by discriminate.
    unfold Onboarding.handleCreateWebhook_begin. simpl.
    autorewrite with wizard. exact Hm. }
  assert (Hcond : Onboarding.step2_condition (Onboarding.st c2) =
                  negb (Onboarding.testReceived (Onboarding.st c))).
  { unfold Onboarding.step2_condition. rewrite H1, H3, H7. reflexivity. }
  repeat split; try assumption.
  - intros Ht. rewrite Ht in Hcond. simpl in Hcond.
    destruct (Onboarding.inv_polling _ H2 Hm2 Hcond) as (i & _ & Hi).
    exists i. split; [exact Hi|].
    apply (fold_polling_flag
             (es ++ [Onboarding.SubmitWebhook;
                     Onboarding.WebhookSettled (Onboarding.Resolved data)])
             Onboarding.mount Inv_mount) with (id := i); [|exact Hi].
    intros j Hj. simpl in Hj. rewrite lookup_empty in Hj. discriminate.
  - intros Ht. apply Inv_no_interval; [exact H2|]. right.
    rewrite Hcond, Ht. reflexivity.
Qed.

Lemma webhook_creation_starts_polling_witness :
  exists interval,
    Onboarding.timers
      (Onboarding.run
         ([Onboarding.InputAlertId "alert-1"] ++
          [Onboarding.SubmitWebhook;
           Onboarding.WebhookSettled
             (Onboarding.Resolved {| Onboarding.webhook_url := "https://hooks/1";
                                     Onboarding.webhook_secret := "s3cret" |})]))
      !! interval = Some Onboarding.poll_timer.
Proof.
  destruct (webhook_creation_starts_polling [Onboarding.InputAlertId "alert-1"]
              {| Onboarding.webhook_url := "https://hooks/1";
                 Onboarding.webhook_secret := "s3cret" |} eq_refl eq_refl eq_refl)
    as (_ & _ & _ & _ & _ & Hpoll & _).
  destruct (Hpoll eq_refl) as (i & Hi & _).
  exists i. exact Hi.
Defined.

(** ** The route guard, the route table and the navigation bar *)

(** Splits goals and hypotheses into their atoms and closes what
    [congruence] and [eauto] can. *)
Ltac break_logic :=
  repeat match goal with
         | |- _ /\ _ => split
         | |- _ <-> _ => split
         | |- forall _, _ => intro
         | H : _ /\ _ |- _ => destruct H
         | H : exists _, _ |- _ => destruct H
         | H : _ \/ _ |- _ => destruct H
         end;
  subst; try discriminate; try congruence; eauto 6.

(** X8: ProtectedRoute shows the wrapped page exactly when the auth load
    has finished, a user is present and that user has completed onboarding
    or the location is /onboarding; while loading it shows the loading
    screen and never redirects; and a redirect it issues never targets the
    location it is rendered at, unless that location is /login itself. *)
Theorem ProtectedRoute_shows_page_iff
    (auth : Routing.Auth) (pathname : string) (page : Routing.Page) :
  let out := Routing.ProtectedRoute auth pathname (Routing.Component page) in
  (out = Routing.Component page <->
     Routing.loading auth = false /\
     exists u, Routing.user auth = Some u /\
               (Routing.onboarding_completed u = true \/ pathname = "/onboarding")) /\
  (Routing.loading auth = true -> out = Routing.LoadingScreen) /\
  (forall to from replace,
     out = Routing.Navigate to from replace ->
     Routing.loading auth = false /\ replace = true /\
     (to = "/login" \/ to = "/onboarding") /\
     (to = pathname -> pathname = "/login")).
Proof.
  intros out. subst out. unfold Routing.ProtectedRoute.
  destruct auth as [[u|] [|]]; simpl;
    try destruct (Routing.onboarding_completed u) eqn:Hc; simpl;
    try destruct (String.eqb_spec pathname "/onboarding") as [->|Hne]; simpl;
    break_logic; (left; congruence) || (right; congruence).
Qed.

Lemma ProtectedRoute_shows_page_iff_witness :
  Routing.ProtectedRoute
    {| Routing.user := Some {| Routing.user_id := "u1"; Routing.email := "a@b.c";
                               Routing.full_name := "A"; Routing.is_verified := true;
                               Routing.onboarding_completed := false |};
       Routing.loading := false |}
    "/onboarding" (Routing.Component Routing.Dashboard)
  = Routing.Component Routing.Dashboard.
Proof.
  apply (proj1 (ProtectedRoute_shows_page_iff _ "/onboarding" Routing.Dashboard)).
  split; [reflexivity|]. eexists. split; [reflexivity|]. right. reflexivity.
Defined.

Lemma App_lookup (auth : Routing.Auth) (pathname : string) (e : Routing.Element) :
  Routing.App auth pathname = Some e ->
  In (pathname, e) (Routing.App_routes auth).
Proof.
  unfold Routing.App. intros H.
  destruct (find _ (Routing.App_routes auth)) as [[p e']|] eqn:Hf; simpl in H;
    [|discriminate].
  injection H as <-.
  apply find_some in Hf as [Hin Heq]. simpl in Heq.
  apply String.eqb_eq in Heq. subst p. exact Hin.
Qed.

(** X9: the navigation bar and the route table agree: the bar links exactly
    the four routes under App's "Protected routes" comment, each of which
    App routes to a page component; at any location at most one link is
    highlighted, and one is exactly when the location is one of the four;
    and every redirect in the route table leads to a route that renders a
    page. *)
Theorem nav_links_are_routed (auth : Routing.Auth) (pathname : string) :
  map Layout.nav_path Layout.navItems = Routing.protected_paths /\
  Forall (fun item => exists page,
            Routing.App auth (Layout.nav_path item) = Some (Routing.Component page))
         Layout.navItems /\
  (length (List.filter (Layout.isActive pathname) Layout.navItems)
     <= 1)%nat /\
  (In pathname Routing.protected_paths <->
   length (List.filter (Layout.isActive pathname) Layout.navItems)
     = 1%nat) /\
  (forall to from replace,
     Routing.App auth pathname = Some (Routing.Navigate to from replace) ->
     exists page, Routing.App auth to = Some (Routing.Component page)).
Proof.
  split; [reflexivity|].
  split; [repeat constructor; eexists; reflexivity|].
  assert (Hcases :
    pathname = "/dashboard" \/ pathname = "/detections" \/ pathname = "/webhooks" \/
    pathname = "/analytics" \/
    (pathname <> "/dashboard" /\ pathname <> "/detections" /\
     pathname <> "/webhooks" /\ pathname <> "/analytics")).
  { destruct (String.eqb_spec pathname "/dashboard"); [tauto|].
    destruct (String.eqb_spec pathname "/detections"); [tauto|].
    destruct (String.eqb_spec pathname "/webhooks"); [tauto|].
    destruct (String.eqb_spec pathname "/analytics"); tauto. }
  split; [|split].
  - destruct Hcases as [->|[->|[->|[->|(H1 & H2 & H3 & H4)]]]];
      try (vm_compute; lia).
    unfold Layout.navItems, Layout.isActive. simpl.
    apply String.eqb_neq in H1, H2, H3, H4. rewrite H1, H2, H3, H4. simpl. lia.
  - destruct Hcases as [->|[->|[->|[->|(H1 & H2 & H3 & H4)]]]];
      try (split; [intros _; vm_compute; reflexivity|intros _; simpl; tauto]).
    split.
    + simpl. intros [H|[H|[H|[H|[]]]]]; congruence.
    + unfold Layout.navItems, Layout.isActive. simpl.
      apply String.eqb_neq in H1, H2, H3, H4. rewrite H1, H2, H3, H4. simpl.
      discriminate.
  - intros to from replace H. apply App_lookup in H. simpl in H.
    repeat (destruct H as [H|H]; [try discriminate H|]); try contradiction.
    injection H as _ <- _ _. eexists. reflexivity.
Qed.

(** ** The auth provider and the bearer token *)

Lemma send_headers_without_token (storage : gmap string string) :
  Js.truthy (storage !! "access_token") = false ->
  ApiClient.send_headers storage = ApiClient.default_headers.
Proof.
  unfold ApiClient.send_headers, ApiClient.interceptor.
  destruct (storage !! "access_token") as [t|]; [|reflexivity].
  intros ->. reflexivity.
Qed.

Lemma send_headers_with_token (storage : gmap string string) (t : string) :
  storage !! "access_token" = Some t -> t <> "" ->
  ApiClient.send_headers storage !! "Authorization" = Some ("Bearer " +:+ t).
Proof.
  intros Ht Hne. unfold ApiClient.send_headers, ApiClient.interceptor.
  rewrite Ht. apply truthy_nonempty in Hne. rewrite Hne.
  apply lookup_insert_eq.
Qed.

(** X10: logout removes the stored token and nothing else from
    localStorage, clears the user and sends the browser to /login; requests
    sent afterwards carry no Authorization header, and once the auth load
    has finished ProtectedRoute redirects every location to /login. *)
Theorem logout_clears_session (s : AuthProvider.Session) :
  let s' := AuthProvider.logout s in
  AuthProvider.storage s' !! "access_token" = None /\
  (forall k, k <> "access_token" ->
     AuthProvider.storage s' !! k = AuthProvider.storage s !! k) /\
  Routing.user (AuthProvider.ctx s') = None /\
  AuthProvider.isAuthenticated s' = false /\
  AuthProvider.href s' = Some "/login" /\
  AuthProvider.requests s' = AuthProvider.requests s /\
  ApiClient.send_headers (AuthProvider.storage s') !! "Authorization" = None /\
  (Routing.loading (AuthProvider.ctx s) = false ->
   forall pathname children,
     Routing.ProtectedRoute (AuthProvider.ctx s') pathname children =
     Routing.Navigate "/login" (Some pathname) true).
Proof.
  intros s'. subst s'. unfold AuthProvider.logout. simpl.
  split; [apply lookup_delete_eq|].
  split; [intros k Hk; apply lookup_delete_ne; congruence|].
  repeat split.
  - rewrite send_headers_without_token; [reflexivity|].
    rewrite lookup_delete_eq. reflexivity.
  - intros Hl pathname children. unfold Routing.ProtectedRoute. simpl.
    rewrite Hl. reflexivity.
Qed.

Lemma logout_clears_session_witness :
  Routing.ProtectedRoute
    (AuthProvider.ctx
       (AuthProvider.logout
          (AuthProvider.refreshUser_resume (Onboarding.Rejected None)
             (AuthProvider.mount ApiClient.axios_verbs {["access_token" := "abc"]}))))
    "/dashboard" (Routing.Component Routing.Dashboard)
  = Routing.Navigate "/login" (Some "/dashboard") true.
Proof.
  pose proof (logout_clears_session
                (AuthProvider.refreshUser_resume (Onboarding.Rejected None)
                   (AuthProvider.mount ApiClient.axios_verbs {["access_token" := "abc"]}))) as H.
  cbv zeta in H. destruct H as (_ & _ & _ & _ & _ & _ & _ & H).
  apply H. reflexivity.
Defined.

(** X13: on any request configuration the interceptor leaves every header
    other than Authorization as it was, replaces whatever Authorization the
    configuration carried by the current non-empty token, returns the
    configuration unchanged when no token (or an empty one) is stored, and
    running it twice is the same as running it once. *)
Theorem interceptor_on_any_headers (storage headers : gmap string string) :
  (forall h, h <> "Authorization" ->
     ApiClient.interceptor storage headers !! h = headers !! h) /\
  (forall t, storage !! "access_token" = Some t -> t <> "" ->
     ApiClient.interceptor storage headers !! "Authorization" = Some ("Bearer " +:+ t)) /\
  (Js.truthy (storage !! "access_token") = false ->
     ApiClient.interceptor storage headers = headers) /\
  ApiClient.interceptor storage (ApiClient.interceptor storage headers) =
    ApiClient.interceptor storage headers.
Proof.
  unfold ApiClient.interceptor.
  destruct (storage !! "access_token") as [tok|] eqn:Htok; simpl.
  - destruct (negb (String.eqb tok "")) eqn:Hne; simpl.
    + repeat split.
      * intros h Hh. apply lookup_insert_ne. congruence.
      * intros t Ht _. injection Ht as <-. apply lookup_insert_eq.
      * discriminate.
      * apply insert_insert_eq.
    + repeat split; try reflexivity.
      intros t Ht Hn. injection Ht as <-.
      apply truthy_nonempty in Hn. simpl in Hn. congruence.
  - repeat split; try reflexivity. discriminate.
Qed.

Lemma interceptor_on_any_headers_witness :
  ApiClient.interceptor {["access_token" := "new"]}
    {["Authorization" := "Bearer old"]} !! "Authorization" = Some "Bearer new".
Proof.
  apply (proj1 (proj2 (interceptor_on_any_headers {["access_token" := "new"]}
                         {["Authorization" := "Bearer old"]})) "new").
  - reflexivity.
  - discriminate.
Defined.

(** ** The data hooks *)

Section FormEncoding.

Lemma form_urlencode_uint (d : Decimal.uint) :
  JsText.form_urlencode (NilEmpty.string_of_uint d) = NilEmpty.string_of_uint d.
Proof. induction d; simpl; [reflexivity|rewrite IHd; reflexivity ..]. Qed.

(** Printed integers pass through the serializer unchanged. *)
Lemma form_urlencode_ofNumber (n : Z) :
  JsText.form_urlencode (JsText.ofNumber n) = JsText.ofNumber n.
Proof.
  unfold JsText.ofNumber, NilZero.string_of_int, NilZero.string_of_uint.
  assert (H : forall d, JsText.form_urlencode
                (match d with Decimal.Nil => "0" | _ => NilEmpty.string_of_uint d end) =
              match d with Decimal.Nil => "0" | _ => NilEmpty.string_of_uint d end).
  { intros d. pose proof (form_urlencode_uint d) as Hd.
    destruct d; [reflexivity|exact Hd ..]. }
  destruct (Z.to_int n) as [d|d]; [apply H|].
  simpl. rewrite H. reflexivity.
Qed.

End FormEncoding.

Lemma incidents_params_keys (filters : Hooks.IncidentsFilters) (k : string) :
  In k (map fst (Hooks.incidents_params filters)) <->
  exists v, In (k, Some v) filters.
Proof.
  induction filters as [|[key [value|]] rest IH]; simpl.
  - split; [tauto|intros (v & [])].
  - rewrite IH. split.
    + intros [<- | (v & Hv)]; eauto.
    + intros (v & [Heq | Hv]); [injection Heq as -> _; auto|eauto].
  - rewrite IH. split.
    + intros (v & Hv). eauto.
    + intros (v & [Heq | Hv]); [discriminate|eauto].
Qed.

(** X14: the incidents query sends a filter exactly when its value is
    defined.  For the incidents page this means: severity and status are
    sent only when selected, page and page_size=20 always, in that order,
    so the request is /incidents?[severity=..&][status=..&]page=N&page_size=20. *)
Theorem incidents_query_sends_defined_filters
    (filters : Hooks.IncidentsFilters) (s : IncidentsPage.State) :
  (forall k, In k (map fst (Hooks.incidents_params filters)) <->
             exists v, In (k, Some v) filters) /\
  Hooks.useIncidents_path (IncidentsPage.filters s) =
    "/incidents?" +:+
    JsText.join "&"
      ((if String.eqb (IncidentsPage.severity s) "" then []
        else ["severity=" +:+ JsText.form_urlencode (IncidentsPage.severity s)]) ++
       (if String.eqb (IncidentsPage.status s) "" then []
        else ["status=" +:+ JsText.form_urlencode (IncidentsPage.status s)]) ++
       ["page=" +:+ JsText.ofNumber (IncidentsPage.page s); "page_size=20"])%list.
Proof.
  split; [apply incidents_params_keys|].
  unfold Hooks.useIncidents_path, IncidentsPage.filters, JsText.searchParams_toString.
  f_equal.
  destruct (String.eqb (IncidentsPage.severity s) "");
    destruct (String.eqb (IncidentsPage.status s) "");
    cbn [Hooks.incidents_params map fst snd Hooks.String_ app];
    rewrite form_urlencode_ofNumber; reflexivity.
Qed.

(** X15: every request path a data hook can build lies under /incidents or
    /metrics, whatever its arguments, hence inside the listed boundary
    prefixes; and the incident-detail query is enabled exactly when its
    query function does not throw, in which case it asks /incidents/<id>. *)
Theorem hooks_paths_under_boundary (q : Hooks.Query) (incidentId : option string) :
  (Js.startsWith "/incidents" (Hooks.query_path q) = true \/
   Js.startsWith "/metrics" (Hooks.query_path q) = true) /\
  ApiClient.under ApiClient.boundary_prefixes (Hooks.query_path q) = true /\
  (Hooks.useIncidentDetail_enabled incidentId = true <->
   exists id, incidentId = Some id /\ id <> "" /\
              Hooks.useIncidentDetail_queryFn incidentId = inl ("/incidents/" +:+ id)) /\
  (Hooks.useIncidentDetail_enabled incidentId = false <->
   Hooks.useIncidentDetail_queryFn incidentId = inr "Incident ID is required").
Proof.
  split; [destruct q; (left; reflexivity) || (right; reflexivity)|].
  split; [destruct q; reflexivity|].
  unfold Hooks.useIncidentDetail_enabled, Hooks.useIncidentDetail_queryFn.
  destruct incidentId as [id|]; simpl;
    [destruct (String.eqb_spec id "") as [->|Hne]; simpl|];
    break_logic.
Qed.

(** ** The list pages *)

Lemma ceil_div_bounds (a b : Z) :
  0 < b ->
  (IncidentsPage.ceil_div a b - 1) * b < a <= IncidentsPage.ceil_div a b * b.
Proof.
  intros Hb. unfold IncidentsPage.ceil_div.
  pose proof (Z.div_mod (- a) b ltac:(lia)) as Hdm.
  pose proof (Z.mod_pos_bound (- a) b Hb) as Hm.
  nia.
Qed.

(** X16: on the incidents page, for a positive page size, totalPages is the
    least number of pages that holds all incidents
    ((totalPages - 1) * page_size < total <= totalPages * page_size);
    there is more than one page exactly when the total exceeds the page
    size, and the Previous/Next block is rendered exactly when, in
    addition, the query is neither loading nor failed and the current page
    lists at least one incident.  Without data totalPages is 0 and the block
    is not rendered. *)
Theorem incidents_totalPages_covers_total
    (d : IncidentsPage.Data) (isLoading error : bool) :
  0 < IncidentsPage.page_size d ->
  let tp := IncidentsPage.totalPages (Some d) in
  (tp - 1) * IncidentsPage.page_size d < IncidentsPage.total d
     <= tp * IncidentsPage.page_size d /\
  (forall n, IncidentsPage.total d <= n * IncidentsPage.page_size d -> tp <= n) /\
  (1 < tp <-> IncidentsPage.page_size d < IncidentsPage.total d) /\
  (IncidentsPage.pagination_rendered isLoading error (Some d) = true <->
     isLoading = false /\ error = false /\ 0 < IncidentsPage.incidents_length d /\
     IncidentsPage.page_size d < IncidentsPage.total d) /\
  IncidentsPage.totalPages None = 0 /\
  IncidentsPage.pagination_rendered isLoading error None = false.
Proof.
  intros Hps tp.
  pose proof (ceil_div_bounds (IncidentsPage.total d) (IncidentsPage.page_size d) Hps) as Hb.
  fold (IncidentsPage.totalPages (Some d)) in Hb. fold tp in Hb.
  assert (H1 : 1 < tp <-> IncidentsPage.page_size d < IncidentsPage.total d) by nia.
  split; [exact Hb|]. split; [intros n Hn; nia|]. split; [exact H1|].
  split; [|split; [reflexivity|]].
  - unfold IncidentsPage.pagination_rendered. fold tp.
    rewrite !andb_true_iff, !negb_true_iff, !Z.ltb_lt. rewrite H1. tauto.
  - unfold IncidentsPage.pagination_rendered.
    destruct isLoading, error; reflexivity.
Qed.

Lemma incidents_totalPages_covers_total_witness :
  IncidentsPage.totalPages
    (Some {| IncidentsPage.total := 41; IncidentsPage.page_size := 20;
             IncidentsPage.incidents_length := 20 |}) <= 3.
Proof.
  pose proof (incidents_totalPages_covers_total
                {| IncidentsPage.total := 41; IncidentsPage.page_size := 20;
                   IncidentsPage.incidents_length := 20 |} false false
                ltac:(simpl; lia)) as H.
  cbv zeta in H. destruct H as (_ & H & _).
  apply (H 3). simpl. lia.
Defined.

Lemma incidents_handle_page isLoading error data s e :
  1 <= IncidentsPage.page s ->
  1 <= IncidentsPage.page (IncidentsPage.handle isLoading error data s e).
Proof.
  intros Hp. destruct e as [v|v| |c]; simpl; try assumption.
  - destruct (IncidentsPage.clear_rendered s); simpl; [lia|assumption].
  - destruct (IncidentsPage.pagination_rendered isLoading error data) eqn:Hr;
      simpl; [|assumption].
    destruct (negb _); simpl; [|assumption].
    assert (Htp : 1 < IncidentsPage.totalPages data).
    { unfold IncidentsPage.pagination_rendered in Hr.
      rewrite !andb_true_iff in Hr. destruct Hr as [_ Hr]. lia. }
    destruct c; simpl; lia.
Qed.

(** X17: whatever the user selects or clicks on the incidents page and
    whatever the query holds at each moment, the page number never drops
    below 1, so every request asks for a positive page with page_size 20;
    and "Clear filters", when a filter is set, returns to page 1 with both
    filters empty. *)
Theorem incidents_page_at_least_one
    (es : list (bool * bool * option IncidentsPage.Data * IncidentsPage.Event))
    (isLoading error : bool) (data : option IncidentsPage.Data) :
  let s := IncidentsPage.run IncidentsPage.initial es in
  1 <= IncidentsPage.page s /\
  In ("page", Some (Hooks.FNumber (IncidentsPage.page s))) (IncidentsPage.filters s) /\
  In ("page_size", Some (Hooks.FNumber 20)) (IncidentsPage.filters s) /\
  (IncidentsPage.clear_rendered s = true ->
   IncidentsPage.handle isLoading error data s IncidentsPage.ClearFilters =
     IncidentsPage.initial).
Proof.
  intros s.
  assert (Hgen : forall es s0, 1 <= IncidentsPage.page s0 ->
                   1 <= IncidentsPage.page (IncidentsPage.run s0 es)).
  { clear. induction es as [|[[[l e] d] ev] es IH]; intros s0 H0; simpl; [assumption|].
    apply IH, incidents_handle_page, H0. }
  split; [apply Hgen; simpl; lia|].
  split; [simpl; tauto|]. split; [simpl; tauto|].
  intros Hc. simpl. rewrite Hc. reflexivity.
Qed.

Lemma incidents_page_at_least_one_witness :
  IncidentsPage.handle false false None
    (IncidentsPage.run IncidentsPage.initial
       [(false, false, None, IncidentsPage.SelectSeverity "CRITICAL")])
    IncidentsPage.ClearFilters = IncidentsPage.initial.
Proof.
  pose proof (incidents_page_at_least_one
                [(false, false, None, IncidentsPage.SelectSeverity "CRITICAL")]
                false false None) as H.
  cbv zeta in H. destruct H as (_ & _ & _ & H).
  apply H. reflexivity.
Defined.

Section DetectionsInvariant.
Context {D : Type}.
Import DetectionsPage.

Lemma detections_step_ok (s : State D) (e : Event D) :
  sane e = true -> detections_ok s -> detections_ok (fst (step s e)).
Proof.
  intros He [Ht Hp]. unfold detections_ok.
  destruct e as [v|v| |c|[data|d]]; simpl; try (split; assumption).
  - destruct (pagination_rendered s && _)%bool; simpl; [|split; assumption].
    destruct (_ =? page s) eqn:E; simpl; [split; assumption|].
    split; [assumption|]. destruct c; simpl; lia.
  - split; [|assumption]. simpl in He.
    unfold number_or. destruct (r_total_pages data) as [n|]; [|lia].
    destruct (n =? 0) eqn:E; lia.
Qed.

Lemma detections_run_ok (es : list (Event D)) :
  forall s, forallb sane es = true -> detections_ok s -> detections_ok (run s es).
Proof.
  induction es as [|e es IH]; intros s Hes Hs; simpl; [assumption|].
  simpl in Hes. apply andb_true_iff in Hes as [He Hes].
  apply IH; [assumption|]. apply detections_step_ok; assumption.
Qed.

End DetectionsInvariant.

(** X18: on the detections page, as long as the server never reports a
    negative page count, totalPages and page stay at least 1 through every
    sequence of filter changes, refreshes, pagination clicks and settled
    loads (a missing or zero total_pages counts as 1), so every request the
    page issues asks for a positive page with page_size 20; every settled
    load ends the loading state, and a failed load keeps the detections and
    totalPages shown before. *)
Theorem detections_page_invariants (D : Type)
    (es : list (DetectionsPage.Event D)) (e : DetectionsPage.Event D)
    (r : Onboarding.Settled (DetectionsPage.Response D)) (detail : option string) :
  forallb DetectionsPage.sane es = true ->
  let s := DetectionsPage.run (fst (DetectionsPage.mount D)) es in
  1 <= DetectionsPage.totalPages s /\
  1 <= DetectionsPage.page s /\
  Forall (fun params =>
            exists p, In ("page", Hooks.FNumber p) params /\ 1 <= p /\
                      In ("page_size", Hooks.FNumber 20) params)
         (snd (DetectionsPage.mount D) ++ snd (DetectionsPage.step s e)) /\
  DetectionsPage.loading (DetectionsPage.loadDetections_resume r s) = false /\
  DetectionsPage.detections
    (DetectionsPage.loadDetections_resume (Onboarding.Rejected detail) s) =
    DetectionsPage.detections s /\
  DetectionsPage.totalPages
    (DetectionsPage.loadDetections_resume (Onboarding.Rejected detail) s) =
    DetectionsPage.totalPages s.
Proof.
  intros Hes s.
  assert (Hok : DetectionsPage.detections_ok s).
  { apply detections_run_ok; [assumption|]. split; simpl; lia. }
  destruct Hok as [Ht Hp].
  split; [exact Ht|]. split; [exact Hp|]. split.
  - apply Forall_app. split.
    + repeat constructor. exists 1. simpl. repeat split; auto. lia.
    + destruct e as [v|v| |c|r']; simpl;
        try (repeat constructor; eexists; simpl; repeat split; eauto; fail).
      destruct (DetectionsPage.pagination_rendered s && _)%bool; simpl; [|constructor].
      destruct (_ =? DetectionsPage.page s) eqn:E; simpl; [constructor|].
      repeat constructor. eexists. simpl. split; [left; reflexivity|].
      split; [|auto]. destruct c; simpl; lia.
  - split; [destruct r; reflexivity|]. split; reflexivity.
Qed.

Lemma detections_page_invariants_witness :
  1 <= DetectionsPage.totalPages
         (DetectionsPage.run (fst (DetectionsPage.mount nat))
            [ DetectionsPage.LoadSettled
                (Onboarding.Resolved {| DetectionsPage.r_detections := Some [1%nat; 2%nat];
                                        DetectionsPage.r_total_pages := Some 0 |});
              DetectionsPage.Click Pagination.Next ]).
Proof.
  pose proof (detections_page_invariants nat
                [ DetectionsPage.LoadSettled
                    (Onboarding.Resolved {| DetectionsPage.r_detections := Some [1%nat; 2%nat];
                                            DetectionsPage.r_total_pages := Some 0 |});
                  DetectionsPage.Click Pagination.Next ]
                DetectionsPage.Refresh (Onboarding.Rejected None) None eq_refl) as H.
  cbv zeta in H. destruct H as (H & _). exact H.
Defined.

(** ** Pages that call the API client in sequence *)

(** X19: on the webhooks page, declining the confirmation dialog of delete
    or regenerate-secret sends nothing and changes nothing; after a
    confirmed delete the page calls deleteWebhook and reloads the list only
    if the delete succeeded, the list shown changes only when that reload
    succeeds, and a failed delete leaves the page as it was.  The new secret
    is shown exactly when regeneration succeeded.  Every request of either
    handler goes to a path under /api/webhooks. *)
Theorem webhooks_actions_are_guarded (W : Type) (id : string) (confirmed : bool)
    (deleted : Onboarding.Settled unit) (regenerated : Onboarding.Settled string)
    (reloaded : Onboarding.Settled (list W)) (s : WebhooksManagement.State W) :
  let del := WebhooksManagement.handleDelete id confirmed deleted reloaded s in
  let reg := WebhooksManagement.handleRegenerateSecret id confirmed regenerated reloaded s in
  (confirmed = false ->
     fst del = s /\ Effects.calls (snd del) = [] /\
     fst reg = s /\ Effects.calls (snd reg) = [] /\ Effects.alerts (snd reg) = []) /\
  (confirmed = true ->
     Effects.calls (snd del) =
       match deleted with
       | Onboarding.Resolved _ => [ApiClient.deleteWebhook id; ApiClient.getWebhooks]
       | Onboarding.Rejected _ => [ApiClient.deleteWebhook id]
       end /\
     WebhooksManagement.webhooks (fst del) =
       match deleted, reloaded with
       | Onboarding.Resolved _, Onboarding.Resolved data => data
       | _, _ => WebhooksManagement.webhooks s
       end /\
     (forall d, deleted = Onboarding.Rejected d -> fst del = s) /\
     Effects.alerts (snd reg) =
       match regenerated with
       | Onboarding.Resolved secret => ["New secret: " +:+ secret]
       | Onboarding.Rejected _ => []
       end) /\
  Forall (fun c => Js.startsWith "/api/webhooks" (ApiClient.path c) = true)
    (Effects.calls (snd del) ++ Effects.calls (snd reg)).
Proof.
  intros del reg. subst del reg.
  unfold WebhooksManagement.handleDelete, WebhooksManagement.handleRegenerateSecret,
    WebhooksManagement.loadWebhooks.
  destruct confirmed, deleted as [[]|dd], regenerated as [secret|dr],
    reloaded as [data|dl]; simpl;
    (split; [intros Hc; try discriminate Hc; repeat split; reflexivity|]);
    (split; [intros Hc; try discriminate Hc; repeat split; try reflexivity;
             intros d Hd; try discriminate Hd; reflexivity|]);
    repeat constructor.
Qed.

Lemma webhooks_actions_are_guarded_witness :
  Effects.calls
    (snd (WebhooksManagement.handleDelete (W := nat) "w1" false
            (Onboarding.Resolved tt) (Onboarding.Resolved [])
            (WebhooksManagement.initial nat))) = [].
Proof.
  pose proof (webhooks_actions_are_guarded nat "w1" false (Onboarding.Resolved tt)
                (Onboarding.Resolved "s") (Onboarding.Resolved [])
                (WebhooksManagement.initial nat)) as H.
  cbv zeta in H. destruct H as (H & _).
  destruct (H eq_refl) as (_ & Hc & _). exact Hc.
Defined.

(** X20: on the analytics page a load starts both calls and updates the
    overview and the reports together or not at all: they change only when
    both calls resolve, and loading ends in every outcome.  Generating a
    report reloads only after a successful generation and then announces
    success whether or not that reload succeeded; a failed generation
    announces failure, reloads nothing and leaves the page as it was. *)
Theorem analytics_load_is_all_or_nothing (O R : Type)
    (generated : Onboarding.Settled unit)
    (overviewData : Onboarding.Settled O) (reportsData : Onboarding.Settled (list R))
    (s : AnalyticsPage.State O R) :
  let loaded := AnalyticsPage.loadData overviewData reportsData s in
  let gen := AnalyticsPage.handleGenerateReport generated overviewData reportsData s in
  Effects.calls (snd loaded) = [ApiClient.getAnalyticsOverview; ApiClient.getReports] /\
  AnalyticsPage.loading (fst loaded) = false /\
  ((exists o r, overviewData = Onboarding.Resolved o /\ reportsData = Onboarding.Resolved r /\
                AnalyticsPage.overview (fst loaded) = Some o /\
                AnalyticsPage.reports (fst loaded) = r) \/
   ((forall o r, ~ (overviewData = Onboarding.Resolved o /\
                    reportsData = Onboarding.Resolved r)) /\
    AnalyticsPage.overview (fst loaded) = AnalyticsPage.overview s /\
    AnalyticsPage.reports (fst loaded) = AnalyticsPage.reports s)) /\
  match generated with
  | Onboarding.Resolved _ =>
      fst gen = fst loaded /\
      Effects.calls (snd gen) =
        [ApiClient.generateReport; ApiClient.getAnalyticsOverview; ApiClient.getReports] /\
      Effects.alerts (snd gen) = ["Report generated successfully!"]
  | Onboarding.Rejected _ =>
      fst gen = s /\
      Effects.calls (snd gen) = [ApiClient.generateReport] /\
      Effects.alerts (snd gen) = ["Failed to generate report"]
  end.
Proof.
  intros loaded gen. subst loaded gen.
  unfold AnalyticsPage.handleGenerateReport, AnalyticsPage.loadData.
  destruct generated as [[]|dg], overviewData as [o|d1], reportsData as [r|d2]; simpl;
    (split; [reflexivity|]); (split; [reflexivity|]);
    (split; [first [ left; do 2 eexists; repeat split; reflexivity
                   | right; split; [intros o' r' [H1 H2]; discriminate|split; reflexivity] ]
            | repeat split; reflexivity ]).
Qed.

(** ** Request paths of the API client, by id *)

Lemma string_app_length (a b : string) :
  String.length (a +:+ b) = (String.length a + String.length b)%nat.
Proof. induction a as [|c a IH]; simpl; [reflexivity|rewrite IH; reflexivity]. Qed.

Lemma string_app_cancel_r (a b suffix : string) :
  a +:+ suffix = b +:+ suffix -> a = b.
Proof.
  revert b. induction a as [|c a IH]; intros [|c' b] H; simpl in H.
  - reflexivity.
  - exfalso. apply (f_equal String.length) in H.
    rewrite !string_app_length in H. simpl in H. lia.
  - exfalso. apply (f_equal String.length) in H.
    rewrite !string_app_length in H. simpl in H. lia.
  - injection H as -> H. f_equal. apply IH, H.
Qed.

(** X22: for each method of the API client that takes an id, two calls
    issue the same request only for the same id: distinct detections,
    incidents, routing rules, webhooks and reports never share a URL. *)
Theorem ApiClient_request_determines_id :
  Forall (fun method : string -> ApiClient.Call =>
            forall a b, ApiClient.request (method a) = ApiClient.request (method b) -> a = b)
    [ ApiClient.getDetection; ApiClient.submitDetectionFeedback;
      ApiClient.updateIncident; ApiClient.resolveIncident;
      ApiClient.updateRoutingRule; ApiClient.deleteRoutingRule;
      ApiClient.getWebhook; ApiClient.updateWebhook; ApiClient.deleteWebhook;
      ApiClient.regenerateWebhookSecret; ApiClient.getReport ].
Proof.
  repeat constructor; intros a b H; simpl in H; injection H as H;
    repeat (apply (inj (String.app _)) in H || injection H as H);
    try exact H;
    first [ exact (string_app_cancel_r a b _ H)
          | apply (inj (String.app "")) in H; exact H
          | apply (inj (String.app "")) in H; exact (string_app_cancel_r a b _ H) ].
Qed.

(** ** Status actions and badge colours *)

(** X23: the action buttons of the incident detail page only ever offer
    the statuses acknowledged and resolved, each of which has a colour in
    StatusBadge; a button never offers the current status or open, so at
    most two updates can follow one another, and a resolved incident offers
    none. *)
Theorem incident_offered_statuses (status : string) :
  Forall (fun s => (s = "acknowledged" \/ s = "resolved") /\
                   is_Some (StatusBadge.statusClasses !! s) /\
                   s <> status /\ s <> "open")
         (IncidentDetailPage.offered status) /\
  IncidentDetailPage.offered "resolved" = [] /\
  (forall s1 s2 s3,
     In s1 (IncidentDetailPage.offered status) ->
     In s2 (IncidentDetailPage.offered s1) ->
     ~ In s3 (IncidentDetailPage.offered s2)).
Proof.
  unfold IncidentDetailPage.offered.
  assert (Hs : forall s, is_Some (StatusBadge.statusClasses !! s) <->
                         StatusBadge.statusClasses !! s <> None).
  { intros s. rewrite <- not_eq_None_Some. tauto. }
  split; [|split; [reflexivity|]].
  - assert (Hack : is_Some (StatusBadge.statusClasses !! "acknowledged"))
      by (apply Hs; discriminate).
    assert (Hres : is_Some (StatusBadge.statusClasses !! "resolved"))
      by (apply Hs; discriminate).
    destruct (String.eqb_spec status "open") as [->|H1]; simpl.
    + apply Forall_cons; split; [|apply Forall_cons; split; [|constructor]].
      * split; [left; reflexivity|]. split; [exact Hack|]. split; discriminate.
      * split; [right; reflexivity|]. split; [exact Hres|]. split; discriminate.
    + destruct (String.eqb_spec status "acknowledged") as [->|H2]; simpl;
        [|constructor].
      apply Forall_cons; split; [|constructor].
      split; [right; reflexivity|]. split; [exact Hres|]. split; discriminate.
  - intros s1 s2 s3.
    destruct (String.eqb_spec status "open") as [->|H1]; simpl.
    + intros [<-|[<-|[]]]; simpl; [intros [<-|[]]; simpl; tauto|tauto].
    + destruct (String.eqb_spec status "acknowledged") as [->|H2]; simpl; [|tauto].
      intros [<-|[]]. simpl. tauto.
Qed.

(** X24: the colour table of the detections list has exactly the
    severities the exported Detection type allows as keys, so the colour
    lookup is defined for every detection of that type. *)
Theorem severity_colours_cover_Detection :
  exists severities,
    Types.member_type <$> Types.member_lookup Types.Detection "severity" =
      Some (Types.TLiteralUnion severities) /\
    dom SeverityColors.severityColors = list_to_set severities /\
    Forall (fun sev => is_Some (SeverityColors.backgroundColor sev)) severities.
Proof.
  eexists. split; [reflexivity|]. split.
  - unfold SeverityColors.severityColors.
    rewrite !dom_insert_L, dom_empty_L. simpl. set_solver.
  - repeat constructor; eexists; reflexivity.
Qed.

(** ** The onboarding wizard over its client object *)

Lemma exported_has_no_verbs :
  ApiClient.provides ApiClient.exported "get" = false /\
  ApiClient.provides ApiClient.exported "post" = false /\
  ApiClient.provides ApiClient.exported "patch" = false.
Proof. repeat split; reflexivity. Qed.

(** The exported object holds exactly the methods of the class. *)
Lemma exported_methods (name : string) :
  ApiClient.provides ApiClient.exported name = true <->
  exists call, ApiClient.method_name call = name.
Proof.
  unfold ApiClient.provides, ApiClient.exported. rewrite existsb_exists. split.
  - intros (x & Hin & Heq). apply String.eqb_eq in Heq. subst x.
    unfold ApiClient.method_names in Hin. simpl in Hin.
    repeat (destruct Hin as [<-|Hin];
            [first [ eexists ApiClient.getDetections; reflexivity
                   | eexists (ApiClient.getDetection ""); reflexivity
                   | eexists ApiClient.getDetectionStats; reflexivity
                   | eexists (ApiClient.submitDetectionFeedback ""); reflexivity
                   | eexists ApiClient.getIncidents; reflexivity
                   | eexists (ApiClient.updateIncident ""); reflexivity
                   | eexists (ApiClient.resolveIncident ""); reflexivity
                   | eexists ApiClient.getRoutingRules; reflexivity
                   | eexists ApiClient.createRoutingRule; reflexivity
                   | eexists (ApiClient.updateRoutingRule ""); reflexivity
                   | eexists (ApiClient.deleteRoutingRule ""); reflexivity
                   | eexists ApiClient.initDefaultRoutingRules; reflexivity
                   | eexists ApiClient.getNotificationLogs; reflexivity
                   | eexists ApiClient.getNotificationStats; reflexivity
                   | eexists ApiClient.getWebhooks; reflexivity
                   | eexists (ApiClient.getWebhook ""); reflexivity
                   | eexists ApiClient.createWebhook; reflexivity
                   | eexists (ApiClient.updateWebhook ""); reflexivity
                   | eexists (ApiClient.deleteWebhook ""); reflexivity
                   | eexists (ApiClient.regenerateWebhookSecret ""); reflexivity
                   | eexists ApiClient.getWebhookTags; reflexivity
                   | eexists ApiClient.getWebhookStats; reflexivity
                   | eexists ApiClient.generateReport; reflexivity
                   | eexists ApiClient.getReports; reflexivity
                   | eexists (ApiClient.getReport ""); reflexivity
                   | eexists ApiClient.getAnalyticsOverview; reflexivity
                   | eexists ApiClient.getSeverityStats; reflexivity
                   | eexists ApiClient.getCategoryStats; reflexivity
                   | eexists ApiClient.getTimelineTrend; reflexivity ]|]).
    destruct Hin.
  - intros (call & <-). exists (ApiClient.method_name call). split.
    + destruct call; simpl; tauto.
    + apply String.eqb_refl.
Qed.

Ltac unfold_wizard :=
  unfold OnboardingWizard.loadStatus, OnboardingWizard.handleCreateWebhook,
    OnboardingWizard.poll, OnboardingWizard.handleVerifyDiscord,
    OnboardingWizard.handleVerifyTelegram, OnboardingWizard.handleComplete,
    OnboardingWizard.thrown.


Section OnboardingClient.
Import Onboarding.
Variable client : ApiClient.Client.

(** On a client with both verbs the loop is the one of [Onboarding]. *)
Lemma handle_with_verbs e c :
  ApiClient.provides client "get" = true ->
  ApiClient.provides client "post" = true ->
  OnboardingWizard.handle client e c = handle e c.
Proof.
  intros Hg Hp.
  destruct e as [r| | | | | |r| | |id|i r| |r| |r| |r| ]; simpl;
    unfold_wizard; rewrite ?Hg, ?Hp; reflexivity.
Qed.

Lemma run_with_verbs es :
  ApiClient.provides client "get" = true ->
  ApiClient.provides client "post" = true ->
  OnboardingWizard.run client es = run es.
Proof.
  intros Hg Hp. unfold OnboardingWizard.run, run.
  assert (Hm : OnboardingWizard.mount client = mount).
  { unfold OnboardingWizard.mount, OnboardingWizard.loadStatus. rewrite Hg. reflexivity. }
  rewrite Hm. generalize mount. induction es as [|e es IH]; intros c; simpl; [reflexivity|].
  unfold OnboardingWizard.step at 2. rewrite handle_with_verbs by assumption.
  apply IH.
Qed.








End OnboardingClient.

Section OnboardingClientPolling.
Import Onboarding.
Variable client : ApiClient.Client.










End OnboardingClientPolling.




(** ** The onboarding wizard: webhook creation and completion on a client *)

Section OnboardingClientHandlers.
Import Onboarding.
Variable client : ApiClient.Client.

(** The [catch] and the [finally] of [handleCreateWebhook] write the error
    and the loading flag and nothing else. *)
Lemma handleCreateWebhook_rejected c detail :
  mounted c = true ->
  handleCreateWebhook_resume (Rejected detail) c =
    with_st (setLoading false
               (setError (Js.or_else detail "Failed to create webhook") (st c))) c.
Proof.
  intros Hm. unfold handleCreateWebhook_resume, setState. simpl.
  rewrite Hm. simpl. rewrite Hm. reflexivity.
Qed.

Lemma handleCreateWebhook_resolved c data :
  mounted c = true ->
  handleCreateWebhook_resume (Resolved data) c =
    with_st (setLoading false
               (setCurrentStep 2
                  (setWebhookConfigured true
                     (setWebhookSecret (webhook_secret data)
                        (setWebhookUrl (webhook_url data) (st c)))))) c.
Proof.
  intros Hm. unfold handleCreateWebhook_resume, setState. simpl.
  rewrite Hm. simpl. rewrite Hm. reflexivity.
Qed.

Lemma handleCreateWebhook_thrown c :
  mounted c = true -> ApiClient.provides client "post" = false ->
  OnboardingWizard.handleCreateWebhook client c =
    with_st (setLoading false (setError "Failed to create webhook" (st c))) c.
Proof.
  intros Hm Hp. unfold OnboardingWizard.handleCreateWebhook. rewrite Hp.
  destruct c as [s m cl tm nt inf rq loc]. simpl in Hm. subst m.
  destruct s; reflexivity.
Qed.

Lemma handleCreateWebhook_sent c :
  mounted c = true -> ApiClient.provides client "post" = true ->
  OnboardingWizard.handleCreateWebhook client c =
    send ApiClient.POST "/onboarding/webhook"
      [("alert_id", JString (alertId (st c)));
       ("description", JString "Onboarding webhook")]
      (with_st (setLoading true (setError "" (st c))) c).
Proof.
  intros Hm Hp. unfold OnboardingWizard.handleCreateWebhook. rewrite Hp.
  unfold setState. simpl. rewrite Hm. simpl. rewrite Hm. reflexivity.
Qed.

Lemma handleComplete_guard_fires c :
  mounted c = true ->
  discordVerified (st c) = false -> telegramVerified (st c) = false ->
  OnboardingWizard.handleComplete client c =
    with_st (setError
      "Please verify at least one notification channel (Discord or Telegram)"
      (st c)) c.
Proof.
  intros Hm Hd Ht. unfold OnboardingWizard.handleComplete, setState.
  rewrite Hd, Ht, Hm. reflexivity.
Qed.

Lemma handleComplete_requests c :
  requests (OnboardingWizard.handleComplete client c) =
    (requests c ++
       (if (negb (negb (discordVerified (st c)) && negb (telegramVerified (st c)))
            && ApiClient.provides client "post")%bool
        then [OnboardingWizard.complete_request (st c)] else []))%list.
Proof.
  unfold OnboardingWizard.handleComplete.
  destruct (negb (discordVerified (st c)) && negb (telegramVerified (st c)))%bool;
    simpl; autorewrite with wizard; [rewrite app_nil_r; reflexivity|].
  destruct (ApiClient.provides client "post"); simpl; autorewrite with wizard.
  - reflexivity.
  - unfold OnboardingWizard.thrown, handleComplete_resume.
    autorewrite with wizard. rewrite app_nil_r. reflexivity.
Qed.

Lemma handleComplete_thrown c :
  mounted c = true ->
  (negb (discordVerified (st c)) && negb (telegramVerified (st c)))%bool = false ->
  ApiClient.provides client "post" = false ->
  OnboardingWizard.handleComplete client c =
    with_st (setLoading false (setError "Failed to complete onboarding" (st c))) c.
Proof.
  intros Hm Hv Hp. unfold OnboardingWizard.handleComplete. rewrite Hv, Hp.
  destruct c as [s m cl tm nt inf rq loc]. simpl in Hm. subst m.
  destruct s; reflexivity.
Qed.

End OnboardingClientHandlers.

Lemma or_else_nonempty (v : option string) (dflt : string) :
  dflt <> "" -> Js.or_else v dflt <> "".
Proof.
  intros Hd. destruct v as [s|]; simpl; [|exact Hd].
  destruct (String.eqb_spec s ""); assumption.
Qed.

(** C7: handleCreateWebhook asks the client for POST /onboarding/webhook.
    When the call fails, either because the client has no [post] and the
    call throws (so it is with the exported client) or because the request
    is rejected, only the error and the loading flag are written: the error
    is 'Failed to create webhook' after a throw and the server's detail or
    that text after a rejection, it is never empty, loading is off again,
    and webhookConfigured, currentStep, the webhook URL and the secret are
    what they were, as are timers, requests and location.  When the call
    resolves, URL and secret are taken from the response, webhookConfigured
    is set and currentStep becomes 2. *)
Theorem handleCreateWebhook_failure_keeps_state
    (client : ApiClient.Client) (c : Onboarding.Component)
    (detail : option string) (data : Onboarding.WebhookCreated) :
  Onboarding.mounted c = true ->
  (ApiClient.provides client "post" = false ->
   OnboardingWizard.handleCreateWebhook client c =
     Onboarding.with_st
       (Onboarding.setLoading false
          (Onboarding.setError "Failed to create webhook" (Onboarding.st c))) c) /\
  ApiClient.provides ApiClient.exported "post" = false /\
  (ApiClient.provides client "post" = true ->
   OnboardingWizard.handleCreateWebhook client c =
     Onboarding.send ApiClient.POST "/onboarding/webhook"
       [("alert_id", Onboarding.JString (Onboarding.alertId (Onboarding.st c)));
        ("description", Onboarding.JString "Onboarding webhook")]
       (Onboarding.with_st
          (Onboarding.setLoading true (Onboarding.setError "" (Onboarding.st c))) c)) /\
  Onboarding.handleCreateWebhook_resume (Onboarding.Rejected detail) c =
    Onboarding.with_st
      (Onboarding.setLoading false
         (Onboarding.setError (Js.or_else detail "Failed to create webhook")
            (Onboarding.st c))) c /\
  (forall failed,
     (ApiClient.provides client "post" = false /\
      failed = OnboardingWizard.handleCreateWebhook client c) \/
     failed = Onboarding.handleCreateWebhook_resume (Onboarding.Rejected detail) c ->
     Onboarding.error (Onboarding.st failed) <> "" /\
     Onboarding.loading (Onboarding.st failed) = false /\
     Onboarding.webhookConfigured (Onboarding.st failed) =
       Onboarding.webhookConfigured (Onboarding.st c) /\
     Onboarding.currentStep (Onboarding.st failed) =
       Onboarding.currentStep (Onboarding.st c) /\
     Onboarding.webhookUrl (Onboarding.st failed) =
       Onboarding.webhookUrl (Onboarding.st c) /\
     Onboarding.webhookSecret (Onboarding.st failed) =
       Onboarding.webhookSecret (Onboarding.st c) /\
     Onboarding.timers failed = Onboarding.timers c /\
     Onboarding.requests failed = Onboarding.requests c /\
     Onboarding.location failed = Onboarding.location c) /\
  (Onboarding.currentStep (Onboarding.st c) = 1 ->
   Onboarding.webhookConfigured (Onboarding.st c) = false ->
   ApiClient.provides client "post" = false ->
   OnboardingWizard.step client c Onboarding.SubmitWebhook =
     OnboardingWizard.handleCreateWebhook client c) /\
  (let created :=
     Onboarding.handleCreateWebhook_resume (Onboarding.Resolved data) c in
   Onboarding.webhookUrl (Onboarding.st created) = Onboarding.webhook_url data /\
   Onboarding.webhookSecret (Onboarding.st created) = Onboarding.webhook_secret data /\
   Onboarding.webhookConfigured (Onboarding.st created) = true /\
   Onboarding.currentStep (Onboarding.st created) = 2 /\
   Onboarding.loading (Onboarding.st created) = false /\
   Onboarding.error (Onboarding.st created) = Onboarding.error (Onboarding.st c)).
Proof.
  intros Hm.
  split; [intros Hp; apply handleCreateWebhook_thrown; assumption|].
  split; [reflexivity|].
  split; [intros Hp; apply handleCreateWebhook_sent; assumption|].
  split; [apply handleCreateWebhook_rejected; assumption|].
  split; [|split].
  - intros failed [[Hp ->] | ->].
    + rewrite handleCreateWebhook_thrown by assumption. simpl.
      repeat split; discriminate.
    + rewrite handleCreateWebhook_rejected by assumption. simpl.
      repeat split. apply or_else_nonempty. discriminate.
  - intros Hs Hw Hp. unfold OnboardingWizard.step. simpl.
    rewrite Hs, Hw. simpl.
    apply commit_same_deps.
    rewrite handleCreateWebhook_thrown by assumption. reflexivity.
  - rewrite handleCreateWebhook_resolved by assumption. simpl.
    repeat split.
Qed.

Lemma handleCreateWebhook_failure_keeps_state_witness :
  let c := OnboardingWizard.run ApiClient.exported [Onboarding.InputAlertId "alert-1"] in
  let failed := OnboardingWizard.step ApiClient.exported c Onboarding.SubmitWebhook in
  Onboarding.error (Onboarding.st failed) = "Failed to create webhook" /\
  Onboarding.currentStep (Onboarding.st failed) = 1 /\
  Onboarding.webhookConfigured (Onboarding.st failed) = false /\
  Onboarding.webhookUrl (Onboarding.st failed) = "" /\
  Onboarding.webhookSecret (Onboarding.st failed) = "" /\
  Onboarding.requests failed = [].
Proof.
  intros c failed.
  pose proof (handleCreateWebhook_failure_keeps_state ApiClient.exported c None
                {| Onboarding.webhook_url := ""; Onboarding.webhook_secret := "" |}
                eq_refl) as H.
  destruct H as (Hthrown & Hexp & _ & _ & Hfields & Hstep & _).
  assert (Hf : failed = OnboardingWizard.handleCreateWebhook ApiClient.exported c)
    by (apply Hstep; reflexivity).
  destruct (Hfields failed (or_introl (conj Hexp Hf)))
    as (_ & _ & Hw & Hs & Hu & Hk & _ & Hr & _).
  split; [rewrite Hf, (Hthrown Hexp); reflexivity|].
  split; [rewrite Hs; reflexivity|].
  split; [rewrite Hw; reflexivity|].
  split; [rewrite Hu; reflexivity|].
  split; [rewrite Hk; reflexivity|].
  rewrite Hr. reflexivity.
Defined.

(** C10: handleComplete is guarded.  With neither channel verified it only
    writes the error asking for a verification: no request is made and
    every other state cell, the timers and the location are as before (and
    the Complete button is disabled in that state).  A request is added by
    the handler only when a channel is verified and the client has [post],
    and it is then POST /onboarding/complete with the e-mail flag; on a
    client without [post], as the exported one, the handler never adds a
    request, and past the guard the call throws and leaves 'Failed to
    complete onboarding' with loading off. *)
Theorem handleComplete_guard
    (client : ApiClient.Client) (c : Onboarding.Component) :
  Onboarding.mounted c = true ->
  (Onboarding.discordVerified (Onboarding.st c) = false ->
   Onboarding.telegramVerified (Onboarding.st c) = false ->
   let refused := OnboardingWizard.handleComplete client c in
   refused =
     Onboarding.with_st
       (Onboarding.setError
          "Please verify at least one notification channel (Discord or Telegram)"
          (Onboarding.st c)) c /\
   Onboarding.requests refused = Onboarding.requests c /\
   OnboardingWizard.step client c Onboarding.ClickComplete = refused /\
   Onboarding.complete_disabled (Onboarding.st c) = true) /\
  (Onboarding.requests (OnboardingWizard.handleComplete client c) <>
     Onboarding.requests c ->
   (Onboarding.discordVerified (Onboarding.st c) = true \/
    Onboarding.telegramVerified (Onboarding.st c) = true) /\
   ApiClient.provides client "post" = true /\
   Onboarding.requests (OnboardingWizard.handleComplete client c) =
     (Onboarding.requests c ++
        [OnboardingWizard.complete_request (Onboarding.st c)])%list) /\
  (ApiClient.provides client "post" = false ->
   Onboarding.requests (OnboardingWizard.handleComplete client c) =
     Onboarding.requests c) /\
  ApiClient.provides ApiClient.exported "post" = false /\
  (Onboarding.discordVerified (Onboarding.st c) = true \/
   Onboarding.telegramVerified (Onboarding.st c) = true ->
   ApiClient.provides client "post" = false ->
   OnboardingWizard.handleComplete client c =
     Onboarding.with_st
       (Onboarding.setLoading false
          (Onboarding.setError "Failed to complete onboarding" (Onboarding.st c))) c).
Proof.
  intros Hm.
  split; [|split; [|split; [|split]]].
  - intros Hd Ht refused. subst refused.
    rewrite (handleComplete_guard_fires client c Hm Hd Ht).
    split; [reflexivity|]. split; [reflexivity|]. split.
    + unfold OnboardingWizard.step. simpl.
      rewrite (handleComplete_guard_fires client c Hm Hd Ht).
      apply commit_same_deps. reflexivity.
    + unfold Onboarding.complete_disabled. rewrite Hd, Ht.
      apply orb_true_r.
  - intros Hne. rewrite handleComplete_requests in Hne |- *.
    destruct (Onboarding.discordVerified (Onboarding.st c));
      destruct (Onboarding.telegramVerified (Onboarding.st c));
      destruct (ApiClient.provides client "post"); simpl in *;
      rewrite ?app_nil_r in Hne; try congruence; auto.
  - intros Hp. rewrite handleComplete_requests, Hp, andb_false_r.
    apply app_nil_r.
  - reflexivity.
  - intros Hv Hp. apply handleComplete_thrown; [assumption| |assumption].
    destruct Hv as [-> | ->]; [reflexivity|apply andb_false_r].
Qed.

Lemma handleComplete_guard_witness :
  let c := OnboardingWizard.run ApiClient.exported [Onboarding.ToggleEmail false] in
  let refused := OnboardingWizard.step ApiClient.exported c Onboarding.ClickComplete in
  Onboarding.error (Onboarding.st refused) =
    "Please verify at least one notification channel (Discord or Telegram)" /\
  Onboarding.requests refused = [] /\
  Onboarding.loading (Onboarding.st refused) = false.
Proof.
  intros c refused.
  destruct (proj1 (handleComplete_guard ApiClient.exported c eq_refl) eq_refl eq_refl)
    as (Heq & Hr & Hstep & _).
  assert (Hf : refused = OnboardingWizard.handleComplete ApiClient.exported c)
    by (symmetry; exact Hstep).
  rewrite Hf. split; [rewrite Heq; reflexivity|].
  split; [rewrite Hr; reflexivity|]. rewrite Heq. reflexivity.
Defined.

(** ** The onboarding wizard on a client without the verbs *)

Section OnboardingWithoutVerbs.
Import Onboarding.
Variable client : ApiClient.Client.
Hypothesis no_get : ApiClient.provides client "get" = false.
Hypothesis no_post : ApiClient.provides client "post" = false.

Lemma AtStart_mount : OnboardingWizard.AtStart (OnboardingWizard.mount client).
Proof.
  unfold OnboardingWizard.mount, OnboardingWizard.loadStatus. rewrite no_get.
  constructor; reflexivity.
Qed.

Lemma AtStart_handle c e :
  OnboardingWizard.AtStart c ->
  OnboardingWizard.AtStart (OnboardingWizard.handle client e c).
Proof.
  intros [Hs Hw Ht Hp Hd Htg Hu Hk Htm Hcl Hin Hrq Hloc].
  destruct c as [s m cl tm nt inf rq loc]. simpl in *. subst tm cl inf rq loc.
  destruct s. simpl in *. subst.
  destruct e as [r| | | | | |r| | |id|i r| |r| |r| |r| ]; simpl;
    rewrite ?no_get, ?no_post, ?lookup_empty; simpl;
    unfold_wizard; rewrite ?no_post; unfold_handlers; unfold setState; simpl;
    try (rewrite bool_decide_eq_false_2 by apply not_elem_of_nil);
    destruct m; simpl; constructor; reflexivity.
Qed.

Lemma AtStart_step c e :
  OnboardingWizard.AtStart c ->
  OnboardingWizard.AtStart (OnboardingWizard.step client c e).
Proof.
  intros H. pose proof (AtStart_handle c e H) as H'.
  unfold OnboardingWizard.step. rewrite commit_same_deps; [exact H'|].
  unfold deps.
  rewrite (OnboardingWizard.start_step _ H), (OnboardingWizard.start_webhook _ H),
    (OnboardingWizard.start_test _ H), (OnboardingWizard.start_step _ H'),
    (OnboardingWizard.start_webhook _ H'), (OnboardingWizard.start_test _ H').
  reflexivity.
Qed.

Lemma AtStart_run es : OnboardingWizard.AtStart (OnboardingWizard.run client es).
Proof.
  unfold OnboardingWizard.run. generalize AtStart_mount.
  generalize (OnboardingWizard.mount client).
  induction es as [|e es IH]; intros c H; simpl; [exact H|].
  apply IH, AtStart_step, H.
Qed.

End OnboardingWithoutVerbs.

(** X2: on a client object that has neither [get] nor [post], as the
    exported [apiClient], the wizard never gets past its first screen:
    whatever the user does and whichever event arrives, it has sent no
    request, holds no timer and no pending poll, is at step 1 with no
    webhook configured, no URL or secret, no test received, nothing
    verified and the polling flag off, and has not navigated away; a click
    on Complete is always refused by the guard, and submitting the webhook
    form always ends in 'Failed to create webhook'. *)
Theorem wizard_without_verbs_stays_at_step_1
    (client : ApiClient.Client) (es : list Onboarding.Event) :
  ApiClient.provides client "get" = false ->
  ApiClient.provides client "post" = false ->
  let c := OnboardingWizard.run client es in
  OnboardingWizard.AtStart c /\
  (Onboarding.mounted c = true ->
   Onboarding.error
     (Onboarding.st (OnboardingWizard.step client c Onboarding.ClickComplete)) =
     "Please verify at least one notification channel (Discord or Telegram)" /\
   Onboarding.error
     (Onboarding.st (OnboardingWizard.step client c Onboarding.SubmitWebhook)) =
     "Failed to create webhook").
Proof.
  intros Hg Hp c.
  pose proof (AtStart_run client Hg Hp es) as H. fold c in H.
  split; [exact H|]. intros Hm. split.
  - unfold OnboardingWizard.step. simpl.
    rewrite (handleComplete_guard_fires client c Hm
               (OnboardingWizard.start_discord _ H)
               (OnboardingWizard.start_telegram _ H)).
    rewrite commit_same_deps by reflexivity. reflexivity.
  - unfold OnboardingWizard.step. simpl.
    rewrite (OnboardingWizard.start_step _ H), (OnboardingWizard.start_webhook _ H).
    simpl. rewrite (handleCreateWebhook_thrown client c Hm Hp).
    rewrite commit_same_deps by reflexivity. reflexivity.
Qed.

Lemma wizard_without_verbs_stays_at_step_1_witness :
  OnboardingWizard.AtStart
    (OnboardingWizard.run ApiClient.exported
       [ Onboarding.InputAlertId "alert-1"; Onboarding.SubmitWebhook;
         Onboarding.ClickNextTestWebhook; Onboarding.InputDiscordId "42";
         Onboarding.ClickVerifyDiscord; Onboarding.ClickComplete ]).
Proof.
  apply (wizard_without_verbs_stays_at_step_1 ApiClient.exported
           [ Onboarding.InputAlertId "alert-1"; Onboarding.SubmitWebhook;
             Onboarding.ClickNextTestWebhook; Onboarding.InputDiscordId "42";
             Onboarding.ClickVerifyDiscord; Onboarding.ClickComplete ]
           eq_refl eq_refl).
Defined.

(** ** The auth provider on a client *)

(** X11: login asks the client for POST /auth/login.  On a client without
    [post], as the exported one, the call throws before any request: the
    promise of login rejects with localStorage, the auth context and the
    request log untouched, so no token is stored.  On a client with [post]
    the request is made and login waits; when the call resolves, the
    returned token is stored under access_token and the user is set, so
    requests built afterwards carry Authorization = 'Bearer ' + token for a
    non-empty token, until logout removes it; when the call rejects, nothing
    is written. *)
Theorem login_outcomes (client : ApiClient.Client) (s : AuthProvider.Session)
    (data : AuthProvider.LoginData) (detail : option string) :
  (ApiClient.provides client "post" = false ->
   AuthProvider.login client s = AuthProvider.Threw s) /\
  AuthProvider.login ApiClient.exported s = AuthProvider.Threw s /\
  (ApiClient.provides client "post" = true ->
   exists waiting,
     AuthProvider.login client s = AuthProvider.Awaiting waiting /\
     AuthProvider.requests waiting =
       (AuthProvider.requests s ++ [(ApiClient.POST, "/auth/login")])%list /\
     AuthProvider.storage waiting = AuthProvider.storage s /\
     AuthProvider.ctx waiting = AuthProvider.ctx s) /\
  (let s' := AuthProvider.login_resume (Onboarding.Resolved data) s in
   AuthProvider.storage s' =
     <["access_token" := AuthProvider.access_token data]> (AuthProvider.storage s) /\
   Routing.user (AuthProvider.ctx s') = Some (AuthProvider.login_user data) /\
   AuthProvider.isAuthenticated s' = true /\
   AuthProvider.requests s' = AuthProvider.requests s /\
   (AuthProvider.access_token data <> "" ->
    ApiClient.send_headers (AuthProvider.storage s') !! "Authorization" =
      Some ("Bearer " +:+ AuthProvider.access_token data)) /\
   ApiClient.send_headers (AuthProvider.storage (AuthProvider.logout s'))
     !! "Authorization" = None) /\
  AuthProvider.login_resume (Onboarding.Rejected detail) s = s.
Proof.
  split; [intros Hp; unfold AuthProvider.login; rewrite Hp; reflexivity|].
  split; [reflexivity|].
  split.
  { intros Hp. unfold AuthProvider.login. rewrite Hp.
    eexists. split; [reflexivity|]. repeat split. }
  split; [|reflexivity].
  cbv zeta. simpl. repeat split.
  - intros Hne. apply send_headers_with_token; [apply lookup_insert_eq|exact Hne].
  - rewrite send_headers_without_token; [reflexivity|].
    rewrite lookup_delete_eq. reflexivity.
Qed.

Lemma login_outcomes_witness :
  ApiClient.send_headers
    (AuthProvider.storage
       (AuthProvider.login_resume
          (Onboarding.Resolved
             {| AuthProvider.access_token := "abc";
                AuthProvider.login_user :=
                  {| Routing.user_id := "u1"; Routing.email := "a@b.c";
                     Routing.full_name := "A"; Routing.is_verified := true;
                     Routing.onboarding_completed := true |} |})
          (AuthProvider.mount ApiClient.exported ∅)))
    !! "Authorization" = Some "Bearer abc" /\
  AuthProvider.login ApiClient.exported (AuthProvider.mount ApiClient.exported ∅) =
    AuthProvider.Threw (AuthProvider.mount ApiClient.exported ∅).
Proof.
  pose proof (login_outcomes ApiClient.exported
                (AuthProvider.mount ApiClient.exported ∅)
                {| AuthProvider.access_token := "abc";
                   AuthProvider.login_user :=
                     {| Routing.user_id := "u1"; Routing.email := "a@b.c";
                     Routing.full_name := "A"; Routing.is_verified := true;
                     Routing.onboarding_completed := true |} |} None) as H.
  cbv zeta in H. destruct H as (_ & Hthrew & _ & (_ & _ & _ & _ & Hh & _) & _).
  split; [apply Hh; discriminate|exact Hthrew].
Defined.

(** X12: on mount the auth provider asks for the user only when a non-empty
    token is stored; without one it makes no request, keeps localStorage and
    ends loading at once.  With a token, on a client without [get], as the
    exported one, refreshUser throws inside its [try]: no request is made,
    the token is removed, the user stays null and loading ends within the
    mount effect; so on such a client, whatever is stored, requests built
    afterwards carry no Authorization header and ProtectedRoute redirects
    every location to /login.  On a client with [get] the request GET
    /auth/me is made and ProtectedRoute shows the loading screen until it
    settles.  When refreshUser settles loading is off: on success the user
    is set and storage kept, on rejection the user is null and the token
    removed. *)
Theorem session_restore_on_mount (client : ApiClient.Client)
    (stored : gmap string string) (waiting : AuthProvider.Session)
    (data : Routing.User) (detail : option string) :
  let s := AuthProvider.mount client stored in
  (Js.truthy (stored !! "access_token") = false ->
   s = AuthProvider.setLoading false (AuthProvider.initial stored)) /\
  (Js.truthy (stored !! "access_token") = true ->
   ApiClient.provides client "get" = false ->
   AuthProvider.storage s = delete "access_token" stored) /\
  ApiClient.provides ApiClient.exported "get" = false /\
  (ApiClient.provides client "get" = false ->
   AuthProvider.requests s = [] /\
   Routing.loading (AuthProvider.ctx s) = false /\
   Routing.user (AuthProvider.ctx s) = None /\
   (forall k, k <> "access_token" -> AuthProvider.storage s !! k = stored !! k) /\
   ApiClient.send_headers (AuthProvider.storage s) !! "Authorization" = None /\
   forall pathname children,
     Routing.ProtectedRoute (AuthProvider.ctx s) pathname children =
     Routing.Navigate "/login" (Some pathname) true) /\
  (Js.truthy (stored !! "access_token") = true ->
   ApiClient.provides client "get" = true ->
   AuthProvider.requests s = [(ApiClient.GET, "/auth/me")] /\
   AuthProvider.storage s = stored /\
   Routing.user (AuthProvider.ctx s) = None /\
   forall pathname children,
     Routing.ProtectedRoute (AuthProvider.ctx s) pathname children =
     Routing.LoadingScreen) /\
  (let s' := AuthProvider.refreshUser_resume (Onboarding.Resolved data) waiting in
   Routing.loading (AuthProvider.ctx s') = false /\
   Routing.user (AuthProvider.ctx s') = Some data /\
   AuthProvider.storage s' = AuthProvider.storage waiting) /\
  (let s' := AuthProvider.refreshUser_resume (Onboarding.Rejected detail) waiting in
   Routing.loading (AuthProvider.ctx s') = false /\
   Routing.user (AuthProvider.ctx s') = None /\
   AuthProvider.storage s' = delete "access_token" (AuthProvider.storage waiting) /\
   ApiClient.send_headers (AuthProvider.storage s') !! "Authorization" = None /\
   forall pathname children,
     Routing.ProtectedRoute (AuthProvider.ctx s') pathname children =
     Routing.Navigate "/login" (Some pathname) true).
Proof.
  intros s. subst s. unfold AuthProvider.mount, AuthProvider.refreshUser.
  split; [intros ->; reflexivity|].
  split; [intros -> ->; reflexivity|].
  split; [reflexivity|].
  split; [|split; [|split]].
  - intros ->.
    destruct (Js.truthy (stored !! "access_token")) eqn:Ht; simpl.
    + split; [reflexivity|]. split; [reflexivity|]. split; [reflexivity|].
      split; [intros k Hk; apply lookup_delete_ne; congruence|].
      split; [|reflexivity].
      rewrite send_headers_without_token; [reflexivity|].
      rewrite lookup_delete_eq. reflexivity.
    + split; [reflexivity|]. split; [reflexivity|]. split; [reflexivity|].
      split; [reflexivity|]. split; [|reflexivity].
      rewrite send_headers_without_token; [reflexivity|exact Ht].
  - intros -> ->. simpl. repeat split.
  - simpl. repeat split.
  - simpl. split; [reflexivity|]. split; [reflexivity|]. split; [reflexivity|].
    split; [|reflexivity].
    rewrite send_headers_without_token; [reflexivity|].
    rewrite lookup_delete_eq. reflexivity.
Qed.

Lemma session_restore_on_mount_witness :
  AuthProvider.storage
    (AuthProvider.mount ApiClient.exported {["access_token" := "abc"]}) =
    delete "access_token" {["access_token" := "abc"]} /\
  Routing.ProtectedRoute
    (AuthProvider.ctx
       (AuthProvider.mount ApiClient.exported {["access_token" := "abc"]}))
    "/dashboard" (Routing.Component Routing.Dashboard) =
    Routing.Navigate "/login" (Some "/dashboard") true.
Proof.
  pose proof (session_restore_on_mount ApiClient.exported {["access_token" := "abc"]}
                (AuthProvider.initial ∅)
                {| Routing.user_id := "u1"; Routing.email := "a@b.c";
                   Routing.full_name := "A"; Routing.is_verified := true;
                   Routing.onboarding_completed := true |} None) as H.
  cbv zeta in H. destruct H as (_ & Hs & Hexp & Hno & _).
  split; [apply Hs; reflexivity|].
  destruct (Hno Hexp) as (_ & _ & _ & _ & _ & Hr). apply Hr.
Defined.

(** ** The email verification page on a client *)

(** X21: the email verification page makes no request and reports 'Invalid
    verification link' when the token is missing or empty.  With a token,
    on a client without [get], as the exported one, the call throws inside
    the [try]: no request is made and the page shows the error 'Failed to
    verify email' with no redirect scheduled, so with the exported client
    the page ends in error for every link.  On a client with [get] the page
    requests /auth/verify-email?token=<token> once and keeps its loading
    status while the call is pending; when it resolves the page shows
    success with the server's message and schedules the redirect to /login
    after 3000 ms, and when it rejects it shows the server's detail or
    'Failed to verify email' and schedules nothing. *)
Theorem verifyEmail_on_client (client : ApiClient.Client) (token : option string)
    (pending : VerifyEmailPage.State) (msg : string) (detail : option string) :
  let s := VerifyEmailPage.mount client token in
  (Js.truthy token = false ->
   s = {| VerifyEmailPage.status := VerifyEmailPage.error;
          VerifyEmailPage.message := "Invalid verification link";
          VerifyEmailPage.requests := [];
          VerifyEmailPage.redirect := None |}) /\
  (Js.truthy token = true -> ApiClient.provides client "get" = false ->
   s = {| VerifyEmailPage.status := VerifyEmailPage.error;
          VerifyEmailPage.message := "Failed to verify email";
          VerifyEmailPage.requests := [];
          VerifyEmailPage.redirect := None |}) /\
  (let s := VerifyEmailPage.mount ApiClient.exported token in
   VerifyEmailPage.status s = VerifyEmailPage.error /\
   VerifyEmailPage.requests s = [] /\
   VerifyEmailPage.redirect s = None) /\
  (forall t, token = Some t -> t <> "" -> ApiClient.provides client "get" = true ->
   s = {| VerifyEmailPage.status := VerifyEmailPage.loading;
          VerifyEmailPage.message := "";
          VerifyEmailPage.requests := ["/auth/verify-email?token=" +:+ t];
          VerifyEmailPage.redirect := None |}) /\
  VerifyEmailPage.verifyEmail_resume (Onboarding.Resolved msg) pending =
    {| VerifyEmailPage.status := VerifyEmailPage.success;
       VerifyEmailPage.message := msg;
       VerifyEmailPage.requests := VerifyEmailPage.requests pending;
       VerifyEmailPage.redirect := Some (3000, "/login") |} /\
  VerifyEmailPage.verifyEmail_resume (Onboarding.Rejected detail) pending =
    {| VerifyEmailPage.status := VerifyEmailPage.error;
       VerifyEmailPage.message := Js.or_else detail "Failed to verify email";
       VerifyEmailPage.requests := VerifyEmailPage.requests pending;
       VerifyEmailPage.redirect := VerifyEmailPage.redirect pending |}.
Proof.
  intros s. subst s. unfold VerifyEmailPage.mount, VerifyEmailPage.verifyEmail.
  split; [intros ->; reflexivity|].
  split; [intros -> ->; reflexivity|].
  split; [destruct (Js.truthy token); simpl; repeat split|].
  split; [|split; reflexivity].
  intros t -> Hne ->. apply truthy_nonempty in Hne. rewrite Hne. simpl.
  unfold VerifyEmailPage.request_path. simpl.
  simpl in Hne. apply negb_true_iff in Hne. rewrite Hne. reflexivity.
Qed.

Lemma verifyEmail_on_client_witness :
  VerifyEmailPage.mount ApiClient.exported (Some "tok-1") =
    {| VerifyEmailPage.status := VerifyEmailPage.error;
       VerifyEmailPage.message := "Failed to verify email";
       VerifyEmailPage.requests := [];
       VerifyEmailPage.redirect := None |} /\
  VerifyEmailPage.mount ApiClient.axios_verbs (Some "tok-1") =
    {| VerifyEmailPage.status := VerifyEmailPage.loading;
       VerifyEmailPage.message := "";
       VerifyEmailPage.requests := ["/auth/verify-email?token=tok-1"];
       VerifyEmailPage.redirect := None |}.
Proof.
  split.
  - apply (proj1 (proj2 (verifyEmail_on_client ApiClient.exported (Some "tok-1")
                           VerifyEmailPage.initial "" None))); reflexivity.
  - pose proof (verifyEmail_on_client ApiClient.axios_verbs (Some "tok-1")
                  VerifyEmailPage.initial "" None) as H.
    cbv zeta in H. destruct H as (_ & _ & _ & H & _).
    apply (H "tok-1"); [reflexivity|discriminate|reflexivity].
Defined.

(** ** Pagination over the responses of the list pages *)

Section PaginationFixedTotal.
Variable tp : Z.
Hypothesis tp_pos : 1 <= tp.




End PaginationFixedTotal.



